(** * Authentication and session layer of the Sales BI dashboard

    A shallow embedding of [auth/models.py], [auth/handlers.py],
    [auth/decorators.py] and [auth/ui.py], with the part of
    [config/database.py] they call.

    Python values are dynamically typed; the embedding keeps that: the
    entries of [st.session_state] and the fields of a [User] are tagged
    values, and an operation applied to a value of the wrong shape raises
    the exception Python raises.  Effects (session dictionary, users table,
    clock, store connections, UI messages) are threaded through a small
    state-and-exception monad.

    Limits of the model.  A [datetime] is naive, as every one the code
    writes is, and its arithmetic does not overflow.  The store compares
    usernames exactly, an attempt to reach it fails at connecting or not
    at all, and its [NOW()] reads the same clock as [datetime.now()].
    Logging is not modelled.  Of the pages, the calls into the handlers,
    the notices and the two ways a script run is cut short ([st.stop] and
    [st.rerun]) are modelled; the layout of the widgets is not.

    The file has the embedding first, then the vocabulary of the
    statements and the worked scenarios, then the properties. *)

From Stdlib Require Import ZArith Lia DecimalString DecimalZ.
From stdpp Require Import base option list gmap strings fin_maps.

Local Open Scope string_scope.
Local Open Scope list_scope.
Local Open Scope Z_scope.

(** ** Values *)

(** A naive [datetime], counted in microseconds. *)
Definition datetime := Z.

(** [timedelta(seconds=n)] in microseconds. *)
Definition timedelta_seconds (n : Z) : Z := n * 1000000.

(** What the program puts into dict fields and list elements. *)
Inductive scalar :=
| SNone
| SBool (b : bool)
| SInt (z : Z)
| SStr (s : string)
| SDatetime (d : datetime).

#[global] Instance scalar_eq_dec : EqDecision scalar.
Proof. solve_decision. Defined.

(** An entry of [st.session_state]. *)
Inductive value :=
| VScalar (x : scalar)
| VList (l : list scalar)
| VDict (d : gmap string scalar).

(** Python truthiness ([if x:], [not x]). *)
Definition scalar_truthy (x : scalar) : bool :=
  match x with
  | SNone => false
  | SBool b => b
  | SInt z => negb (z =? 0)
  | SStr s => negb (String.eqb s "")
  | SDatetime _ => true
  end.

Definition truthy (v : value) : bool :=
  match v with
  | VScalar x => scalar_truthy x
  | VList l => match l with [] => false | _ => true end
  | VDict d => negb (bool_decide (d = ∅))
  end.

(** ** Exceptions and results *)

Inductive exn :=
| AuthenticationError (msg : string)
| ValueError
| TypeError
| IndexError
| KeyError
| AttributeError
| UnicodeEncodeError
| OperationalError.

Inductive result (A : Type) :=
| Ok (a : A)
| Raise (e : exn).
Arguments Ok {A} a.
Arguments Raise {A} e.

Definition ACCOUNT_LOCKED : string :=
  "Account is temporarily locked due to multiple failed attempts".
Definition ACCOUNT_DEACTIVATED : string := "Account is deactivated".
Definition AUTHENTICATION_FAILED : string := "Authentication failed".

(** ** [auth/models.py] *)

Module UserRole.
Definition ADMIN : string := "admin".
Definition MANAGER : string := "manager".
Definition SALES : string := "sales".
Definition SUPPLY_CHAIN : string := "supply_chain".
Definition VIEWER : string := "viewer".
End UserRole.

(** The dataclass does not check its annotations at run time, so each
    field holds whatever it was given. *)
Record User := mkUser {
  id : scalar;
  username : scalar;
  email : scalar;
  role : scalar;
  employee_id : scalar;
  is_active : scalar;
  last_login : scalar;
  created_date : scalar
}.

(** The annotations of the dataclass, as a predicate. *)
Definition is_int (x : scalar) : Prop := ∃ z, x = SInt z.
Definition is_str (x : scalar) : Prop := ∃ s, x = SStr s.
Definition is_bool (x : scalar) : Prop := ∃ b, x = SBool b.
Definition is_optional_int (x : scalar) : Prop := x = SNone ∨ is_int x.
Definition is_optional_datetime (x : scalar) : Prop :=
  x = SNone ∨ ∃ d, x = SDatetime d.

Record well_typed (u : User) : Prop := {
  wt_id : is_int (id u);
  wt_username : is_str (username u);
  wt_email : is_str (email u);
  wt_role : is_str (role u);
  wt_employee_id : is_optional_int (employee_id u);
  wt_is_active : is_bool (is_active u);
  wt_last_login : is_optional_datetime (last_login u);
  wt_created_date : is_optional_datetime (created_date u)
}.

(** [x == s] for a string literal [s]. *)
Definition scalar_eq_str (x : scalar) (s : string) : bool :=
  match x with
  | SStr r => String.eqb r s
  | _ => false
  end.

(** [x in roles] for a list of strings. *)
Definition scalar_in (x : scalar) (roles : list string) : bool :=
  existsb (scalar_eq_str x) roles.

Definition is_admin (u : User) : bool := scalar_eq_str (role u) UserRole.ADMIN.
Definition is_manager (u : User) : bool :=
  scalar_eq_str (role u) UserRole.MANAGER.
Definition can_view_all_data (u : User) : bool :=
  scalar_in (role u) [UserRole.ADMIN; UserRole.MANAGER].
Definition can_export_data (u : User) : bool :=
  negb (scalar_eq_str (role u) UserRole.VIEWER).
Definition has_role (u : User) (r : string) : bool := scalar_eq_str (role u) r.
Definition has_any_role (u : User) (roles : list string) : bool :=
  scalar_in (role u) roles.

(** ** The runtime the program calls into

    Library and operating-system services the code uses but does not
    define: the wall clock, the store's reachability, the entropy source,
    the digest and the ISO-8601 codec of [datetime].  The only laws assumed
    are the ones the [datetime] documentation states: [isoformat] writes at
    least the date, and [fromisoformat] inverts it. *)
Record runtime := {
  (** the n-th reading of [datetime.now()] (or of the store's [NOW()]) *)
  clock : nat → datetime;
  (** whether the n-th connection attempt to the store goes through *)
  conn_ok : nat → bool;
  (** the n-th draw of [secrets.token_hex(32)] *)
  token_hex : nat → string;
  (** [hashlib.sha256(s.encode()).hexdigest()]; [None] when [encode] raises *)
  sha256_hexdigest : string → option string;
  isoformat : datetime → string;
  (** [None] stands for [ValueError] *)
  fromisoformat : string → option datetime;
  isoformat_nonempty : ∀ d, isoformat d ≠ "";
  fromisoformat_isoformat : ∀ d, fromisoformat (isoformat d) = Some d
}.

(** ** The world the handlers act on *)

(** A row of the [users] table; [None] is SQL [NULL]. *)
Record user_row := mkRow {
  row_id : Z;
  row_username : string;
  row_email : option string;
  row_role : option string;
  row_employee_id : option Z;
  row_is_active : option bool;
  row_last_login : option datetime;
  row_created_date : option datetime;
  row_password_hash : option string;
  row_password_salt : option string;
  row_delete_flag : Z
}.

(** The three statements the handlers send to the store. *)
Inductive statement :=
| SelectProfile (u : string)
| SelectCredentials (u : string)
| UpdateLastLogin (u : string).

(** What is shown to the user through [st.warning] and [st.error]. *)
Inductive ui_msg :=
| WarnAttemptsRemaining (remaining : Z)
| ErrLockedMinutes (minutes : Z)
| ErrMessage (text : string)
| WarnSessionExpired.

Record world := mkWorld {
  session_state : gmap string value;
  users : list user_row;
  (** statements sent to the store, oldest first *)
  store_log : list statement;
  (** messages shown, oldest first *)
  ui : list ui_msg;
  clock_reads : nat;
  conn_attempts : nat;
  token_draws : nat
}.

Definition set_session (f : gmap string value → gmap string value)
    (w : world) : world :=
  mkWorld (f (session_state w)) (users w) (store_log w) (ui w)
          (clock_reads w) (conn_attempts w) (token_draws w).

Definition set_users (f : list user_row → list user_row) (w : world) : world :=
  mkWorld (session_state w) (f (users w)) (store_log w) (ui w)
          (clock_reads w) (conn_attempts w) (token_draws w).

(** One more reading of the clock has been taken. *)
Definition tick (w : world) : world :=
  mkWorld (session_state w) (users w) (store_log w) (ui w)
          (S (clock_reads w)) (conn_attempts w) (token_draws w).

(** ** The state-and-exception monad *)

Definition M (A : Type) : Type := world → result A * world.

Definition ret {A} (a : A) : M A := λ w, (Ok a, w).
Definition raise {A} (e : exn) : M A := λ w, (Raise e, w).
Definition bind {A B} (m : M A) (k : A → M B) : M B :=
  λ w, match m w with
       | (Ok a, w') => k a w'
       | (Raise e, w') => (Raise e, w')
       end.

(** [try: m  except Exception as e: h e] *)
Definition try_except {A} (m : M A) (h : exn → M A) : M A :=
  λ w, match m w with
       | (Ok a, w') => (Ok a, w')
       | (Raise e, w') => h e w'
       end.

Notation "x <- m ;; k" := (bind m (λ x, k))
  (at level 100, m at next level, right associativity).
Notation "m ;; k" := (bind m (λ _, k))
  (at level 100, right associativity).

Definition get_session : M (gmap string value) := λ w, (Ok (session_state w), w).
Definition modify_session (f : gmap string value → gmap string value) : M unit :=
  λ w, (Ok tt, set_session f w).
Definition get_users : M (list user_row) := λ w, (Ok (users w), w).
Definition modify_users (f : list user_row → list user_row) : M unit :=
  λ w, (Ok tt, set_users f w).
Definition show (m : ui_msg) : M unit :=
  λ w, (Ok tt, mkWorld (session_state w) (users w) (store_log w) (ui w ++ [m])
                       (clock_reads w) (conn_attempts w) (token_draws w)).
Definition send (s : statement) : M unit :=
  λ w, (Ok tt, mkWorld (session_state w) (users w) (store_log w ++ [s]) (ui w)
                       (clock_reads w) (conn_attempts w) (token_draws w)).
Definition lift {A} (r : result A) : M A := λ w, (r, w).

(** ** [User.to_dict] and [User.from_dict] *)

Section models.
Context (rt : runtime).

(** [d.isoformat() if d and isinstance(d, datetime) else None] *)
Definition isoformat_or_none (x : scalar) : scalar :=
  match x with
  | SDatetime d => SStr (isoformat rt d)
  | _ => SNone
  end.

Definition to_dict (self : User) : gmap string scalar :=
  list_to_map
    [("id", id self);
     ("username", username self);
     ("email", email self);
     ("role", role self);
     ("employee_id", employee_id self);
     ("is_active", is_active self);
     ("last_login", isoformat_or_none (last_login self));
     ("created_date", isoformat_or_none (created_date self))].

(** The first block of [from_dict]: it rewrites [data["last_login"]] in
    place, and has no counterpart for ["created_date"]. *)
Definition convert_last_login (data : gmap string scalar)
    : gmap string scalar :=
  match data !! "last_login" with
  | Some x =>
      if scalar_truthy x then
        match x with
        | SStr s =>
            match fromisoformat rt s with
            | Some d => <["last_login" := SDatetime d]> data
            | None => <["last_login" := SNone]> data
            end
        | SDatetime _ => data
        | _ => <["last_login" := SNone]> data
        end
      else data
  | None => data
  end.

Definition valid_fields : list string :=
  ["id"; "username"; "email"; "role"; "employee_id"; "is_active";
   "last_login"; "created_date"].

(** The constructor call with keyword arguments [kw]: the four fields
    without a default are required. *)
Definition User_init (kw : gmap string scalar) : result User :=
  match kw !! "id", kw !! "username", kw !! "email", kw !! "role" with
  | Some i, Some u, Some e, Some r =>
      Ok (mkUser i u e r
            (default SNone (kw !! "employee_id"))
            (default (SBool true) (kw !! "is_active"))
            (default SNone (kw !! "last_login"))
            (default SNone (kw !! "created_date")))
  | _, _, _, _ => Raise TypeError
  end.

(** Returns the dictionary as [from_dict] leaves it (the caller's object
    is mutated) together with the outcome. *)
Definition from_dict (data : gmap string scalar)
    : gmap string scalar * result User :=
  let data' := convert_last_login data in
  let filtered_data :=
    filter (λ kv : string * scalar, kv.1 ∈ valid_fields) data' in
  (data', User_init filtered_data).
End models.

(** ** [config/database.py] and the clock *)

Section store.
Context (rt : runtime).

Definition datetime_now : M datetime :=
  λ w, (Ok (clock rt (clock_reads w)), tick w).

Definition secrets_token_hex : M string :=
  λ w, (Ok (token_hex rt (token_draws w)),
        mkWorld (session_state w) (users w) (store_log w) (ui w)
                (clock_reads w) (conn_attempts w) (S (token_draws w))).

(** [engine.connect()] inside [get_connection]. *)
Definition get_connection : M unit :=
  λ w, (if conn_ok rt (conn_attempts w) then Ok tt else Raise OperationalError,
        mkWorld (session_state w) (users w) (store_log w) (ui w)
                (clock_reads w) (S (conn_attempts w)) (token_draws w)).

(** [WHERE username = :username AND delete_flag = 0] *)
Definition live_rows (u : string) (tbl : list user_row) : list user_row :=
  filter (λ r, row_username r = u ∧ row_delete_flag r = 0) tbl.

Definition rows_of (q : statement) (tbl : list user_row) : list user_row :=
  match q with
  | SelectProfile u | SelectCredentials u => live_rows u tbl
  | UpdateLastLogin _ => []
  end.

(** The retry loop of [execute_query]; the last error is re-raised when
    the attempts are used up. *)
Fixpoint execute_query_from (attempts : nat) (q : statement)
    : M (list user_row) :=
  match attempts with
  | O => raise OperationalError
  | S n =>
      try_except
        (get_connection ;; send q ;; tbl <- get_users ;; ret (rows_of q tbl))
        (λ _, execute_query_from n q)
  end.

Definition connection_retries : nat := 3.

Definition execute_query (q : statement) : M (list user_row) :=
  execute_query_from connection_retries q.

(** [UPDATE users SET last_login = NOW() WHERE username = :username] *)
Definition touch_last_login (u : string) (now : datetime) (r : user_row)
    : user_row :=
  if decide (row_username r = u) then
    mkRow (row_id r) (row_username r) (row_email r) (row_role r)
          (row_employee_id r) (row_is_active r) (Some now)
          (row_created_date r) (row_password_hash r) (row_password_salt r)
          (row_delete_flag r)
  else r.
End store.

(** ** [auth/handlers.py] *)

Record AuthHandler := mkAuthHandler {
  max_attempts : Z;
  lockout_duration : Z;
  session_timeout : Z
}.

(** [len(v)] *)
Definition py_len (v : value) : result Z :=
  match v with
  | VList l => Ok (Z.of_nat (length l))
  | VDict d => Ok (Z.of_nat (size d))
  | VScalar (SStr s) => Ok (Z.of_nat (String.length s))
  | VScalar _ => Raise TypeError
  end.

(** [v[-1]] *)
Definition py_last (v : value) : result scalar :=
  match v with
  | VList l =>
      match last l with Some x => Ok x | None => Raise IndexError end
  | VDict _ => Raise KeyError
  | VScalar (SStr s) =>
      match last (String.list_ascii_of_string s) with
      | Some c => Ok (SStr (String c EmptyString))
      | None => Raise IndexError
      end
  | VScalar _ => Raise TypeError
  end.

Definition failed_attempts_key (username : string) : string :=
  "failed_attempts_" +:+ username.

Section handlers.
Context (rt : runtime) (self : AuthHandler).

(** [datetime.fromisoformat(x)] *)
Definition datetime_fromisoformat (x : scalar) : result datetime :=
  match x with
  | SStr s =>
      match fromisoformat rt s with
      | Some d => Ok d
      | None => Raise ValueError
      end
  | _ => Raise TypeError
  end.

Definition value_fromisoformat (v : value) : result datetime :=
  match v with
  | VScalar x => datetime_fromisoformat x
  | _ => Raise TypeError
  end.

Definition hash_password (password : string) (salt : option string)
    : M (string * string) :=
  salt' <- match salt with
           | Some s => if String.eqb s "" then secrets_token_hex rt else ret s
           | None => secrets_token_hex rt
           end ;;
  match sha256_hexdigest rt (password +:+ salt') with
  | Some pwd_hash => ret (pwd_hash, salt')
  | None => raise UnicodeEncodeError
  end.

Definition verify_password (password password_hash salt : string) : M bool :=
  try_except
    (p <- hash_password password (Some salt) ;;
     ret (String.eqb p.1 password_hash))
    (λ _, ret false).

(** NULLs and empty strings are replaced the way the constructor call in
    [get_user] does it. *)
Definition user_of_row (row : user_row) : User :=
  mkUser
    (SInt (row_id row))
    (SStr (row_username row))
    (SStr (match row_email row with
           | Some e => if String.eqb e "" then "" else e
           | None => ""
           end))
    (SStr (match row_role row with
           | Some r => if String.eqb r "" then "viewer" else r
           | None => "viewer"
           end))
    (match row_employee_id row with Some e => SInt e | None => SNone end)
    (SBool (default true (row_is_active row)))
    (match row_last_login row with Some d => SDatetime d | None => SNone end)
    (match row_created_date row with Some d => SDatetime d | None => SNone end).

Definition get_user (username : string) : M (option User) :=
  try_except
    (df <- execute_query rt (SelectProfile username) ;;
     match df with
     | [] => ret None
     | row :: _ => ret (Some (user_of_row row))
     end)
    (λ _, ret None).

Definition is_account_locked (username : string) : M bool :=
  let key := failed_attempts_key username in
  s <- get_session ;;
  let attempts := default (VList []) (s !! key) in
  n <- lift (py_len attempts) ;;
  if max_attempts self <=? n then
    x <- lift (py_last attempts) ;;
    last_attempt <- lift (datetime_fromisoformat x) ;;
    let lockout_end :=
      last_attempt + timedelta_seconds (lockout_duration self) in
    now <- datetime_now rt ;;
    if now <? lockout_end then ret true
    else modify_session (<[key := VList []]>) ;; ret false
  else ret false.

(** The comprehension [[a for a in attempts if fromisoformat(a) > cutoff]];
    it stops at the first element that does not parse. *)
Fixpoint recent_attempts (cutoff : datetime) (attempts : list scalar)
    : result (list scalar) :=
  match attempts with
  | [] => Ok []
  | a :: rest =>
      match datetime_fromisoformat a with
      | Ok t =>
          match recent_attempts cutoff rest with
          | Ok kept => Ok (if cutoff <? t then a :: kept else kept)
          | Raise e => Raise e
          end
      | Raise e => Raise e
      end
  end.

Definition record_failed_attempt (username : string) : M unit :=
  let key := failed_attempts_key username in
  s <- get_session ;;
  (* [attempts.append(...)]: the attribute is looked up before the
     argument is evaluated; when the key is present the stored list
     itself grows. *)
  attempts <- match s !! key with
              | None =>
                  now <- datetime_now rt ;;
                  ret [SStr (isoformat rt now)]
              | Some (VList l) =>
                  now <- datetime_now rt ;;
                  let l' := l ++ [SStr (isoformat rt now)] in
                  modify_session (<[key := VList l']>) ;;
                  ret l'
              | Some _ => raise AttributeError
              end ;;
  now <- datetime_now rt ;;
  let cutoff := now - timedelta_seconds (lockout_duration self) in
  attempts <- lift (recent_attempts cutoff attempts) ;;
  modify_session (<[key := VList attempts]>) ;;
  let remaining := max_attempts self - Z.of_nat (length attempts) in
  if 0 <? remaining then show (WarnAttemptsRemaining remaining)
  else show (ErrLockedMinutes (lockout_duration self / 60)).

Definition clear_failed_attempts (username : string) : M unit :=
  modify_session (delete (failed_attempts_key username)).

Definition update_last_login (username : string) : M unit :=
  try_except
    (get_connection rt ;;
     send (UpdateLastLogin username) ;;
     now <- datetime_now rt ;;
     modify_users (map (touch_last_login username now)))
    (λ _, ret tt).

Definition authenticate (username password : string) : M (option User) :=
  locked <- is_account_locked username ;;
  if locked then raise (AuthenticationError ACCOUNT_LOCKED)
  else
    try_except
      (df <- execute_query rt (SelectCredentials username) ;;
       match df with
       | [] => record_failed_attempt username ;; ret None
       | row :: _ =>
           (* [bool(row['is_active'])]; a NULL flag reads as [None], which
              is falsy *)
           if negb (default false (row_is_active row)) then
             raise (AuthenticationError ACCOUNT_DEACTIVATED)
           else
             let password_hash := default "" (row_password_hash row) in
             let password_salt := default "" (row_password_salt row) in
             ok <- verify_password password password_hash password_salt ;;
             if ok then
               clear_failed_attempts username ;;
               update_last_login username ;;
               get_user username
             else
               record_failed_attempt username ;; ret None
       end)
      (λ e, match e with
            | AuthenticationError _ => raise e
            | _ => raise (AuthenticationError AUTHENTICATION_FAILED)
            end).

Definition login (username password : string) : M bool :=
  try_except
    (user <- authenticate username password ;;
     match user with
     | Some user =>
         modify_session (<["user" := VDict (to_dict rt user)]>) ;;
         modify_session (<["authenticated" := VScalar (SBool true)]>) ;;
         now <- datetime_now rt ;;
         modify_session
           (<["login_time" := VScalar (SStr (isoformat rt now))]>) ;;
         ret true
     | None => ret false
     end)
    (λ e, match e with
          | AuthenticationError msg => show (ErrMessage msg) ;; ret false
          | _ => show (ErrMessage "An error occurred during login") ;;
                 ret false
          end).

Definition logout : M unit :=
  s <- get_session ;;
  (* [st.session_state['user'].get('username', 'Unknown')] *)
  match s !! "user" with
  | Some (VDict _) | None => ret tt
  | Some _ => raise AttributeError
  end ;;
  modify_session (delete "user") ;;
  modify_session (delete "authenticated") ;;
  modify_session (delete "login_time").

Definition is_authenticated : M bool :=
  s <- get_session ;;
  if negb (truthy (default (VScalar (SBool false)) (s !! "authenticated")))
  then ret false
  else
    match s !! "login_time" with
    | Some v =>
        login_time <- lift (value_fromisoformat v) ;;
        now <- datetime_now rt ;;
        if timedelta_seconds (session_timeout self) <? now - login_time then
          logout ;; show WarnSessionExpired ;; ret false
        else ret true
    | None => ret true
    end.

Definition get_current_user : M (option User) :=
  authenticated <- is_authenticated ;;
  if authenticated then
    s <- get_session ;;
    match s !! "user" with
    | Some (VDict data) =>
        let '(data', user) := from_dict rt data in
        modify_session (<["user" := VDict data']>) ;;
        user <- lift user ;;
        ret (Some user)
    | Some _ => raise AttributeError
    | None => ret None
    end
  else ret None.

Definition refresh_session : M unit :=
  authenticated <- is_authenticated ;;
  if authenticated then
    now <- datetime_now rt ;;
    modify_session (<["login_time" := VScalar (SStr (isoformat rt now))]>)
  else ret tt.

(** ** [auth/decorators.py] *)

Definition permissions : gmap string (list string) :=
  list_to_map
    [("view_all_data", [UserRole.ADMIN; UserRole.MANAGER]);
     ("export_data", [UserRole.ADMIN; UserRole.MANAGER; UserRole.SALES;
                      UserRole.SUPPLY_CHAIN]);
     ("manage_users", [UserRole.ADMIN]);
     ("view_costs", [UserRole.ADMIN; UserRole.MANAGER;
                     UserRole.SUPPLY_CHAIN]);
     ("edit_settings", [UserRole.ADMIN])].

Definition check_permission (permission : string) : M bool :=
  user <- get_current_user ;;
  match user with
  | None => ret false
  | Some user =>
      let allowed_roles := default [] (permissions !! permission) in
      ret (has_any_role user allowed_roles)
  end.
End handlers.

(** ** [AuthHandler.__init__] *)

(** The handler's tunables, read from the [auth] section of the
    configuration with the fallbacks written in the code. *)
Definition AuthHandler_init (auth_config : gmap string Z) : AuthHandler :=
  {| max_attempts := default 3 (auth_config !! "max_attempts");
     lockout_duration := default 900 (auth_config !! "lockout_duration");
     session_timeout := default 3600 (auth_config !! "session_timeout") |}.

(** ** [with_db_retry] of [config/database.py] *)

(** The loop of the decorator: [last_error] is [None] until an attempt has
    failed, and [raise None] is a [TypeError].  The sleeps between attempts
    only let time pass. *)
Fixpoint with_db_retry_from {A} (attempts : nat) (last_error : option exn)
    (func : M A) : M A :=
  match attempts with
  | O =>
      match last_error with
      | Some e => raise e
      | None => raise TypeError
      end
  | S n => try_except func (λ e, with_db_retry_from n (Some e) func)
  end.

(** [range(retries)] is empty for a negative [retries]. *)
Definition with_db_retry {A} (retries : Z) (func : M A) : M A :=
  with_db_retry_from (Z.to_nat retries) None func.

(** ** The page layer: [auth/decorators.py] and [auth/ui.py] *)

(** How a piece of page code ends.  [st.stop()] and [st.rerun()] raise
    control exceptions that derive from [BaseException]: no
    [except Exception] of the handlers catches them. *)
Inductive outcome (A : Type) :=
| Returned (a : A)
| Raised (e : exn)
| Stopped
| Rerun.
Arguments Returned {A} a.
Arguments Raised {A} e.
Arguments Stopped {A}.
Arguments Rerun {A}.

(** What the page layer itself shows, one constructor per call site. *)
Inductive notice :=
| AuthenticationRequired
| PleaseLogin
| AccessDenied
| RequiredRoles (allowed_roles : list string)
| CurrentRole (role : option scalar)
| EnterBoth
| Welcome (username : string)
| SidebarRule
| SidebarHeading
| ShowUser (username : scalar)
| ShowRole (role : string)
| ShowEmail (email : scalar).

(** The page: the world of the handlers and the notices of the page layer,
    each with the number of handler messages shown before it, so that the
    order on the screen is kept. *)
Record page := mkPage {
  app : world;
  shown : list (nat * notice)
}.

(** What the visitor did to the widgets of this run of the script. *)
Record inputs := mkInputs {
  submit : bool;
  typed_username : string;
  typed_password : string;
  logout_clicked : bool
}.

Definition P (A : Type) : Type := page → outcome A * page.

Definition pret {A} (a : A) : P A := λ p, (Returned a, p).
Definition pbind {A B} (m : P A) (k : A → P B) : P B :=
  λ p, match m p with
       | (Returned a, p') => k a p'
       | (Raised e, p') => (Raised e, p')
       | (Stopped, p') => (Stopped, p')
       | (Rerun, p') => (Rerun, p')
       end.

Notation "x <~ m ;; k" := (pbind m (λ x, k))
  (at level 100, m at next level, right associativity).
Notation "m ;;; k" := (pbind m (λ _, k))
  (at level 100, right associativity).

Definition st_stop {A} : P A := λ p, (Stopped, p).
Definition st_rerun {A} : P A := λ p, (Rerun, p).
Definition praise {A} (e : exn) : P A := λ p, (Raised e, p).
Definition emit (n : notice) : P unit :=
  λ p, (Returned tt, mkPage (app p) (shown p ++ [(length (ui (app p)), n)])).

(** A call into the handlers. *)
Definition run {A} (m : M A) : P A :=
  λ p, match m (app p) with
       | (Ok a, w) => (Returned a, mkPage w (shown p))
       | (Raise e, w) => (Raised e, mkPage w (shown p))
       end.

Section page_layer.
Context (rt : runtime) (self : AuthHandler).

Definition requires_auth {A} (func : P A) : P A :=
  authenticated <~ run (is_authenticated rt self) ;;
  (if negb authenticated then
     emit AuthenticationRequired ;;; emit PleaseLogin ;;; st_stop
   else pret tt) ;;;
  run (refresh_session rt self) ;;;
  func.

Definition requires_role {A} (allowed_roles : list string) (func : P A)
    : P A :=
  authenticated <~ run (is_authenticated rt self) ;;
  (if negb authenticated then
     emit AuthenticationRequired ;;; emit PleaseLogin ;;; st_stop
   else pret tt) ;;;
  user <~ run (get_current_user rt self) ;;
  (if match user with
      | None => true
      | Some u => negb (has_any_role u allowed_roles)
      end
   then
     emit AccessDenied ;;;
     emit (RequiredRoles allowed_roles) ;;;
     emit (CurrentRole (role <$> user)) ;;;
     st_stop
   else pret tt) ;;;
  run (refresh_session rt self) ;;;
  func.

Definition requires_admin {A} (func : P A) : P A :=
  requires_role [UserRole.ADMIN] func.

Definition requires_manager_or_above {A} (func : P A) : P A :=
  requires_role [UserRole.ADMIN; UserRole.MANAGER] func.

Definition with_user_context {A} (func : option User → P A) : P A :=
  user <~ run (get_current_user rt self) ;;
  func user.

(** [check_access] of [auth/ui.py] *)
Definition check_access (allowed_roles : list string) : M bool :=
  user <- get_current_user rt self ;;
  match user with
  | None => ret false
  | Some user => ret (has_any_role user allowed_roles)
  end.

(** [render_login_form]: of the form, the inputs and what follows a
    submission; the layout calls show text only. *)
Definition render_login_form (i : inputs) : P unit :=
  if submit i then
    if String.eqb (typed_username i) "" || String.eqb (typed_password i) ""
    then emit EnterBoth
    else
      ok <~ run (login rt self (typed_username i) (typed_password i)) ;;
      if ok then emit (Welcome (typed_username i)) ;;; st_rerun
      else pret tt
  else pret tt.

(** [user.role.replace('_', ' ').title()] is shown as the role itself; what
    matters here is which values have a [replace] that takes two strings. *)
Definition render_user_menu (i : inputs) : P unit :=
  user <~ run (get_current_user rt self) ;;
  match user with
  | None => pret tt
  | Some user =>
      emit SidebarRule ;;;
      emit SidebarHeading ;;;
      emit (ShowUser (username user)) ;;;
      match role user with
      | SStr r => emit (ShowRole r)
      | SDatetime _ => praise TypeError
      | _ => praise AttributeError
      end ;;;
      emit (ShowEmail (email user)) ;;;
      if logout_clicked i then run (logout) ;;; st_rerun
      else pret tt
  end.

Definition protect_page (i : inputs) : P unit :=
  run (s <- get_session ;;
       match s !! "authenticated" with
       | None => modify_session (<["authenticated" := VScalar (SBool false)]>)
       | Some _ => ret tt
       end) ;;;
  authenticated <~ run (is_authenticated rt self) ;;
  if negb authenticated then render_login_form i ;;; st_stop
  else run (refresh_session rt self) ;;; render_user_menu i.
End page_layer.

(** ** Vocabulary of the statements *)

Section vocabulary.
Context (rt : runtime) (self : AuthHandler).

(** The attempts recorded for a user: the stored list, or the default
    [[]] of [st.session_state.get(key, [])]. *)
Definition recorded_attempts (w : world) (username : string) : value :=
  default (VList []) (session_state w !! failed_attempts_key username).

(** The lockout window of the most recent attempt is still open at the
    next reading of the clock. *)
Definition window_open (w : world) (l : list scalar) : Prop :=
  ∃ x t, last l = Some (SStr x) ∧ fromisoformat rt x = Some t
         ∧ clock rt (clock_reads w)
           < t + timedelta_seconds (lockout_duration self).

(** The [authenticated] flag as [is_authenticated] reads it. *)
Definition flag_set (w : world) : bool :=
  truthy (default (VScalar (SBool false)) (session_state w !! "authenticated")).

(** The session keys are gone. *)
Definition torn_down (s : gmap string value) : gmap string value :=
  delete "login_time" (delete "authenticated" (delete "user" s)).

(** What a successful [login] leaves behind. *)
Definition established (user : User) (w0 : world) : world :=
  set_session
    (<["login_time" := VScalar (SStr (isoformat rt (clock rt (clock_reads w0))))]>)
    (tick (set_session (<["authenticated" := VScalar (SBool true)]>)
             (set_session (<["user" := VDict (to_dict rt user)]>) w0))).

(** The value of [conn_attempts] after the first attempt that goes through,
    among [n] attempts starting at counter [c]. *)
Fixpoint attempts_until_ok (n c : nat) : option nat :=
  match n with
  | O => None
  | S n' => if conn_ok rt c then Some (S c) else attempts_until_ok n' (S c)
  end.

(** The store is reachable from this moment on. *)
Definition store_up (w : world) : Prop :=
  ∀ n, (conn_attempts w ≤ n)%nat → conn_ok rt n = true.

(** The world after a query that went through on the attempt ending at
    counter [c], and after [n] attempts that all failed. *)
Definition queried (q : statement) (c : nat) (w : world) : world :=
  mkWorld (session_state w) (users w) (store_log w ++ [q]) (ui w)
          (clock_reads w) c (token_draws w).

Definition unreachable (n : nat) (w : world) : world :=
  mkWorld (session_state w) (users w) (store_log w) (ui w)
          (clock_reads w) (n + conn_attempts w) (token_draws w).

(** The names of the permission table. *)
Definition permission_names : list string :=
  ["view_all_data"; "export_data"; "manage_users"; "view_costs";
   "edit_settings"].

(** What a caller of [authenticate] can see of the world, together with
    the counters that decide what the environment answers next: the
    session dictionary, the messages shown, the statements sent, and the
    numbers of clock readings and connection attempts.  The users table
    and the entropy counter are not part of it. *)
Definition same_view (w1 w2 : world) : Prop :=
  session_state w1 = session_state w2
  ∧ ui w1 = ui w2
  ∧ store_log w1 = store_log w2
  ∧ clock_reads w1 = clock_reads w2
  ∧ conn_attempts w1 = conn_attempts w2.

(** The [except] clauses of [authenticate]. *)
Definition as_authentication_error (e : exn) : exn :=
  match e with
  | AuthenticationError _ => e
  | _ => AuthenticationError AUTHENTICATION_FAILED
  end.

(** The branch shared by "no such user" and "wrong password". *)
Definition no_match (username : string) (w : world)
    : result (option User) * world :=
  match record_failed_attempt rt self username w with
  | (Ok _, w') => (Ok None, w')
  | (Raise e, w') => (Raise (as_authentication_error e), w')
  end.

Definition is_timestamp (a : scalar) : Prop :=
  ∃ t, datetime_fromisoformat rt a = Ok t.

(** The attempts that the pruning keeps. *)
Definition kept_attempts (cutoff : datetime) (l : list scalar) : list scalar :=
  List.filter (λ a, match datetime_fromisoformat rt a with
                    | Ok t => cutoff <? t
                    | Raise _ => false
                    end) l.

(** The message [record_failed_attempt] ends with. *)
Definition failure_message (kept : list scalar) : ui_msg :=
  let remaining := max_attempts self - Z.of_nat (length kept) in
  if 0 <? remaining then WarnAttemptsRemaining remaining
  else ErrLockedMinutes (lockout_duration self / 60).

(** The world after a failure has been recorded and [kept] retained. *)
Definition after_failure (username : string) (w : world)
    (kept : list scalar) : world :=
  mkWorld (<[failed_attempts_key username := VList kept]> (session_state w))
          (users w) (store_log w) (ui w ++ [failure_message kept])
          (S (S (clock_reads w))) (conn_attempts w) (token_draws w).

(** [record_failed_attempt] from the point where the list [l] has been
    fetched; [stored] tells whether [l] is the stored object, which the
    [append] then changes in place. *)
Definition record_onto (username : string) (w : world) (stored : bool)
    (l : list scalar) : result unit * world :=
  let l' := l ++ [SStr (isoformat rt (clock rt (clock_reads w)))] in
  let cutoff :=
    clock rt (S (clock_reads w)) - timedelta_seconds (lockout_duration self) in
  match recent_attempts rt cutoff l' with
  | Ok kept => (Ok tt, after_failure username w kept)
  | Raise e =>
      (Raise e,
       mkWorld (if stored
                then <[failed_attempts_key username := VList l']>
                       (session_state w)
                else session_state w)
               (users w) (store_log w) (ui w)
               (S (S (clock_reads w))) (conn_attempts w) (token_draws w))
  end.

(** The entropy counter moved to [d]. *)
Definition with_draws (d : nat) (w : world) : world :=
  mkWorld (session_state w) (users w) (store_log w) (ui w)
          (clock_reads w) (conn_attempts w) d.
End vocabulary.

(** ** A concrete runtime for the worked scenarios

    The clock advances one second per reading, the store is always
    reachable, the digest is the identity on strings (so it has no
    collisions), tokens are 64 hexadecimal digits that differ from draw to
    draw, and timestamps are written as decimal numerals. *)

Module Scenario.
Definition iso (d : datetime) : string :=
  NilEmpty.string_of_int (Z.to_int d).

Definition parse (s : string) : option datetime :=
  Z.of_int <$> NilEmpty.int_of_string s.

Definition hex_digit (n : nat) : string :=
  match (n mod 16)%nat with
  | 0 => "0" | 1 => "1" | 2 => "2" | 3 => "3" | 4 => "4" | 5 => "5"
  | 6 => "6" | 7 => "7" | 8 => "8" | 9 => "9" | 10 => "a" | 11 => "b"
  | 12 => "c" | 13 => "d" | 14 => "e" | _ => "f"
  end%nat.

Definition token (n : nat) : string :=
  "000000000000000000000000000000000000000000000000000000000000000"
    +:+ hex_digit n.

Definition rt : runtime.
Proof.
  assert (∀ d, parse (iso d) = Some d) as parse_iso.
  { intros d. unfold parse, iso. rewrite NilEmpty.isi. simpl. f_equal.
    apply DecimalZ.of_to. }
  refine {| clock n := (1000 + Z.of_nat n) * 1000000;
            conn_ok _ := true;
            token_hex := token;
            sha256_hexdigest s := Some s;
            isoformat := iso;
            fromisoformat := parse;
            isoformat_nonempty := _;
            fromisoformat_isoformat := parse_iso |}.
  intros d E. pose proof (parse_iso d) as P. rewrite E in P.
  vm_compute in P. injection P as <-. vm_compute in E. discriminate E.
Defined.

(** The defaults of the configuration contract. *)
Definition handler : AuthHandler :=
  {| max_attempts := 3; lockout_duration := 900; session_timeout := 3600 |}.

Definition alice : user_row :=
  {| row_id := 1; row_username := "alice";
     row_email := Some "alice@example.com"; row_role := Some "admin";
     row_employee_id := Some 7; row_is_active := Some true;
     row_last_login := None; row_created_date := Some 5000000;
     row_password_hash := Some "secretpepper";
     row_password_salt := Some "pepper";
     row_delete_flag := 0 |}.

Definition bob : user_row :=
  {| row_id := 2; row_username := "bob";
     row_email := None; row_role := Some "sales";
     row_employee_id := None; row_is_active := Some false;
     row_last_login := None; row_created_date := None;
     row_password_hash := Some "hunter2salt";
     row_password_salt := Some "salt";
     row_delete_flag := 0 |}.

Definition fresh : world :=
  {| session_state := ∅; users := [alice; bob]; store_log := []; ui := [];
     clock_reads := 0; conn_attempts := 0; token_draws := 0 |}.
End Scenario.

(** ** Worked scenarios *)

(** Worked scenario: three failed logins for "alice", one second apart. *)
Definition alice_after_three_failures : world :=
  ((login Scenario.rt Scenario.handler "alice" "guess1" ;;
    login Scenario.rt Scenario.handler "alice" "guess2" ;;
    login Scenario.rt Scenario.handler "alice" "guess3") Scenario.fresh).2.

(** The same session looked at half an hour later (1800 clock readings). *)
Definition alice_half_an_hour_later : world :=
  mkWorld (session_state alice_after_three_failures)
          (users alice_after_three_failures)
          (store_log alice_after_three_failures)
          (ui alice_after_three_failures)
          1800 (conn_attempts alice_after_three_failures)
          (token_draws alice_after_three_failures).

(** Worked scenario: "alice" logs in, and the session is looked at right
    away, two hours later, and after its timestamp has been damaged. *)
Definition alice_logged_in : world :=
  (login Scenario.rt Scenario.handler "alice" "secret" Scenario.fresh).2.

Definition alice_two_hours_later : world :=
  mkWorld (session_state alice_logged_in) (users alice_logged_in)
          (store_log alice_logged_in) (ui alice_logged_in)
          (Z.to_nat 7200) (conn_attempts alice_logged_in)
          (token_draws alice_logged_in).

Definition alice_damaged_session : world :=
  set_session (<["login_time" := VScalar (SStr "yesterday")]>) alice_logged_in.

(** Worked scenario: "bob" mistypes his password three times while his
    account is active, and an administrator deactivates the account
    before his fourth attempt. *)
Definition bob_active : user_row :=
  {| row_id := 2; row_username := "bob";
     row_email := None; row_role := Some "sales";
     row_employee_id := None; row_is_active := Some true;
     row_last_login := None; row_created_date := None;
     row_password_hash := Some "hunter2salt";
     row_password_salt := Some "salt";
     row_delete_flag := 0 |}.

Definition bob_locked_then_deactivated : world :=
  set_users (λ _, [Scenario.alice; Scenario.bob])
    ((login Scenario.rt Scenario.handler "bob" "hunter1" ;;
      login Scenario.rt Scenario.handler "bob" "hunter3" ;;
      login Scenario.rt Scenario.handler "bob" "hunter4")
       (set_users (λ _, [Scenario.alice; bob_active]) Scenario.fresh)).2.

(** Worked scenario: "alice" succeeds after two failed attempts. *)
Definition alice_after_two_failures : world :=
  ((login Scenario.rt Scenario.handler "alice" "guess1" ;;
    login Scenario.rt Scenario.handler "alice" "guess2") Scenario.fresh).2.

(** Worked scenarios: a username nobody has, locked out after three
    attempts; and "alice" missing from the table against "alice" present
    with a wrong password. *)
Definition carol_after_three_failures : world :=
  ((login Scenario.rt Scenario.handler "carol" "guess1" ;;
    login Scenario.rt Scenario.handler "carol" "guess2" ;;
    login Scenario.rt Scenario.handler "carol" "guess3") Scenario.fresh).2.

Definition without_alice : world :=
  set_users (λ _, [Scenario.bob]) Scenario.fresh.

(** ** More vocabulary *)

Section vocabulary_frames.
Context (rt : runtime) (self : AuthHandler).

(** Every session entry but the one under [k0] is as before. *)
Definition same_except (k0 : string) (w w' : world) : Prop :=
  ∀ k, k ≠ k0 → session_state w' !! k = session_state w !! k.

(** The three messages of the authenticator. *)
Definition authenticator_messages : list string :=
  [ACCOUNT_LOCKED; ACCOUNT_DEACTIVATED; AUTHENTICATION_FAILED].

(** An attempt entry that is younger than [cutoff]. *)
Definition younger_than (cutoff : datetime) (a : scalar) : Prop :=
  ∃ t, datetime_fromisoformat rt a = Ok t ∧ cutoff < t.
End vocabulary_frames.

(** A runtime whose store never answers; the rest is [Scenario.rt]. *)
Definition outage_rt : runtime :=
  {| clock := clock Scenario.rt;
     conn_ok _ := false;
     token_hex := token_hex Scenario.rt;
     sha256_hexdigest := sha256_hexdigest Scenario.rt;
     isoformat := isoformat Scenario.rt;
     fromisoformat := fromisoformat Scenario.rt;
     isoformat_nonempty := isoformat_nonempty Scenario.rt;
     fromisoformat_isoformat := fromisoformat_isoformat Scenario.rt |}.

Section vocabulary_lockout.
Context (rt : runtime) (self : AuthHandler).

(** Credentials that [authenticate] answers with "no match": no live row
    for the name, or an active row whose password check fails. *)
Definition bad_credentials (name password : string) (tbl : list user_row)
    : Prop :=
  live_rows name tbl = []
  ∨ ∃ row rest,
      live_rows name tbl = row :: rest
      ∧ row_is_active row = Some true
      ∧ ∀ w, (verify_password rt password
                (default "" (row_password_hash row))
                (default "" (row_password_salt row)) w).1 = Ok false.

(** [n] logins in a row with the same credentials. *)
Fixpoint login_times (n : nat) (name password : string) : M unit :=
  match n with
  | O => ret tt
  | S n' => login rt self name password ;; login_times n' name password
  end.

(** An attempt entry written at one of the clock readings
    [first .. next - 1]. *)
Definition stamped (first next : nat) (a : scalar) : Prop :=
  ∃ j, (first ≤ j < next)%nat ∧ a = SStr (isoformat rt (clock rt j)).

(** Any two clock readings between [first] and [last] are less than
    [lockout_duration] apart. *)
Definition short_span (first last : nat) : Prop :=
  ∀ j k, (first ≤ j)%nat → (k ≤ last)%nat →
         clock rt k - clock rt j < timedelta_seconds (lockout_duration self).
End vocabulary_lockout.

Section vocabulary_session.
Context (rt : runtime) (self : AuthHandler).

(** [n] page accesses in a row, each refreshing the session. *)
Fixpoint refresh_times (n : nat) : M unit :=
  match n with
  | O => ret tt
  | S n' => refresh_session rt self ;; refresh_times n'
  end.

(** From reading [first] on, two consecutive clock readings are never
    more than [session_timeout] apart. *)
Definition steady (first : nat) : Prop :=
  ∀ i, (first ≤ i)%nat →
       clock rt (S i) - clock rt i ≤ timedelta_seconds (session_timeout self).

(** The [user] entry is one [logout] can read. *)
Definition user_entry_ok (w : world) : Prop :=
  session_state w !! "user" = None
  ∨ ∃ d, session_state w !! "user" = Some (VDict d).
End vocabulary_session.

(** The four fields of [User] without a default. *)
Definition required_fields : list string :=
  ["id"; "username"; "email"; "role"].

(** The values of [UserRole]. *)
Definition user_roles : list string :=
  [UserRole.ADMIN; UserRole.MANAGER; UserRole.SALES; UserRole.SUPPLY_CHAIN;
   UserRole.VIEWER].

Section vocabulary_pages.
(** What a guard shows before it stops a visitor who has no session. *)
Definition login_required_page (w : world) (before : list (nat * notice))
    : page :=
  mkPage w (before ++ [(length (ui w), AuthenticationRequired);
                       (length (ui w), PleaseLogin)]).

(** What [requires_role] shows before it stops a visitor whose role is not
    among the allowed ones. *)
Definition access_denied_page (allowed_roles : list string)
    (current_role : option scalar) (w : world)
    (before : list (nat * notice)) : page :=
  mkPage w (before ++ [(length (ui w), AccessDenied);
                       (length (ui w), RequiredRoles allowed_roles);
                       (length (ui w), CurrentRole current_role)]).

(** The lines of the user menu, after [n] handler messages. *)
Definition menu_lines (n : nat) (user : User) (r : string)
    : list (nat * notice) :=
  [(n, SidebarRule); (n, SidebarHeading); (n, ShowUser (username user));
   (n, ShowRole r); (n, ShowEmail (email user))].
End vocabulary_pages.

(** ** More worked scenarios *)

(** A runtime whose store answers the first connection attempt and none
    after it; the rest is [Scenario.rt]. *)
Definition first_attempt_only_rt : runtime :=
  {| clock := clock Scenario.rt;
     conn_ok n := bool_decide (n = 0%nat);
     token_hex := token_hex Scenario.rt;
     sha256_hexdigest := sha256_hexdigest Scenario.rt;
     isoformat := isoformat Scenario.rt;
     fromisoformat := fromisoformat Scenario.rt;
     isoformat_nonempty := isoformat_nonempty Scenario.rt;
     fromisoformat_isoformat := fromisoformat_isoformat Scenario.rt |}.

(** A configuration that allows no attempt at all. *)
Definition no_attempts_handler : AuthHandler :=
  AuthHandler_init {["max_attempts" := 0]}.

(** "alice" logged in at the second reading of the clock; reading 3601 is
    the last one within the hour, reading 3602 the first one past it. *)
Definition alice_at_the_last_second : world :=
  mkWorld (session_state alice_logged_in) (users alice_logged_in)
          (store_log alice_logged_in) (ui alice_logged_in)
          (Z.to_nat 3601) (conn_attempts alice_logged_in)
          (token_draws alice_logged_in).

(** The timed-out session of "alice" with a [user] entry that is a
    string. *)
Definition alice_with_a_damaged_user_entry : world :=
  set_session (<["user" := VScalar (SStr "alice")]>) alice_two_hours_later.

(** What a visitor may have done to the widgets. *)
Definition alice_submits : inputs :=
  {| submit := true; typed_username := "alice"; typed_password := "secret";
     logout_clicked := false |}.

Definition logout_click : inputs :=
  {| submit := false; typed_username := ""; typed_password := "";
     logout_clicked := true |}.

(** * Properties *)

(** ** Stepping through monadic code *)

Lemma bind_ok {A B} (m : M A) (k : A → M B) w a w' :
  m w = (Ok a, w') → bind m k w = k a w'.
Proof. unfold bind. by intros ->. Qed.

Lemma bind_raise {A B} (m : M A) (k : A → M B) w e w' :
  m w = (Raise e, w') → bind m k w = (Raise e, w').
Proof. unfold bind. by intros ->. Qed.

Lemma bind_inv {A B} (m : M A) (k : A → M B) w r w2 :
  bind m k w = (r, w2) →
  (∃ a w1, m w = (Ok a, w1) ∧ k a w1 = (r, w2))
  ∨ (∃ e, m w = (Raise e, w2) ∧ r = Raise e).
Proof.
  unfold bind. destruct (m w) as [[a|e] w1]; intros H.
  - left. eauto.
  - right. exists e. by simplify_eq.
Qed.

Lemma try_except_ok {A} (m : M A) h w a w' :
  m w = (Ok a, w') → try_except m h w = (Ok a, w').
Proof. unfold try_except. by intros ->. Qed.

Lemma try_except_raise {A} (m : M A) h w e w' :
  m w = (Raise e, w') → try_except m h w = h e w'.
Proof. unfold try_except. by intros ->. Qed.

(** The key of a user's attempt list is not one of the session keys, and
    different users have different keys. *)
Lemma failed_attempts_key_inj u1 u2 :
  failed_attempts_key u1 = failed_attempts_key u2 → u1 = u2.
Proof. unfold failed_attempts_key. apply String.app_inj. Qed.

Lemma failed_attempts_key_not_session u :
  failed_attempts_key u ≠ "user"
  ∧ failed_attempts_key u ≠ "authenticated"
  ∧ failed_attempts_key u ≠ "login_time".
Proof. unfold failed_attempts_key. repeat split; discriminate. Qed.

(** ** The lockout tracker *)

Section lockout.
Context (rt : runtime) (self : AuthHandler).

Lemma is_account_locked_below username w l :
  recorded_attempts w username = VList l →
  Z.of_nat (length l) < max_attempts self →
  is_account_locked rt self username w = (Ok false, w).
Proof.
  intros Hl Hlen. unfold is_account_locked, bind, get_session, lift.
  fold (recorded_attempts w username). rewrite Hl. simpl.
  destruct (Z.leb_spec (max_attempts self) (Z.of_nat (length l))); [lia|done].
Qed.

Lemma is_account_locked_open username w l :
  recorded_attempts w username = VList l →
  max_attempts self ≤ Z.of_nat (length l) →
  window_open rt self w l →
  is_account_locked rt self username w = (Ok true, tick w).
Proof.
  intros Hl Hlen (x & t & Hlast & Hparse & Hnow).
  unfold is_account_locked, bind, get_session, lift.
  fold (recorded_attempts w username). rewrite Hl. simpl.
  destruct (Z.leb_spec (max_attempts self) (Z.of_nat (length l))); [|lia].
  rewrite Hlast. simpl. rewrite Hparse. simpl.
  destruct (Z.ltb_spec (clock rt (clock_reads w))
              (t + timedelta_seconds (lockout_duration self))); [done|lia].
Qed.

Lemma is_account_locked_expired username w l x t :
  recorded_attempts w username = VList l →
  max_attempts self ≤ Z.of_nat (length l) →
  last l = Some (SStr x) →
  fromisoformat rt x = Some t →
  t + timedelta_seconds (lockout_duration self) ≤ clock rt (clock_reads w) →
  is_account_locked rt self username w
  = (Ok false,
     set_session (<[failed_attempts_key username := VList []]>) (tick w)).
Proof.
  intros Hl Hlen Hlast Hparse Hnow.
  unfold is_account_locked, bind, get_session, lift.
  fold (recorded_attempts w username). rewrite Hl. simpl.
  destruct (Z.leb_spec (max_attempts self) (Z.of_nat (length l))); [|lia].
  rewrite Hlast. simpl. rewrite Hparse. simpl.
  destruct (Z.ltb_spec (clock rt (clock_reads w))
              (t + timedelta_seconds (lockout_duration self))); [lia|done].
Qed.

(** Whatever is stored, a [True] answer means the threshold was reached
    and the window of the last attempt is open, and nothing but the
    clock was touched. *)
Lemma is_account_locked_true_inv username w w' l :
  recorded_attempts w username = VList l →
  is_account_locked rt self username w = (Ok true, w') →
  max_attempts self ≤ Z.of_nat (length l) ∧ window_open rt self w l ∧ w' = tick w.
Proof.
  intros Hl.
  unfold is_account_locked, bind, get_session, lift, ret, modify_session.
  fold (recorded_attempts w username). rewrite Hl. simpl.
  destruct (Z.leb_spec (max_attempts self) (Z.of_nat (length l)));
    [|by intros; simplify_eq].
  destruct (last l) as [x|] eqn:Hlast; simpl; [|by intros; simplify_eq].
  destruct x as [| | |x|]; simpl; try (by intros; simplify_eq).
  destruct (fromisoformat rt x) as [t|] eqn:Hparse; simpl;
    [|by intros; simplify_eq].
  destruct (Z.ltb_spec (clock rt (clock_reads w))
              (t + timedelta_seconds (lockout_duration self)));
    intros; simplify_eq.
  split; [done|]. split; [|done]. by exists x, t.
Qed.
End lockout.

Section lockout_claims.
Context (rt : runtime) (self : AuthHandler).

(** C1.  When the attempt list recorded for a username has at least
    [max_attempts] entries and the most recent one is within
    [lockout_duration] of now, [authenticate] raises the account-locked
    error for every password, the correct one included.  It sends nothing
    to the credential store and leaves the session dictionary (attempt
    lists and session keys) and the users table (hence [last_login])
    as they were. *)
Theorem C1_locked_account_is_rejected username password w l x t :
  session_state w !! failed_attempts_key username = Some (VList l) →
  max_attempts self ≤ Z.of_nat (length l) →
  last l = Some (SStr x) →
  fromisoformat rt x = Some t →
  clock rt (clock_reads w) < t + timedelta_seconds (lockout_duration self) →
  ∃ w', authenticate rt self username password w
        = (Raise (AuthenticationError ACCOUNT_LOCKED), w')
        ∧ session_state w' = session_state w
        ∧ users w' = users w
        ∧ store_log w' = store_log w
        ∧ conn_attempts w' = conn_attempts w.
Proof.
  intros Hkey Hlen Hlast Hparse Hnow. exists (tick w). split; [|done].
  unfold authenticate.
  rewrite (bind_ok _ _ _ true (tick w)); [done|].
  apply is_account_locked_open with (l := l); [|done|by exists x, t].
  unfold recorded_attempts. by rewrite Hkey.
Qed.

(** C4.  With [l] the attempts retained for a username, the lock check
    answers [True] exactly when [l] has at least [max_attempts] entries
    and its most recent entry is within [lockout_duration] of now; and
    when the threshold is reached but the window of the most recent entry
    has run out, the check empties that username's list and answers
    [False]. *)
Theorem C4_is_account_locked_iff username w l :
  recorded_attempts w username = VList l →
  ((is_account_locked rt self username w).1 = Ok true
   ↔ max_attempts self ≤ Z.of_nat (length l)
     ∧ ∃ x t, last l = Some (SStr x) ∧ fromisoformat rt x = Some t
              ∧ clock rt (clock_reads w)
                < t + timedelta_seconds (lockout_duration self))
  ∧ (∀ x t,
       max_attempts self ≤ Z.of_nat (length l) →
       last l = Some (SStr x) →
       fromisoformat rt x = Some t →
       t + timedelta_seconds (lockout_duration self)
         ≤ clock rt (clock_reads w) →
       ∃ w', is_account_locked rt self username w = (Ok false, w')
             ∧ session_state w'
               = <[failed_attempts_key username := VList []]>
                   (session_state w)).
Proof.
  intros Hl. split; [split|].
  - destruct (is_account_locked rt self username w) as [r w'] eqn:E.
    simpl. intros ->.
    by destruct (is_account_locked_true_inv rt self _ _ _ _ Hl E) as (?&?&_).
  - intros [Hlen Hopen].
    by rewrite (is_account_locked_open rt self _ _ _ Hl Hlen Hopen).
  - intros x t Hlen Hlast Hparse Hnow.
    rewrite (is_account_locked_expired rt self _ _ _ _ _
               Hl Hlen Hlast Hparse Hnow).
    by eexists.
Qed.
End lockout_claims.

(** After three failures within a few seconds, the fourth attempt of
    "alice" is refused although the password is the right one. *)
Lemma C1_alice_fourth_attempt :
  ∃ w', authenticate Scenario.rt Scenario.handler "alice" "secret"
          alice_after_three_failures
        = (Raise (AuthenticationError ACCOUNT_LOCKED), w')
        ∧ session_state w' = session_state alice_after_three_failures
        ∧ users w' = users alice_after_three_failures
        ∧ store_log w' = store_log alice_after_three_failures
        ∧ conn_attempts w' = conn_attempts alice_after_three_failures.
Proof.
  apply (C1_locked_account_is_rejected Scenario.rt Scenario.handler
           "alice" "secret" alice_after_three_failures
           [SStr "1000000000"; SStr "1002000000"; SStr "1004000000"]
           "1004000000" 1004000000).
  - vm_compute. reflexivity.
  - vm_compute. discriminate.
  - reflexivity.
  - reflexivity.
  - vm_compute. reflexivity.
Defined.

(** "alice" is locked right after her third failure and released, with
    her list emptied, half an hour later. *)
Lemma C4_alice_locked_then_released :
  (is_account_locked Scenario.rt Scenario.handler "alice"
     alice_after_three_failures).1 = Ok true
  ∧ ∃ w', is_account_locked Scenario.rt Scenario.handler "alice"
            alice_half_an_hour_later = (Ok false, w')
          ∧ session_state w'
            = <[failed_attempts_key "alice" := VList []]>
                (session_state alice_half_an_hour_later).
Proof.
  split.
  - apply (C4_is_account_locked_iff Scenario.rt Scenario.handler "alice"
             alice_after_three_failures
             [SStr "1000000000"; SStr "1002000000"; SStr "1004000000"]).
    + vm_compute. reflexivity.
    + split; [vm_compute; discriminate|].
      exists "1004000000", 1004000000.
      split; [reflexivity|]. split; [reflexivity|]. vm_compute. reflexivity.
  - apply (C4_is_account_locked_iff Scenario.rt Scenario.handler "alice"
             alice_half_an_hour_later
             [SStr "1000000000"; SStr "1002000000"; SStr "1004000000"])
      with (x := "1004000000") (t := 1004000000).
    + vm_compute. reflexivity.
    + vm_compute. discriminate.
    + reflexivity.
    + reflexivity.
    + vm_compute. discriminate.
Defined.

(** ** The session manager *)

Section session.
Context (rt : runtime) (self : AuthHandler).

Lemma torn_down_lookup s :
  torn_down s !! "user" = None
  ∧ torn_down s !! "authenticated" = None
  ∧ torn_down s !! "login_time" = None.
Proof.
  unfold torn_down. repeat split.
  - rewrite !lookup_delete_ne by done. apply lookup_delete_eq.
  - rewrite lookup_delete_ne by done. apply lookup_delete_eq.
  - apply lookup_delete_eq.
Qed.

Lemma is_authenticated_anonymous w :
  flag_set w = false → is_authenticated rt self w = (Ok false, w).
Proof.
  unfold flag_set. intros H. unfold is_authenticated, bind, get_session.
  by rewrite H.
Qed.

Lemma is_authenticated_alive w s t0 :
  flag_set w = true →
  session_state w !! "login_time" = Some (VScalar (SStr s)) →
  fromisoformat rt s = Some t0 →
  clock rt (clock_reads w) - t0 ≤ timedelta_seconds (session_timeout self) →
  is_authenticated rt self w = (Ok true, tick w).
Proof.
  unfold flag_set. intros Hflag Htime Hparse Hage.
  unfold is_authenticated, bind, get_session, lift, datetime_now.
  rewrite Hflag, Htime. simpl. rewrite Hparse.
  by destruct (Z.ltb_spec (timedelta_seconds (session_timeout self))
                 (clock rt (clock_reads w) - t0)); [lia|].
Qed.

Lemma logout_ok w :
  (session_state w !! "user" = None
   ∨ ∃ d, session_state w !! "user" = Some (VDict d)) →
  logout w = (Ok tt, set_session torn_down w).
Proof.
  unfold logout, bind, get_session, modify_session, ret.
  by intros [-> | [d ->]].
Qed.

Lemma is_authenticated_expired w s t0 :
  flag_set w = true →
  session_state w !! "login_time" = Some (VScalar (SStr s)) →
  fromisoformat rt s = Some t0 →
  timedelta_seconds (session_timeout self) < clock rt (clock_reads w) - t0 →
  (session_state w !! "user" = None
   ∨ ∃ d, session_state w !! "user" = Some (VDict d)) →
  ∃ w', is_authenticated rt self w = (Ok false, w')
        ∧ session_state w' = torn_down (session_state w)
        ∧ ui w' = ui w ++ [WarnSessionExpired].
Proof.
  unfold flag_set. intros Hflag Htime Hparse Hage Huser.
  unfold is_authenticated, bind, get_session, lift, datetime_now.
  rewrite Hflag, Htime. simpl. rewrite Hparse.
  destruct (Z.ltb_spec (timedelta_seconds (session_timeout self))
              (clock rt (clock_reads w) - t0)); [|lia].
  rewrite (logout_ok (tick w)) by done. by eexists.
Qed.

Lemma is_authenticated_malformed w s :
  flag_set w = true →
  session_state w !! "login_time" = Some (VScalar (SStr s)) →
  fromisoformat rt s = None →
  is_authenticated rt self w = (Raise ValueError, w).
Proof.
  unfold flag_set. intros Hflag Htime Hparse.
  unfold is_authenticated, bind, get_session, lift.
  rewrite Hflag, Htime. simpl. by rewrite Hparse.
Qed.

Lemma login_true_inv username password w w1 :
  login rt self username password w = (Ok true, w1) →
  ∃ user w0, authenticate rt self username password w = (Ok (Some user), w0)
             ∧ w1 = established rt user w0.
Proof.
  unfold login, try_except, bind at 1.
  destruct (authenticate rt self username password w) as [[[user|]|e] w0].
  - unfold bind, modify_session, datetime_now, ret. simpl.
    intros ?; simplify_eq. by exists user, w0.
  - unfold ret. intros ?; simplify_eq.
  - destruct e; unfold bind, show, ret; intros ?; simplify_eq.
Qed.

Lemma login_ok username password w user w0 :
  authenticate rt self username password w = (Ok (Some user), w0) →
  login rt self username password w = (Ok true, established rt user w0).
Proof.
  intros H. unfold login, try_except, bind at 1. by rewrite H.
Qed.

Lemma established_session user w0 :
  flag_set (established rt user w0) = true
  ∧ session_state (established rt user w0) !! "login_time"
    = Some (VScalar (SStr (isoformat rt (clock rt (clock_reads w0)))))
  ∧ session_state (established rt user w0) !! "user"
    = Some (VDict (to_dict rt user))
  ∧ clock_reads (established rt user w0) = S (clock_reads w0).
Proof.
  unfold flag_set, established. simpl. repeat split.
  - rewrite lookup_insert_ne by done. by rewrite lookup_insert_eq.
  - by rewrite lookup_insert_eq.
  - rewrite !lookup_insert_ne by done. by rewrite lookup_insert_eq.
Qed.

(** C2.  [is_authenticated] answers [False] when no session exists; it
    answers [True] right after a successful [login] established the
    session (the time read by the check is not more than [session_timeout]
    past the login time); and for any authenticated session, once the time
    read by the check is more than [session_timeout] past the stored login
    time, it answers [False] and that very call removes [user],
    [authenticated] and [login_time] from the session, with no [logout]
    having been called. *)
Theorem C2_is_authenticated_lifecycle :
  (∀ w, session_state w !! "authenticated" = None →
        is_authenticated rt self w = (Ok false, w))
  ∧ (∀ username password w w1,
       login rt self username password w = (Ok true, w1) →
       ∃ login_time,
         session_state w1 !! "login_time"
         = Some (VScalar (SStr (isoformat rt login_time)))
         ∧ (clock rt (clock_reads w1) - login_time
              ≤ timedelta_seconds (session_timeout self) →
            ∃ w2, is_authenticated rt self w1 = (Ok true, w2)
                  ∧ session_state w2 = session_state w1)
         ∧ (timedelta_seconds (session_timeout self)
              < clock rt (clock_reads w1) - login_time →
            ∃ w2, is_authenticated rt self w1 = (Ok false, w2)
                  ∧ session_state w2 = torn_down (session_state w1)
                  ∧ session_state w2 !! "user" = None
                  ∧ session_state w2 !! "authenticated" = None
                  ∧ session_state w2 !! "login_time" = None))
  ∧ (∀ w s login_time,
       flag_set w = true →
       session_state w !! "login_time" = Some (VScalar (SStr s)) →
       fromisoformat rt s = Some login_time →
       (session_state w !! "user" = None
        ∨ ∃ d, session_state w !! "user" = Some (VDict d)) →
       timedelta_seconds (session_timeout self)
         < clock rt (clock_reads w) - login_time →
       ∃ w2, is_authenticated rt self w = (Ok false, w2)
             ∧ session_state w2 !! "user" = None
             ∧ session_state w2 !! "authenticated" = None
             ∧ session_state w2 !! "login_time" = None
             ∧ ui w2 = ui w ++ [WarnSessionExpired]).
Proof.
  split; [|split].
  - intros w H. apply is_authenticated_anonymous. unfold flag_set. by rewrite H.
  - intros username password w w1 Hlogin.
    destruct (login_true_inv _ _ _ _ Hlogin) as (user & w0 & _ & ->).
    destruct (established_session user w0) as (Hflag & Htime & Huser & _).
    exists (clock rt (clock_reads w0)). split; [done|]. split.
    + intros Hage. exists (tick (established rt user w0)). split; [|done].
      eapply is_authenticated_alive; eauto using fromisoformat_isoformat.
    + intros Hage.
      destruct (is_authenticated_expired (established rt user w0) _ _
                  Hflag Htime (fromisoformat_isoformat rt _) Hage)
        as (w2 & Hw2 & Hs & _); [eauto|].
      exists w2. rewrite Hs. split; [done|]. split; [done|].
      apply torn_down_lookup.
  - intros w s t0 Hflag Htime Hparse Huser Hage.
    destruct (is_authenticated_expired w s t0 Hflag Htime Hparse Hage Huser)
      as (w2 & Hw2 & Hs & Hui).
    exists w2. rewrite Hs. split; [done|].
    destruct (torn_down_lookup (session_state w)) as (?&?&?). done.
Qed.

(** C6, as the code has it.  For a session whose [authenticated] flag is
    set and whose stored [login_time] is a string that does not parse,
    [is_authenticated] does not answer [False]: the [ValueError] of
    [datetime.fromisoformat] leaves the function, and the session is left
    as it was. *)
Theorem C6_malformed_login_time_raises w s :
  flag_set w = true →
  session_state w !! "login_time" = Some (VScalar (SStr s)) →
  fromisoformat rt s = None →
  is_authenticated rt self w = (Raise ValueError, w).
Proof. apply is_authenticated_malformed. Qed.
End session.

(** No session before the login, a session right after it, none two hours
    later. *)
Lemma C2_alice_session :
  is_authenticated Scenario.rt Scenario.handler Scenario.fresh
  = (Ok false, Scenario.fresh)
  ∧ (∃ w2, is_authenticated Scenario.rt Scenario.handler alice_logged_in
           = (Ok true, w2)
           ∧ session_state w2 = session_state alice_logged_in)
  ∧ (∃ w2, is_authenticated Scenario.rt Scenario.handler alice_two_hours_later
           = (Ok false, w2)
           ∧ session_state w2 !! "user" = None
           ∧ session_state w2 !! "authenticated" = None
           ∧ session_state w2 !! "login_time" = None
           ∧ ui w2 = ui alice_two_hours_later ++ [WarnSessionExpired]).
Proof.
  destruct (C2_is_authenticated_lifecycle Scenario.rt Scenario.handler)
    as (Hanon & Hlogin & Hexpired).
  split; [|split].
  - apply Hanon. reflexivity.
  - destruct (Hlogin "alice" "secret" Scenario.fresh alice_logged_in)
      as (t & Ht & Halive & _); [vm_compute; reflexivity|].
    apply Halive.
    assert (session_state alice_logged_in !! "login_time"
            = Some (VScalar (SStr "1001000000"))) as Hs
      by (vm_compute; reflexivity).
    rewrite Hs in Ht. injection Ht as Ht.
    apply (f_equal (fromisoformat Scenario.rt)) in Ht.
    rewrite (fromisoformat_isoformat Scenario.rt) in Ht. vm_compute in Ht.
    injection Ht as <-. vm_compute. discriminate.
  - apply (Hexpired alice_two_hours_later "1001000000" 1001000000).
    + vm_compute. reflexivity.
    + vm_compute. reflexivity.
    + vm_compute. reflexivity.
    + right. eexists. vm_compute. reflexivity.
    + vm_compute. reflexivity.
Defined.

(** With "yesterday" for a login time the check ends in [ValueError]. *)
Lemma C6_damaged_session_raises :
  session_state alice_damaged_session !! "login_time"
  = Some (VScalar (SStr "yesterday"))
  ∧ fromisoformat Scenario.rt "yesterday" = None
  ∧ (is_authenticated Scenario.rt Scenario.handler alice_damaged_session).1
    = Raise ValueError
  ∧ (is_authenticated Scenario.rt Scenario.handler alice_damaged_session).1
    ≠ Ok false.
Proof.
  split; [vm_compute; reflexivity|]. split; [vm_compute; reflexivity|].
  split; [vm_compute; reflexivity|]. vm_compute. discriminate.
Qed.

(** And the damaged session is still there afterwards. *)
Lemma C6_damaged_session_unchanged :
  is_authenticated Scenario.rt Scenario.handler alice_damaged_session
  = (Raise ValueError, alice_damaged_session).
Proof.
  apply (C6_malformed_login_time_raises Scenario.rt Scenario.handler
           alice_damaged_session "yesterday").
  - vm_compute. reflexivity.
  - vm_compute. reflexivity.
  - vm_compute. reflexivity.
Defined.

(** ** The password hasher *)

Lemma string_app_length (a b : string) :
  String.length (a +:+ b) = (String.length a + String.length b)%nat.
Proof.
  induction a as [|c a IH]; [done|].
  change (String c a +:+ b) with (String c (a +:+ b)). simpl. by rewrite IH.
Qed.

(** Two passwords that give the same string once the same salt is appended
    are the same password. *)
Lemma string_app_inv_tail (a b salt : string) :
  a +:+ salt = b +:+ salt → a = b.
Proof.
  revert b. induction a as [|c a IH]; intros [|d b] E.
  - done.
  - apply (f_equal String.length) in E.
    change (String d b +:+ salt) with (String d (b +:+ salt)) in E.
    change ("" +:+ salt) with salt in E. simpl in E.
    rewrite string_app_length in E. lia.
  - apply (f_equal String.length) in E.
    change (String c a +:+ salt) with (String c (a +:+ salt)) in E.
    change ("" +:+ salt) with salt in E. simpl in E.
    rewrite string_app_length in E. lia.
  - change (String c a +:+ salt) with (String c (a +:+ salt)) in E.
    change (String d b +:+ salt) with (String d (b +:+ salt)) in E.
    injection E as -> E. f_equal. by apply IH.
Qed.

Section hasher.
Context (rt : runtime).

Lemma hash_password_given_salt password salt w :
  salt ≠ "" →
  hash_password rt password (Some salt) w
  = (match sha256_hexdigest rt (password +:+ salt) with
     | Some pwd_hash => Ok (pwd_hash, salt)
     | None => Raise UnicodeEncodeError
     end, w).
Proof.
  intros Hsalt. unfold hash_password, bind.
  destruct (String.eqb_spec salt ""); [done|]. unfold ret at 1.
  by destruct (sha256_hexdigest rt (password +:+ salt)).
Qed.

(** Without a salt, or with the empty string for one, a token is drawn. *)
Lemma hash_password_drawn_salt password salt w :
  salt = None ∨ salt = Some "" →
  hash_password rt password salt w
  = (match sha256_hexdigest rt (password +:+ token_hex rt (token_draws w)) with
     | Some pwd_hash => Ok (pwd_hash, token_hex rt (token_draws w))
     | None => Raise UnicodeEncodeError
     end,
     mkWorld (session_state w) (users w) (store_log w) (ui w)
             (clock_reads w) (conn_attempts w) (S (token_draws w))).
Proof.
  intros [-> | ->]; unfold hash_password, bind, secrets_token_hex; simpl;
    by destruct (sha256_hexdigest rt _).
Qed.

Lemma verify_password_given_salt password password_hash salt w :
  salt ≠ "" →
  verify_password rt password password_hash salt w
  = (Ok (bool_decide (sha256_hexdigest rt (password +:+ salt)
                      = Some password_hash)), w).
Proof.
  intros Hsalt. unfold verify_password, try_except, bind.
  rewrite hash_password_given_salt by done.
  destruct (sha256_hexdigest rt (password +:+ salt)) as [h|]; simpl.
  - unfold ret. f_equal. f_equal.
    destruct (String.eqb_spec h password_hash) as [->|Hne].
    + symmetry. by apply bool_decide_eq_true_2.
    + symmetry. apply bool_decide_eq_false_2. congruence.
  - done.
Qed.

(** With the empty string for a salt, the hash is made with one token and
    checked against the next: the check passes only if the two salted
    inputs have the same digest. *)
Lemma empty_salt_needs_a_collision password w pwd_hash salt' w1 :
  hash_password rt password (Some "") w = (Ok (pwd_hash, salt'), w1) →
  (verify_password rt password pwd_hash "" w1).1 = Ok true →
  sha256_hexdigest rt (password +:+ token_hex rt (S (token_draws w)))
  = sha256_hexdigest rt (password +:+ token_hex rt (token_draws w)).
Proof.
  rewrite hash_password_drawn_salt by auto.
  destruct (sha256_hexdigest rt (password +:+ token_hex rt (token_draws w)))
    as [h|] eqn:Hh; intros E; [|discriminate E].
  injection E as Eh Es Ew. subst pwd_hash salt' w1.
  unfold verify_password, try_except, bind at 1.
  rewrite hash_password_drawn_salt by auto. simpl.
  destruct (sha256_hexdigest rt
              (password +:+ token_hex rt (S (token_draws w)))) as [h'|];
    simpl; [|discriminate].
  unfold ret. simpl. intros E. injection E as E.
  by apply String.eqb_eq in E as ->.
Qed.

(** C3, for the salts the code takes as given.  For every password and
    every non-empty salt, [verify_password] accepts the password against
    the hash component of [hash_password password salt]; and it rejects
    every other password whose salted input does not collide with the
    original one under the digest. *)
Theorem C3_verify_inverts_hash password salt w pwd_hash salt' w1 :
  salt ≠ "" →
  hash_password rt password (Some salt) w = (Ok (pwd_hash, salt'), w1) →
  salt' = salt
  ∧ (∀ w2, verify_password rt password pwd_hash salt w2 = (Ok true, w2))
  ∧ (∀ password' w2,
       password' ≠ password →
       (sha256_hexdigest rt (password' +:+ salt)
        = sha256_hexdigest rt (password +:+ salt) →
        password' +:+ salt = password +:+ salt) →
       verify_password rt password' pwd_hash salt w2 = (Ok false, w2)).
Proof.
  intros Hsalt. rewrite hash_password_given_salt by done.
  destruct (sha256_hexdigest rt (password +:+ salt)) as [h|] eqn:Hh;
    intros E; [|discriminate E].
  injection E as Eh Es Ew. subst pwd_hash salt' w1.
  split; [done|]. split.
  - intros w2. rewrite verify_password_given_salt by done.
    f_equal. f_equal. by apply bool_decide_eq_true_2.
  - intros password' w2 Hne Hnocoll.
    rewrite verify_password_given_salt by done.
    f_equal. f_equal. apply bool_decide_eq_false_2.
    intros E. apply Hne. apply (string_app_inv_tail _ _ salt).
    apply Hnocoll. congruence.
Qed.
End hasher.

(** An empty salt: the hash of "secret" is made with one token and checked
    with the next, and the check fails. *)
Lemma C3_empty_salt_is_not_verified :
  ∃ pwd_hash salt' w1,
    hash_password Scenario.rt "secret" (Some "") Scenario.fresh
    = (Ok (pwd_hash, salt'), w1)
    ∧ (verify_password Scenario.rt "secret" pwd_hash "" w1).1 = Ok false.
Proof. do 3 eexists. split; vm_compute; reflexivity. Qed.

(** A salted password is accepted, and one with a different first letter
    is not. *)
Lemma C3_salted_password :
  "pepper" ≠ ""
  ∧ verify_password Scenario.rt "secret" "secretpepper" "pepper" Scenario.fresh
    = (Ok true, Scenario.fresh)
  ∧ verify_password Scenario.rt "Secret" "secretpepper" "pepper" Scenario.fresh
    = (Ok false, Scenario.fresh).
Proof.
  assert ("pepper" ≠ "") as Hsalt by discriminate.
  destruct (C3_verify_inverts_hash Scenario.rt "secret" "pepper"
              Scenario.fresh "secretpepper" "pepper" Scenario.fresh Hsalt)
    as (_ & Hsame & Hother); [vm_compute; reflexivity|].
  split; [done|]. split; [apply Hsame|].
  apply Hother; [discriminate|]. vm_compute. intros E. by injection E.
Defined.

(** ** The credential store *)

Section store_lemmas.
Context (rt : runtime).

Lemma execute_query_from_eq n q w :
  execute_query_from rt n q w
  = match attempts_until_ok rt n (conn_attempts w) with
    | Some c => (Ok (rows_of q (users w)), queried q c w)
    | None => (Raise OperationalError, unreachable n w)
    end.
Proof.
  revert w. induction n as [|n IH]; intros w.
  - by destruct w.
  - simpl. unfold try_except, bind at 1, get_connection.
    destruct (conn_ok rt (conn_attempts w)) eqn:Hc; [done|].
    rewrite IH. simpl.
    destruct (attempts_until_ok rt n (S (conn_attempts w))); [done|].
    unfold unreachable. simpl. do 2 f_equal. lia.
Qed.

Lemma execute_query_up q w :
  store_up rt w →
  execute_query rt q w
  = (Ok (rows_of q (users w)), queried q (S (conn_attempts w)) w).
Proof.
  intros Hup. unfold execute_query. rewrite execute_query_from_eq.
  simpl. by rewrite Hup.
Qed.
End store_lemmas.

(** ** Which parts of the world each handler touches *)

Section frames.
Context (rt : runtime) (self : AuthHandler).

(** The lock check touches the clock and, at most, the user's own list. *)
Lemma is_account_locked_frame username w r w' :
  is_account_locked rt self username w = (r, w') →
  users w' = users w ∧ store_log w' = store_log w ∧ ui w' = ui w
  ∧ conn_attempts w' = conn_attempts w ∧ token_draws w' = token_draws w
  ∧ (w' = w ∨ w' = tick w
     ∨ w' = set_session (<[failed_attempts_key username := VList []]>)
              (tick w)).
Proof.
  unfold is_account_locked, bind, get_session, lift, datetime_now, ret,
    modify_session.
  destruct (py_len _) as [n|e]; [|intros; simplify_eq; naive_solver].
  destruct (max_attempts self <=? n); [|intros; simplify_eq; naive_solver].
  destruct (py_last _) as [x|e]; [|intros; simplify_eq; naive_solver].
  destruct (datetime_fromisoformat rt x) as [t|e];
    [|intros; simplify_eq; naive_solver].
  destruct (_ <? _); intros; simplify_eq; naive_solver.
Qed.

Lemma verify_password_frame password password_hash salt w :
  ∃ b d, verify_password rt password password_hash salt w
         = (Ok b, mkWorld (session_state w) (users w) (store_log w) (ui w)
                          (clock_reads w) (conn_attempts w) d).
Proof.
  unfold verify_password, try_except, bind at 1.
  destruct (String.eqb_spec salt "") as [->|Hsalt].
  - rewrite hash_password_drawn_salt by auto.
    destruct (sha256_hexdigest rt _); unfold ret; eauto.
  - rewrite hash_password_given_salt by done.
    destruct w. destruct (sha256_hexdigest rt _); unfold ret; eauto.
Qed.
End frames.

(** ** The authenticator *)

Lemma try_except_ok_inv {A} (m : M A) (h : exn → M A) w a w' :
  (∀ e w1, ∃ e' w2, h e w1 = (Raise e', w2)) →
  try_except m h w = (Ok a, w') → m w = (Ok a, w').
Proof.
  intros Hh. unfold try_except. destruct (m w) as [[b|e] w1]; [done|].
  destruct (Hh e w1) as (e' & w2 & ->). done.
Qed.

Section authenticator.
Context (rt : runtime) (self : AuthHandler).

(** [authenticate] once the lock check has answered [False]. *)
Lemma authenticate_not_locked username password w w0 :
  is_account_locked rt self username w = (Ok false, w0) →
  authenticate rt self username password w
  = try_except
      (df <- execute_query rt (SelectCredentials username) ;;
       match df with
       | [] => record_failed_attempt rt self username ;; ret None
       | row :: _ =>
           if negb (default false (row_is_active row)) then
             raise (AuthenticationError ACCOUNT_DEACTIVATED)
           else
             ok <- verify_password rt password
                     (default "" (row_password_hash row))
                     (default "" (row_password_salt row)) ;;
             if ok then
               clear_failed_attempts username ;;
               update_last_login rt username ;;
               get_user rt username
             else
               record_failed_attempt rt self username ;; ret None
       end)
      (λ e, match e with
            | AuthenticationError _ => raise e
            | _ => raise (AuthenticationError AUTHENTICATION_FAILED)
            end) w0.
Proof. intros H. unfold authenticate. by rewrite (bind_ok _ _ _ _ _ H). Qed.

(** A user comes back only through the branch guarded by the active flag. *)
Lemma authenticate_some_inv username password w user w' :
  authenticate rt self username password w = (Ok (Some user), w') →
  ∃ w0 c row rest ok_world,
    is_account_locked rt self username w = (Ok false, w0)
    ∧ attempts_until_ok rt connection_retries (conn_attempts w0) = Some c
    ∧ live_rows username (users w) = row :: rest
    ∧ row_is_active row = Some true
    ∧ verify_password rt password (default "" (row_password_hash row))
        (default "" (row_password_salt row))
        (queried (SelectCredentials username) c w0)
      = (Ok true, ok_world)
    ∧ (clear_failed_attempts username ;;
       update_last_login rt username ;;
       get_user rt username) ok_world = (Ok (Some user), w').
Proof.
  intros H.
  destruct (is_account_locked rt self username w) as [[[|]|e] w0] eqn:Hlock.
  - unfold authenticate in H. rewrite (bind_ok _ _ _ _ _ Hlock) in H.
    discriminate H.
  - rewrite (authenticate_not_locked _ _ _ _ Hlock) in H.
    destruct (is_account_locked_frame rt self _ _ _ _ Hlock) as (Hu & _).
    apply try_except_ok_inv in H; [|by intros [] ?; eexists _, _].
    apply bind_inv in H as [(df & w1 & Hq & H)|(e & _ & ?)]; [|done].
    unfold execute_query in Hq. rewrite execute_query_from_eq in Hq.
    destruct (attempts_until_ok rt connection_retries (conn_attempts w0))
      as [c|] eqn:Hc; [|discriminate Hq].
    injection Hq as <- <-. simpl rows_of in H. rewrite Hu in H.
    destruct (live_rows username (users w)) as [|row rest] eqn:Hrows.
    { apply bind_inv in H as [(? & ? & _ & H)|(e & _ & ?)]; done. }
    destruct (row_is_active row) as [[|]|] eqn:Hactive; simpl in H;
      [|discriminate H..].
    apply bind_inv in H as [(ok & w1 & Hv & H)|(e & _ & ?)]; [|done].
    destruct ok.
    + by exists w0, c, row, rest, w1.
    + apply bind_inv in H as [(? & ? & _ & H)|(e & _ & ?)]; done.
  - unfold authenticate in H. rewrite (bind_raise _ _ _ _ _ Hlock) in H.
    discriminate H.
Qed.

(** C5, as the code orders its checks.  For a username that is not locked
    out, whose credential record exists with its active flag false, and
    with the store reachable, [authenticate] raises the deactivated-account
    error for every password, records no failed attempt and leaves users
    table and messages alone.  And whatever the lock state or the store do,
    such a username never gets a [User] back. *)
Theorem C5_deactivated_account_is_refused username password w row rest :
  live_rows username (users w) = row :: rest →
  row_is_active row = Some false →
  (∀ user w', authenticate rt self username password w ≠ (Ok (Some user), w'))
  ∧ (∀ w0,
       is_account_locked rt self username w = (Ok false, w0) →
       store_up rt w →
       ∃ w', authenticate rt self username password w
             = (Raise (AuthenticationError ACCOUNT_DEACTIVATED), w')
             ∧ session_state w' = session_state w0
             ∧ recorded_attempts w' username = recorded_attempts w0 username
             ∧ users w' = users w
             ∧ ui w' = ui w).
Proof.
  intros Hrows Hinactive. split.
  - intros user w' H.
    destruct (authenticate_some_inv _ _ _ _ _ H)
      as (w0 & c & row' & rest' & w1 & _ & _ & Hrows' & Hactive & _).
    congruence.
  - intros w0 Hlock Hup.
    destruct (is_account_locked_frame rt self _ _ _ _ Hlock)
      as (Hu & _ & Hui & Hc & _).
    rewrite (authenticate_not_locked _ _ _ _ Hlock).
    unfold try_except, bind.
    rewrite execute_query_up
      by (intros n Hn; apply Hup; rewrite <- Hc; exact Hn).
    change (rows_of (SelectCredentials username) (users w0))
      with (live_rows username (users w0)).
    rewrite Hu, Hrows, Hinactive. simpl.
    eexists. split; [reflexivity|]. simpl. done.
Qed.
End authenticator.

Lemma scenario_store_up w : store_up Scenario.rt w.
Proof. intros n _. reflexivity. Qed.

(** "bob" is inactive and locked out: he is told about the lock. *)
Lemma C5_locked_out_comes_first :
  live_rows "bob" (users bob_locked_then_deactivated) = [Scenario.bob]
  ∧ row_is_active Scenario.bob = Some false
  ∧ (authenticate Scenario.rt Scenario.handler "bob" "hunter2"
       bob_locked_then_deactivated).1
    = Raise (AuthenticationError ACCOUNT_LOCKED)
  ∧ (authenticate Scenario.rt Scenario.handler "bob" "hunter2"
       bob_locked_then_deactivated).1
    ≠ Raise (AuthenticationError ACCOUNT_DEACTIVATED).
Proof.
  split; [vm_compute; reflexivity|]. split; [reflexivity|].
  split; [vm_compute; reflexivity|]. vm_compute. discriminate.
Qed.

(** "bob" is inactive and not locked out: he is told about the
    deactivation, and nothing is recorded. *)
Lemma C5_bob_is_refused :
  ∃ w', authenticate Scenario.rt Scenario.handler "bob" "hunter2" Scenario.fresh
        = (Raise (AuthenticationError ACCOUNT_DEACTIVATED), w')
        ∧ session_state w' = session_state Scenario.fresh
        ∧ recorded_attempts w' "bob" = recorded_attempts Scenario.fresh "bob"
        ∧ users w' = users Scenario.fresh
        ∧ ui w' = ui Scenario.fresh.
Proof.
  apply (C5_deactivated_account_is_refused Scenario.rt Scenario.handler
           "bob" "hunter2" Scenario.fresh Scenario.bob []).
  - vm_compute. reflexivity.
  - reflexivity.
  - vm_compute. reflexivity.
  - apply scenario_store_up.
Defined.

Section success.
Context (rt : runtime) (self : AuthHandler).

Lemma attempts_until_ok_ge n c c' :
  attempts_until_ok rt n c = Some c' → (c < c')%nat.
Proof.
  revert c. induction n as [|n IH]; intros c; simpl; [done|].
  destruct (conn_ok rt c); [intros; simplify_eq; lia|].
  intros H. apply IH in H. lia.
Qed.

(** The update leaves the selection of a user's live rows in place and
    stamps each of them. *)
Lemma touch_last_login_keeps username now r :
  row_username (touch_last_login username now r) = row_username r
  ∧ row_delete_flag (touch_last_login username now r) = row_delete_flag r.
Proof. unfold touch_last_login. by destruct (decide _). Qed.

Lemma live_rows_touch username now tbl :
  live_rows username (map (touch_last_login username now) tbl)
  = map (touch_last_login username now) (live_rows username tbl).
Proof.
  unfold live_rows. induction tbl as [|r tbl IH]; [done|].
  simpl. rewrite !filter_cons, IH.
  destruct (touch_last_login_keeps username now r) as [E1 E2].
  rewrite E1, E2. by destruct (decide _).
Qed.

Lemma live_rows_username username tbl row rest :
  live_rows username tbl = row :: rest → row_username row = username.
Proof.
  intros H. assert (row ∈ live_rows username tbl) as Hin
    by (rewrite H; apply list_elem_of_here).
  unfold live_rows in Hin. by apply list_elem_of_filter in Hin as [[? _] _].
Qed.

Lemma update_last_login_up username w :
  store_up rt w →
  update_last_login rt username w
  = (Ok tt,
     set_users (map (touch_last_login username (clock rt (clock_reads w))))
       (tick (queried (UpdateLastLogin username) (S (conn_attempts w)) w))).
Proof.
  intros Hup. unfold update_last_login, try_except, bind, get_connection.
  by rewrite Hup.
Qed.

Lemma get_user_up username w :
  store_up rt w →
  get_user rt username w
  = (Ok (user_of_row <$> head (live_rows username (users w))),
     queried (SelectProfile username) (S (conn_attempts w)) w).
Proof.
  intros Hup. unfold get_user, try_except, bind.
  rewrite execute_query_up by done. simpl.
  by destruct (live_rows username (users w)).
Qed.

(** The success branch is reached: not locked out, store reachable, an
    active record and a password that verifies give a [User] back. *)
Lemma authenticate_succeeds username password w w0 row rest :
  is_account_locked rt self username w = (Ok false, w0) →
  store_up rt w →
  live_rows username (users w) = row :: rest →
  row_is_active row = Some true →
  (∀ w1, (verify_password rt password (default "" (row_password_hash row))
            (default "" (row_password_salt row)) w1).1 = Ok true) →
  ∃ user w', authenticate rt self username password w = (Ok (Some user), w').
Proof.
  intros Hlock Hup Hrows Hactive Hverify.
  destruct (is_account_locked_frame rt self _ _ _ _ Hlock)
    as (Hu & _ & _ & Hconn & _).
  rewrite (authenticate_not_locked _ _ _ _ _ _ Hlock).
  unfold try_except, bind at 1.
  rewrite execute_query_up by (intros n Hn; apply Hup; lia).
  change (rows_of (SelectCredentials username) (users w0))
    with (live_rows username (users w0)).
  rewrite Hu, Hrows, Hactive.
  change (negb (default false (Some true))) with false. cbv iota.
  destruct (verify_password_frame rt password
              (default "" (row_password_hash row))
              (default "" (row_password_salt row))
              (queried (SelectCredentials username) (S (conn_attempts w0)) w0))
    as (b & d & Hv).
  pose proof (Hverify (queried (SelectCredentials username)
                         (S (conn_attempts w0)) w0)) as Hb.
  rewrite Hv in Hb. injection Hb as ->.
  rewrite (bind_ok _ _ _ _ _ Hv).
  unfold bind at 1, clear_failed_attempts, modify_session.
  unfold bind at 1.
  rewrite update_last_login_up by (intros n Hn; apply Hup; simpl in Hn; lia).
  rewrite get_user_up by (intros n Hn; apply Hup; simpl in Hn; lia).
  simpl. rewrite live_rows_touch, Hu, Hrows. simpl. eauto.
Qed.

(** C8.  Whenever [authenticate] succeeds, that is, gives a [User] back
    (the store being reachable and [max_attempts] positive): the failure
    entries recorded for that username are gone, the [last_login] of the
    user's rows in the store has been set to the time of the update, the
    value returned is the projection of the user's record as it then
    stands, and the lock check answers [False] afterwards, however many
    failures had been recorded before. *)
Theorem C8_successful_authentication username password w user w' :
  0 < max_attempts self →
  store_up rt w →
  authenticate rt self username password w = (Ok (Some user), w') →
  session_state w' !! failed_attempts_key username = None
  ∧ (∃ now row rest,
       users w' = map (touch_last_login username now) (users w)
       ∧ live_rows username (users w') = row :: rest
       ∧ row_last_login row = Some now
       ∧ user = user_of_row row)
  ∧ is_account_locked rt self username w' = (Ok false, w').
Proof.
  intros Hmax Hup H.
  destruct (authenticate_some_inv _ _ _ _ _ _ _ H)
    as (w0 & c & row & rest & w1 & Hlock & Hc & Hrows & Hactive & Hv & Hrun).
  destruct (is_account_locked_frame rt self _ _ _ _ Hlock)
    as (Hu & _ & _ & Hconn & _).
  apply attempts_until_ok_ge in Hc.
  destruct (verify_password_frame rt password
              (default "" (row_password_hash row))
              (default "" (row_password_salt row))
              (queried (SelectCredentials username) c w0)) as (b & d & Hv').
  rewrite Hv in Hv'. injection Hv' as _ ->.
  unfold bind at 1, clear_failed_attempts, modify_session in Hrun.
  unfold bind at 1 in Hrun.
  rewrite update_last_login_up in Hrun
    by (intros n Hn; apply Hup; simpl in Hn; lia).
  rewrite get_user_up in Hrun by (intros n Hn; apply Hup; simpl in Hn; lia).
  simpl in Hrun. rewrite live_rows_touch, Hu, Hrows in Hrun. simpl in Hrun.
  injection Hrun as <- <-. simpl.
  assert (delete (failed_attempts_key username) (session_state w0)
          !! failed_attempts_key username = None) as Hgone
    by apply lookup_delete_eq.
  split; [done|]. split.
  - exists (clock rt (clock_reads w0)),
      (touch_last_login username (clock rt (clock_reads w0)) row),
      (map (touch_last_login username (clock rt (clock_reads w0))) rest).
    rewrite live_rows_touch, Hrows. split; [done|]. split; [done|].
    split; [|done]. unfold touch_last_login.
    by rewrite decide_True by eauto using live_rows_username.
  - apply is_account_locked_below with (l := []); [|simpl; lia].
    unfold recorded_attempts. simpl. by rewrite Hgone.
Qed.
End success.

(** Two failures are on record when "alice" gets her password right. *)
Lemma C8_alice_third_attempt :
  length (match recorded_attempts alice_after_two_failures "alice" with
          | VList l => l
          | _ => []
          end) = 2%nat
  ∧ ∃ user w',
      authenticate Scenario.rt Scenario.handler "alice" "secret"
        alice_after_two_failures = (Ok (Some user), w')
      ∧ session_state w' !! failed_attempts_key "alice" = None
      ∧ (∃ now row rest,
           users w' = map (touch_last_login "alice" now)
                        (users alice_after_two_failures)
           ∧ live_rows "alice" (users w') = row :: rest
           ∧ row_last_login row = Some now
           ∧ user = user_of_row row)
      ∧ is_account_locked Scenario.rt Scenario.handler "alice" w'
        = (Ok false, w').
Proof.
  split; [vm_compute; reflexivity|].
  destruct (authenticate Scenario.rt Scenario.handler "alice" "secret"
              alice_after_two_failures) as [[[user|]|e] w'] eqn:E;
    [|vm_compute in E; discriminate E..].
  exists user, w'. split; [reflexivity|].
  apply (C8_successful_authentication Scenario.rt Scenario.handler
           "alice" "secret" alice_after_two_failures user w').
  - reflexivity.
  - apply scenario_store_up.
  - exact E.
Defined.

(** ** Session serialization of a [User] *)

Section serialization.
Context (rt : runtime).

Lemma filter_valid_fields_lookup (data : gmap string scalar) k :
  k ∈ valid_fields →
  filter (λ kv : string * scalar, kv.1 ∈ valid_fields) data !! k = data !! k.
Proof.
  intros Hk. destruct (data !! k) as [x|] eqn:E.
  - by apply map_lookup_filter_Some_2.
  - apply map_lookup_filter_None_2. by left.
Qed.

Lemma to_dict_lookup (u : User) :
  to_dict rt u !! "id" = Some (id u)
  ∧ to_dict rt u !! "username" = Some (username u)
  ∧ to_dict rt u !! "email" = Some (email u)
  ∧ to_dict rt u !! "role" = Some (role u)
  ∧ to_dict rt u !! "employee_id" = Some (employee_id u)
  ∧ to_dict rt u !! "is_active" = Some (is_active u)
  ∧ to_dict rt u !! "last_login" = Some (isoformat_or_none rt (last_login u))
  ∧ to_dict rt u !! "created_date"
    = Some (isoformat_or_none rt (created_date u)).
Proof. unfold to_dict. simpl. repeat split; by simplify_map_eq. Qed.

(** What the conversion block makes of a dictionary written by [to_dict]:
    the [last_login] text is parsed back. *)
Lemma convert_last_login_to_dict (u : User) :
  is_optional_datetime (last_login u) →
  convert_last_login rt (to_dict rt u)
  = <["last_login" := last_login u]> (to_dict rt u).
Proof.
  intros Hl. unfold convert_last_login.
  destruct (to_dict_lookup u) as (_ & _ & _ & _ & _ & _ & Hlast & _).
  rewrite Hlast.
  destruct Hl as [E | [d E]]; rewrite E in *; simpl.
  - symmetry. by apply insert_id.
  - destruct (String.eqb_spec (isoformat rt d) "") as [E0|_].
    { by apply isoformat_nonempty in E0. }
    simpl. by rewrite fromisoformat_isoformat.
Qed.

(** The round trip through the session, field by field: everything comes
    back as it was except [created_date], which stays the text that
    [to_dict] wrote. *)
Lemma from_dict_to_dict (u : User) :
  is_optional_datetime (last_login u) →
  (from_dict rt (to_dict rt u)).2
  = Ok (mkUser (id u) (username u) (email u) (role u) (employee_id u)
               (is_active u) (last_login u)
               (isoformat_or_none rt (created_date u))).
Proof.
  intros Hl. unfold from_dict. simpl.
  rewrite convert_last_login_to_dict by done.
  destruct (to_dict_lookup u) as (H1 & H2 & H3 & H4 & H5 & H6 & H7 & H8).
  unfold User_init.
  rewrite !filter_valid_fields_lookup
    by (unfold valid_fields; set_solver).
  rewrite lookup_insert_eq. rewrite !lookup_insert_ne by done.
  by rewrite H1, H2, H3, H4, H5, H6, H8.
Qed.

(** C10 as the code has it: for a well-typed [User] whose [created_date]
    is a datetime, [from_dict (to_dict u)] is a [User] that agrees with [u]
    on every field but [created_date], which comes back as the ISO text
    and not as the datetime; so the result is not equal to [u]. *)
Theorem C10_created_date_is_not_restored (u : User) d :
  well_typed u →
  created_date u = SDatetime d →
  ∃ u', (from_dict rt (to_dict rt u)).2 = Ok u'
        ∧ id u' = id u ∧ username u' = username u ∧ email u' = email u
        ∧ role u' = role u ∧ employee_id u' = employee_id u
        ∧ is_active u' = is_active u ∧ last_login u' = last_login u
        ∧ created_date u' = SStr (isoformat rt d)
        ∧ u' ≠ u.
Proof.
  intros Hwt Hd. eexists. split.
  { apply from_dict_to_dict. apply Hwt. }
  simpl. rewrite Hd. simpl. repeat split; try done.
  intros E. apply (f_equal created_date) in E. simpl in E. congruence.
Qed.

(** When there is no [created_date] the round trip is exact. *)
Lemma from_dict_to_dict_without_created_date (u : User) :
  well_typed u →
  created_date u = SNone →
  (from_dict rt (to_dict rt u)).2 = Ok u.
Proof.
  intros Hwt Hd. rewrite from_dict_to_dict by apply Hwt.
  destruct u; simpl in *. by subst.
Qed.
End serialization.

(** The record of "alice" has a creation date, which comes back as text. *)
Lemma C10_alice_round_trip :
  ∃ u', (from_dict Scenario.rt
           (to_dict Scenario.rt (user_of_row Scenario.alice))).2 = Ok u'
        ∧ created_date (user_of_row Scenario.alice) = SDatetime 5000000
        ∧ created_date u' = SStr "5000000"
        ∧ u' ≠ user_of_row Scenario.alice.
Proof.
  destruct (C10_created_date_is_not_restored Scenario.rt
              (user_of_row Scenario.alice) 5000000)
    as (u' & Hu' & _ & _ & _ & _ & _ & _ & _ & Hc & Hne).
  - split; simpl; first [by eexists | by right; eexists | by left].
  - reflexivity.
  - exists u'. split; [done|]. split; [reflexivity|]. split; [|done].
    rewrite Hc. vm_compute. reflexivity.
Defined.

(** ** Access control *)

Section access.
Context (rt : runtime) (self : AuthHandler).

Lemma permissions_unknown permission :
  permission ∉ permission_names → permissions !! permission = None.
Proof.
  unfold permission_names, permissions. intros H. simpl.
  rewrite !not_elem_of_cons in H. destruct H as (?&?&?&?&?&_).
  by rewrite !lookup_insert_ne, lookup_empty by done.
Qed.

Lemma permissions_manage_users :
  permissions !! "manage_users" = Some [UserRole.ADMIN].
Proof. reflexivity. Qed.

Lemma scalar_eq_str_decide x s :
  scalar_eq_str x s = bool_decide (x = SStr s).
Proof.
  destruct x as [| | |r|]; simpl; try done.
  destruct (String.eqb_spec r s) as [->|Hne].
  - symmetry. by apply bool_decide_eq_true_2.
  - symmetry. apply bool_decide_eq_false_2. congruence.
Qed.

Lemma check_permission_run permission w :
  check_permission rt self permission w
  = match get_current_user rt self w with
    | (Ok None, w') => (Ok false, w')
    | (Ok (Some user), w') =>
        (Ok (has_any_role user (default [] (permissions !! permission))), w')
    | (Raise e, w') => (Raise e, w')
    end.
Proof.
  unfold check_permission, bind.
  by destruct (get_current_user rt self w) as [[[user|]|e] w'].
Qed.

(** Without an authenticated session there is no current user. *)
Lemma get_current_user_anonymous w w' :
  is_authenticated rt self w = (Ok false, w') →
  get_current_user rt self w = (Ok None, w').
Proof. intros H. unfold get_current_user. by rewrite (bind_ok _ _ _ _ _ H). Qed.

(** C9.  [check_permission] answers [False] when there is no authenticated
    current user; for a permission name outside the table it answers
    [False] whenever it answers, and never [True]; and for
    ["manage_users"] it answers [True] exactly when there is a current
    user whose role is ["admin"]. *)
Theorem C9_check_permission w :
  (∀ permission w',
     is_authenticated rt self w = (Ok false, w')
     ∨ get_current_user rt self w = (Ok None, w') →
     check_permission rt self permission w = (Ok false, w'))
  ∧ (∀ permission,
       permission ∉ permission_names →
       (check_permission rt self permission w).1 ≠ Ok true
       ∧ ∀ current w', get_current_user rt self w = (Ok current, w') →
                       check_permission rt self permission w = (Ok false, w'))
  ∧ ((check_permission rt self "manage_users" w).1 = Ok true
     ↔ ∃ user, (get_current_user rt self w).1 = Ok (Some user)
               ∧ role user = SStr "admin").
Proof.
  split; [|split].
  - intros permission w' [H|H].
    + rewrite check_permission_run.
      by rewrite (get_current_user_anonymous _ _ H).
    + rewrite check_permission_run. by rewrite H.
  - intros permission Hunknown.
    rewrite check_permission_run, (permissions_unknown _ Hunknown).
    destruct (get_current_user rt self w) as [[[user|]|e] w1]; simpl;
      (split; [done|]); intros current w' E; by simplify_eq.
  - rewrite check_permission_run, permissions_manage_users.
    destruct (get_current_user rt self w) as [[[user|]|e] w1]; simpl.
    + unfold has_any_role, scalar_in. simpl.
      rewrite orb_false_r, scalar_eq_str_decide. split.
      * intros E. exists user. split; [done|].
        injection E as E. by apply bool_decide_eq_true_1 in E.
      * intros (user' & E & Hrole). injection E as <-.
        f_equal. by apply bool_decide_eq_true_2.
    + split; [done|]. by intros (? & ? & _).
    + split; [done|]. by intros (? & ? & _).
Qed.
End access.

(** Nobody is logged in; then "alice", an admin, is. *)
Lemma C9_alice_and_a_stranger :
  check_permission Scenario.rt Scenario.handler "manage_users" Scenario.fresh
  = (Ok false, Scenario.fresh)
  ∧ (check_permission Scenario.rt Scenario.handler "drop_tables"
       alice_logged_in).1 ≠ Ok true
  ∧ (check_permission Scenario.rt Scenario.handler "manage_users"
       alice_logged_in).1 = Ok true.
Proof.
  split; [|split].
  - apply (C9_check_permission Scenario.rt Scenario.handler Scenario.fresh).
    left. vm_compute. reflexivity.
  - apply (C9_check_permission Scenario.rt Scenario.handler alice_logged_in).
    unfold permission_names. rewrite !not_elem_of_cons.
    repeat split; try discriminate. apply not_elem_of_nil.
  - apply (C9_check_permission Scenario.rt Scenario.handler alice_logged_in).
    eexists. split; vm_compute; reflexivity.
Defined.

(** ** Unknown username against wrong password *)

Section no_match.
Context (rt : runtime) (self : AuthHandler).

Lemma recent_attempts_ok cutoff l :
  Forall (is_timestamp rt) l →
  recent_attempts rt cutoff l = Ok (kept_attempts rt cutoff l).
Proof.
  induction 1 as [|a l [t Ht] _ IH]; [done|].
  simpl. rewrite Ht, IH. by destruct (cutoff <? t).
Qed.

Lemma is_account_locked_view username wa wb :
  same_view wa wb →
  ∃ r wa' wb',
    is_account_locked rt self username wa = (r, wa')
    ∧ is_account_locked rt self username wb = (r, wb')
    ∧ same_view wa' wb'.
Proof.
  intros (Hs & Hui & Hlog & Hclock & Hconn).
  unfold is_account_locked, bind, get_session, lift, datetime_now, ret,
    modify_session.
  rewrite Hs.
  destruct (py_len _) as [n|e]; [|by eexists _, _, _].
  destruct (max_attempts self <=? n); [|by eexists _, _, _].
  destruct (py_last _) as [x|e]; [|by eexists _, _, _].
  destruct (datetime_fromisoformat rt x) as [t|e]; [|by eexists _, _, _].
  simpl. rewrite Hclock.
  destruct (_ <? _); eexists _, _, _; (split; [done|]); (split; [done|]);
    unfold same_view; simpl; by rewrite Hs, Hui, Hlog, Hclock, Hconn.
Qed.

Lemma record_failed_attempt_run username w :
  record_failed_attempt rt self username w
  = match session_state w !! failed_attempts_key username with
    | Some (VList l) => record_onto rt self username w true l
    | None => record_onto rt self username w false []
    | Some _ => (Raise AttributeError, w)
    end.
Proof.
  unfold record_failed_attempt, record_onto, after_failure, failure_message,
    bind, get_session, lift, datetime_now, ret, modify_session, show, raise.
  destruct (session_state w !! failed_attempts_key username)
    as [[x|l|d]|]; [done| |done|].
  - simpl. destruct (recent_attempts rt _ _) as [kept|e]; simpl; [|done].
    destruct (0 <? _); simpl; by rewrite insert_insert_eq.
  - simpl. rewrite fromisoformat_isoformat.
    destruct (_ <? clock rt (clock_reads w)); simpl; by destruct (0 <? _).
Qed.

Lemma record_failed_attempt_view username wa wb :
  same_view wa wb →
  ∃ r wa' wb',
    record_failed_attempt rt self username wa = (r, wa')
    ∧ record_failed_attempt rt self username wb = (r, wb')
    ∧ same_view wa' wb'
    ∧ users wa' = users wa ∧ users wb' = users wb.
Proof.
  intros (Hs & Hui & Hlog & Hclock & Hconn).
  rewrite !record_failed_attempt_run. rewrite Hs.
  unfold record_onto, after_failure. rewrite Hs, Hui, Hlog, Hclock, Hconn.
  destruct (session_state wb !! failed_attempts_key username)
    as [[x|l|d]|]; try (by eexists _, _, _);
    destruct (recent_attempts rt _ _); by eexists _, _, _.
Qed.

Lemma no_match_view username wa wb :
  same_view wa wb →
  (no_match rt self username wa).1 = (no_match rt self username wb).1
  ∧ same_view (no_match rt self username wa).2 (no_match rt self username wb).2
  ∧ users (no_match rt self username wa).2 = users wa
  ∧ users (no_match rt self username wb).2 = users wb.
Proof.
  intros Hview. unfold no_match.
  destruct (record_failed_attempt_view username wa wb Hview)
    as (r & wa' & wb' & -> & -> & ? & ? & ?).
  by destruct r.
Qed.

Lemma authenticate_unknown username password w w0 c :
  is_account_locked rt self username w = (Ok false, w0) →
  attempts_until_ok rt connection_retries (conn_attempts w0) = Some c →
  live_rows username (users w) = [] →
  authenticate rt self username password w
  = no_match rt self username (queried (SelectCredentials username) c w0).
Proof.
  intros Hlock Hc Hrows.
  destruct (is_account_locked_frame rt self _ _ _ _ Hlock) as (Hu & _).
  rewrite (authenticate_not_locked _ _ _ _ _ _ Hlock).
  unfold try_except, bind at 1, execute_query.
  rewrite execute_query_from_eq, Hc.
  change (rows_of (SelectCredentials username) (users w0))
    with (live_rows username (users w0)).
  rewrite Hu, Hrows. unfold no_match, bind, ret.
  destruct (record_failed_attempt rt self username _) as [[[]|e] w1];
    [done|by destruct e].
Qed.

Lemma authenticate_wrong_password username password w w0 c row rest :
  is_account_locked rt self username w = (Ok false, w0) →
  attempts_until_ok rt connection_retries (conn_attempts w0) = Some c →
  live_rows username (users w) = row :: rest →
  row_is_active row = Some true →
  (∀ w1, (verify_password rt password (default "" (row_password_hash row))
            (default "" (row_password_salt row)) w1).1 = Ok false) →
  ∃ d, authenticate rt self username password w
       = no_match rt self username
           (with_draws d (queried (SelectCredentials username) c w0)).
Proof.
  intros Hlock Hc Hrows Hactive Hwrong.
  destruct (is_account_locked_frame rt self _ _ _ _ Hlock) as (Hu & _).
  rewrite (authenticate_not_locked _ _ _ _ _ _ Hlock).
  unfold try_except, bind at 1, execute_query.
  rewrite execute_query_from_eq, Hc.
  change (rows_of (SelectCredentials username) (users w0))
    with (live_rows username (users w0)).
  rewrite Hu, Hrows, Hactive.
  change (negb (default false (Some true))) with false. cbv iota.
  destruct (verify_password_frame rt password
              (default "" (row_password_hash row))
              (default "" (row_password_salt row))
              (queried (SelectCredentials username) c w0)) as (b & d & Hv).
  pose proof (Hwrong (queried (SelectCredentials username) c w0)) as Hb.
  rewrite Hv in Hb. injection Hb as ->.
  exists d. rewrite (bind_ok _ _ _ _ _ Hv).
  unfold no_match, with_draws, bind, ret.
  destruct (record_failed_attempt rt self username _) as [[[]|e] w1];
    [done|by destruct e].
Qed.

Lemma authenticate_store_down username password w w0 :
  is_account_locked rt self username w = (Ok false, w0) →
  attempts_until_ok rt connection_retries (conn_attempts w0) = None →
  authenticate rt self username password w
  = (Raise (AuthenticationError AUTHENTICATION_FAILED),
     unreachable connection_retries w0).
Proof.
  intros Hlock Hc.
  rewrite (authenticate_not_locked _ _ _ _ _ _ Hlock).
  unfold try_except, bind at 1, execute_query.
  by rewrite execute_query_from_eq, Hc.
Qed.

Lemma kept_attempts_snoc cutoff l now :
  cutoff < now →
  kept_attempts rt cutoff (l ++ [SStr (isoformat rt now)])
  = kept_attempts rt cutoff l ++ [SStr (isoformat rt now)].
Proof.
  intros H. unfold kept_attempts. rewrite List.filter_app. f_equal.
  simpl. rewrite fromisoformat_isoformat.
  by destruct (Z.ltb_spec cutoff now); [|lia].
Qed.

Lemma record_failed_attempt_ok username w l :
  recorded_attempts w username = VList l →
  Forall (is_timestamp rt) l →
  record_failed_attempt rt self username w
  = (Ok tt,
     after_failure self username w
       (kept_attempts rt
          (clock rt (S (clock_reads w))
           - timedelta_seconds (lockout_duration self))
          (l ++ [SStr (isoformat rt (clock rt (clock_reads w)))]))).
Proof.
  intros Hl Hts. rewrite record_failed_attempt_run.
  assert (Forall (is_timestamp rt)
            (l ++ [SStr (isoformat rt (clock rt (clock_reads w)))])) as Hall.
  { apply Forall_app. split; [done|]. apply Forall_singleton.
    eexists. simpl. by rewrite fromisoformat_isoformat. }
  unfold recorded_attempts in Hl.
  destruct (session_state w !! failed_attempts_key username)
    as [[x|l0|d]|]; simpl in Hl; simplify_eq;
    unfold record_onto; by rewrite (recent_attempts_ok _ _ Hall).
Qed.

Lemma attempts_until_ok_up w :
  store_up rt w →
  attempts_until_ok rt connection_retries (conn_attempts w)
  = Some (S (conn_attempts w)).
Proof. intros Hup. simpl. by rewrite Hup. Qed.

(** The two runs cannot be told apart, whatever state they start from. *)
Lemma authenticate_no_match_view username password wa wb row rest :
  same_view wa wb →
  live_rows username (users wa) = [] →
  live_rows username (users wb) = row :: rest →
  row_is_active row = Some true →
  (∀ w, (verify_password rt password (default "" (row_password_hash row))
           (default "" (row_password_salt row)) w).1 = Ok false) →
  (authenticate rt self username password wa).1
  = (authenticate rt self username password wb).1
  ∧ same_view (authenticate rt self username password wa).2
              (authenticate rt self username password wb).2
  ∧ users (authenticate rt self username password wa).2 = users wa
  ∧ users (authenticate rt self username password wb).2 = users wb.
Proof.
  intros Hview Ha Hb Hactive Hwrong.
  destruct (is_account_locked_view username wa wb Hview)
    as (r & wa0 & wb0 & Ea & Eb & Hv0).
  destruct (is_account_locked_frame rt self _ _ _ _ Ea) as (Hua & _).
  destruct (is_account_locked_frame rt self _ _ _ _ Eb) as (Hub & _).
  destruct r as [[|]|e].
  - unfold authenticate.
    by rewrite (bind_ok _ _ _ _ _ Ea), (bind_ok _ _ _ _ _ Eb).
  - destruct (attempts_until_ok rt connection_retries (conn_attempts wa0))
      as [c|] eqn:Hc.
    + assert (attempts_until_ok rt connection_retries (conn_attempts wb0)
              = Some c) as Hc'
        by (destruct Hv0 as (_ & _ & _ & _ & <-); exact Hc).
      rewrite (authenticate_unknown _ _ _ _ _ Ea Hc Ha).
      destruct (authenticate_wrong_password _ password _ _ _ _ _
                  Eb Hc' Hb Hactive Hwrong) as [d ->].
      destruct (no_match_view username
                  (queried (SelectCredentials username) c wa0)
                  (with_draws d (queried (SelectCredentials username) c wb0)))
        as (Hr & Hv & Hu1 & Hu2).
      { destruct Hv0 as (Hs & Hui & Hlog & Hclock & Hconn).
        unfold same_view. simpl. by rewrite Hs, Hui, Hlog, Hclock. }
      rewrite Hu1, Hu2. simpl. by rewrite Hua, Hub.
    + assert (attempts_until_ok rt connection_retries (conn_attempts wb0)
              = None) as Hc'
        by (destruct Hv0 as (_ & _ & _ & _ & <-); exact Hc).
      rewrite (authenticate_store_down _ password _ _ Ea Hc).
      rewrite (authenticate_store_down _ password _ _ Eb Hc').
      destruct Hv0 as (Hs & Hui & Hlog & Hclock & Hconn).
      unfold same_view. simpl. by rewrite Hs, Hui, Hlog, Hclock, Hconn.
  - unfold authenticate.
    by rewrite (bind_raise _ _ _ _ _ Ea), (bind_raise _ _ _ _ _ Eb).
Qed.

(** C7, as the code orders its checks.  Take two runs of [authenticate]
    for the same username and password from states a caller cannot tell
    apart, the username having no credential record in the first and an
    active record that the password does not match in the second.  The
    runs end with the same result and the same session dictionary,
    messages and statements sent, and neither changes the users table.
    When the username is not locked out, the store is reachable and the
    recorded attempts are timestamps, that common outcome is "no match"
    ([None], no error) with one failed attempt recorded: the user's list
    becomes the pruned old list followed by the new timestamp. *)
Theorem C7_no_match_is_uniform username password wa wb row rest :
  same_view wa wb →
  live_rows username (users wa) = [] →
  live_rows username (users wb) = row :: rest →
  row_is_active row = Some true →
  (∀ w, (verify_password rt password (default "" (row_password_hash row))
           (default "" (row_password_salt row)) w).1 = Ok false) →
  ((authenticate rt self username password wa).1
   = (authenticate rt self username password wb).1
   ∧ same_view (authenticate rt self username password wa).2
               (authenticate rt self username password wb).2
   ∧ users (authenticate rt self username password wa).2 = users wa
   ∧ users (authenticate rt self username password wb).2 = users wb)
  ∧ (∀ w0 l,
       is_account_locked rt self username wa = (Ok false, w0) →
       store_up rt wa →
       recorded_attempts w0 username = VList l →
       Forall (is_timestamp rt) l →
       let now := clock rt (clock_reads w0) in
       let cutoff := clock rt (S (clock_reads w0))
                     - timedelta_seconds (lockout_duration self) in
       let kept := kept_attempts rt cutoff (l ++ [SStr (isoformat rt now)]) in
       (authenticate rt self username password wa).1 = Ok None
       ∧ (authenticate rt self username password wb).1 = Ok None
       ∧ session_state (authenticate rt self username password wa).2
         = <[failed_attempts_key username := VList kept]> (session_state w0)
       ∧ session_state (authenticate rt self username password wb).2
         = <[failed_attempts_key username := VList kept]> (session_state w0)
       ∧ (cutoff < now →
          kept = kept_attempts rt cutoff l ++ [SStr (isoformat rt now)])).
Proof.
  intros Hview Ha Hb Hactive Hwrong.
  pose proof (authenticate_no_match_view _ password _ _ _ _
                Hview Ha Hb Hactive Hwrong) as (Hr & Hv & Hu).
  split; [done|].
  intros w0 l Hlock Hup Hl Hts now cutoff kept.
  destruct (is_account_locked_frame rt self _ _ _ _ Hlock)
    as (_ & _ & _ & Hconn & _).
  assert (store_up rt w0) as Hup0
    by (intros n Hn; apply Hup; rewrite <- Hconn; exact Hn).
  assert (authenticate rt self username password wa
          = (Ok None,
             after_failure self username
               (queried (SelectCredentials username) (S (conn_attempts w0)) w0)
               kept)) as E.
  { rewrite (authenticate_unknown _ _ _ _ _ Hlock
               (attempts_until_ok_up _ Hup0) Ha).
    unfold no_match. by rewrite (record_failed_attempt_ok _ _ l). }
  rewrite <- Hr. destruct Hv as (<- & _). rewrite E. simpl.
  repeat split; try done. apply kept_attempts_snoc.
Qed.
End no_match.

(** A locked-out username without a record: the fourth attempt raises and
    records nothing. *)
Lemma C7_locked_unknown_user_records_nothing :
  live_rows "carol" (users carol_after_three_failures) = []
  ∧ (authenticate Scenario.rt Scenario.handler "carol" "guess4"
       carol_after_three_failures).1
    = Raise (AuthenticationError ACCOUNT_LOCKED)
  ∧ (authenticate Scenario.rt Scenario.handler "carol" "guess4"
       carol_after_three_failures).1 ≠ Ok None
  ∧ session_state (authenticate Scenario.rt Scenario.handler "carol" "guess4"
                     carol_after_three_failures).2
    = session_state carol_after_three_failures.
Proof.
  split; [vm_compute; reflexivity|]. split; [vm_compute; reflexivity|].
  split; [vm_compute; discriminate|]. vm_compute. reflexivity.
Qed.

(** "alice" without a record and "alice" with a wrong password: the same
    answer and the same single entry in the session. *)
Lemma C7_alice_unknown_or_mistyped :
  (authenticate Scenario.rt Scenario.handler "alice" "guess" without_alice).1
  = Ok None
  ∧ (authenticate Scenario.rt Scenario.handler "alice" "guess"
       Scenario.fresh).1 = Ok None
  ∧ session_state
      (authenticate Scenario.rt Scenario.handler "alice" "guess"
         without_alice).2
    = <[failed_attempts_key "alice" := VList [SStr "1000000000"]]> ∅
  ∧ session_state
      (authenticate Scenario.rt Scenario.handler "alice" "guess"
         Scenario.fresh).2
    = <[failed_attempts_key "alice" := VList [SStr "1000000000"]]> ∅.
Proof.
  destruct (C7_no_match_is_uniform Scenario.rt Scenario.handler
              "alice" "guess" without_alice Scenario.fresh Scenario.alice [])
    as (_ & H).
  - by repeat split.
  - vm_compute. reflexivity.
  - vm_compute. reflexivity.
  - reflexivity.
  - intros w. rewrite verify_password_given_salt by discriminate.
    vm_compute. reflexivity.
  - destruct (H without_alice []) as (H1 & H2 & H3 & H4 & _).
    + vm_compute. reflexivity.
    + apply scenario_store_up.
    + vm_compute. reflexivity.
    + constructor.
    + split; [exact H1|]. split; [exact H2|]. split; [exact H3|exact H4].
Defined.

(** ** Exceptions: what leaves the handlers *)

Lemma try_except_inv {A} (m : M A) (h : exn → M A) w r w' :
  try_except m h w = (r, w') →
  (∃ a, m w = (Ok a, w') ∧ r = Ok a)
  ∨ (∃ e w1, m w = (Raise e, w1) ∧ h e w1 = (r, w')).
Proof.
  unfold try_except. destruct (m w) as [[a|e] w1]; intros H.
  - left. exists a. by simplify_eq.
  - right. eauto.
Qed.

Section exceptions.
Context (rt : runtime) (self : AuthHandler).

Lemma login_returns username password w :
  ∃ b w', login rt self username password w = (Ok b, w').
Proof.
  unfold login, try_except.
  destruct ((user <- authenticate rt self username password ;; _) w)
    as [[b|e] w1]; [by eauto|].
  destruct e; unfold bind, show, ret; eauto.
Qed.

(** [login] catches whatever [authenticate] raises: for every session
    dictionary, table, clock and store it returns a boolean, and the
    boolean is [True] exactly when [authenticate] returned a user. *)
Theorem login_never_raises username password w :
  ∃ b w',
    login rt self username password w = (Ok b, w')
    ∧ (b = true
       ↔ ∃ user w0,
           authenticate rt self username password w = (Ok (Some user), w0)).
Proof.
  destruct (login_returns username password w) as (b & w' & H).
  exists b, w'. split; [done|]. split.
  - intros ->. apply login_true_inv in H as (user & w0 & Ha & _). eauto.
  - intros (user & w0 & Ha).
    rewrite (login_ok rt self _ _ _ _ _ Ha) in H. by simplify_eq.
Qed.

Lemma same_except_refl k0 w w' :
  session_state w' = session_state w → same_except k0 w w'.
Proof. intros E k _. by rewrite E. Qed.

Lemma same_except_insert k0 v w w' :
  session_state w' = <[k0 := v]> (session_state w) → same_except k0 w w'.
Proof. intros E k Hk. rewrite E. by apply lookup_insert_ne. Qed.

Lemma same_except_delete k0 w w' :
  session_state w' = delete k0 (session_state w) → same_except k0 w w'.
Proof. intros E k Hk. rewrite E. by apply lookup_delete_ne. Qed.

Lemma same_except_trans k0 w1 w2 w3 :
  same_except k0 w1 w2 → same_except k0 w2 w3 → same_except k0 w1 w3.
Proof. intros H1 H2 k Hk. rewrite H2, H1; done. Qed.

Lemma recent_attempts_raises cutoff l e :
  recent_attempts rt cutoff l = Raise e → e = ValueError ∨ e = TypeError.
Proof.
  induction l as [|a l IH]; simpl; [done|].
  destruct a as [| | |s|]; simpl; try (intros; simplify_eq; by right).
  destruct (fromisoformat rt s); [|intros; simplify_eq; by left].
  destruct (recent_attempts rt cutoff l); [done|].
  intros; simplify_eq. by apply IH.
Qed.

Lemma recent_attempts_kept cutoff l kept :
  recent_attempts rt cutoff l = Ok kept →
  Forall (younger_than rt cutoff) kept ∧ sublist kept l.
Proof.
  revert kept. induction l as [|a l IH]; simpl; intros kept H.
  { simplify_eq. split; [constructor|done]. }
  destruct (datetime_fromisoformat rt a) as [t|] eqn:Ha; [|done].
  destruct (recent_attempts rt cutoff l) as [kept'|]; [|done].
  destruct (IH kept' eq_refl) as [Hall Hsub].
  destruct (Z.ltb_spec cutoff t); simplify_eq.
  - split; [|by apply sublist_skip].
    constructor; [|done]. by exists t.
  - split; [done|]. by apply sublist_cons.
Qed.

(** What [record_failed_attempt] may touch, however it ends. *)
Lemma record_failed_attempt_frame username w r w' :
  record_failed_attempt rt self username w = (r, w') →
  same_except (failed_attempts_key username) w w'
  ∧ users w' = users w ∧ store_log w' = store_log w
  ∧ conn_attempts w' = conn_attempts w.
Proof.
  rewrite record_failed_attempt_run. unfold record_onto, after_failure.
  destruct (session_state w !! failed_attempts_key username)
    as [[x|l|d]|];
    try (intros; simplify_eq; split; [by apply same_except_refl|done]);
    destruct (recent_attempts rt _ _); intros; simplify_eq;
    (split; [|done]);
    first [by eapply same_except_insert | by apply same_except_refl].
Qed.

(** The write leaves only entries younger than the lockout window, taken
    in order from the old list and the new timestamp, and the message
    counts what is left. *)
Theorem record_failed_attempt_prunes username w w' :
  record_failed_attempt rt self username w = (Ok tt, w') →
  ∃ old kept,
    recorded_attempts w username = VList old
    ∧ session_state w' !! failed_attempts_key username = Some (VList kept)
    ∧ sublist kept (old ++ [SStr (isoformat rt (clock rt (clock_reads w)))])
    ∧ Forall (younger_than rt
                (clock rt (S (clock_reads w))
                 - timedelta_seconds (lockout_duration self))) kept
    ∧ ui w' = ui w ++ [failure_message self kept].
Proof.
  rewrite record_failed_attempt_run. unfold record_onto, recorded_attempts.
  destruct (session_state w !! failed_attempts_key username)
    as [[x|l|d]|]; [done| |done|].
  - destruct (recent_attempts rt _ _) as [kept|] eqn:E; [|done].
    intros H. injection H as <-. exists l, kept.
    destruct (recent_attempts_kept _ _ _ E) as [Hall Hsub].
    simpl. by rewrite lookup_insert_eq.
  - destruct (recent_attempts rt _ _) as [kept|] eqn:E; [|done].
    intros H. injection H as <-. exists [], kept.
    destruct (recent_attempts_kept _ _ _ E) as [Hall Hsub].
    simpl. by rewrite lookup_insert_eq.
Qed.

Lemma update_last_login_run username w :
  update_last_login rt username w
  = (Ok tt,
     if conn_ok rt (conn_attempts w) then
       set_users (map (touch_last_login username (clock rt (clock_reads w))))
         (tick (queried (UpdateLastLogin username) (S (conn_attempts w)) w))
     else unreachable 1 w).
Proof.
  unfold update_last_login, try_except, bind, get_connection.
  by destruct (conn_ok rt (conn_attempts w)).
Qed.

Lemma get_user_run username w :
  get_user rt username w
  = match attempts_until_ok rt connection_retries (conn_attempts w) with
    | Some c =>
        (Ok (user_of_row <$> head (live_rows username (users w))),
         queried (SelectProfile username) c w)
    | None => (Ok None, unreachable connection_retries w)
    end.
Proof.
  unfold get_user, try_except, bind, execute_query.
  rewrite execute_query_from_eq.
  destruct (attempts_until_ok rt connection_retries (conn_attempts w));
    [|done].
  change (rows_of (SelectProfile username) (users w))
    with (live_rows username (users w)).
  by destruct (live_rows username (users w)).
Qed.

Lemma is_account_locked_same_except username w r w' :
  is_account_locked rt self username w = (r, w') →
  same_except (failed_attempts_key username) w w'.
Proof.
  intros H.
  destruct (is_account_locked_frame rt self _ _ _ _ H)
    as (_ & _ & _ & _ & _ & [-> | [-> | ->]]).
  - by apply same_except_refl.
  - by apply same_except_refl.
  - by eapply same_except_insert.
Qed.

Lemma record_then_none_frame username wq (r : result (option User)) w1 :
  (record_failed_attempt rt self username ;; ret None) wq = (r, w1) →
  same_except (failed_attempts_key username) wq w1
  ∧ (∀ e, r = Raise e →
          e = AttributeError ∨ e = ValueError ∨ e = TypeError).
Proof.
  intros H.
  apply bind_inv in H as [([] & w2 & Hrec & H)|(e & Hrec & ->)].
  - unfold ret in H. simplify_eq.
    destruct (record_failed_attempt_frame _ _ _ _ Hrec) as (Hs & _).
    split; [exact Hs|]. intros e E. discriminate E.
  - destruct (record_failed_attempt_frame _ _ _ _ Hrec) as (Hs & _).
    split; [exact Hs|]. intros e' E. simplify_eq.
    rewrite record_failed_attempt_run in Hrec. unfold record_onto in Hrec.
    destruct (session_state _ !! _) as [[x|l|d]|];
      try (simplify_eq; by auto);
      destruct (recent_attempts rt _ _) eqn:Er; simplify_eq;
      destruct (recent_attempts_raises _ _ _ Er) as [-> | ->]; auto.
Qed.

(** The part of [authenticate] inside the [try]. *)
Lemma authenticate_body_frame username password w0 r w1 :
  (df <- execute_query rt (SelectCredentials username) ;;
   match df with
   | [] => record_failed_attempt rt self username ;; ret None
   | row :: _ =>
       if negb (default false (row_is_active row)) then
         raise (AuthenticationError ACCOUNT_DEACTIVATED)
       else
         ok <- verify_password rt password
                 (default "" (row_password_hash row))
                 (default "" (row_password_salt row)) ;;
         if ok then
           clear_failed_attempts username ;;
           update_last_login rt username ;;
           get_user rt username
         else
           record_failed_attempt rt self username ;; ret None
   end) w0 = (r, w1) →
  same_except (failed_attempts_key username) w0 w1
  ∧ (∀ e, r = Raise e →
          e = AuthenticationError ACCOUNT_DEACTIVATED
          ∨ e = OperationalError ∨ e = AttributeError
          ∨ e = ValueError ∨ e = TypeError).
Proof.
  intros H.
  apply bind_inv in H as [(df & wq & Hq & H)|(e & Hq & ->)].
  2:{ unfold execute_query in Hq. rewrite execute_query_from_eq in Hq.
      destruct (attempts_until_ok rt _ _); simplify_eq.
      split; [by apply same_except_refl|]. intros e E. simplify_eq. auto. }
  unfold execute_query in Hq. rewrite execute_query_from_eq in Hq.
  destruct (attempts_until_ok rt _ _) as [c|]; [|done].
  injection Hq as <- <-.
  destruct (live_rows username (users w0)) as [|row rest].
  { destruct (record_then_none_frame _ _ _ _ H) as [Hs He].
    split; [exact Hs|]. intros e E. destruct (He e E) as [->|[->| ->]]; auto. }
  destruct (negb (default false (row_is_active row))).
  { unfold raise in H. simplify_eq. split; [by apply same_except_refl|].
    intros e E. simplify_eq. auto. }
  destruct (verify_password_frame rt password
              (default "" (row_password_hash row))
              (default "" (row_password_salt row))
              (queried (SelectCredentials username) c w0)) as (b & d & Hv).
  rewrite (bind_ok _ _ _ _ _ Hv) in H.
  destruct b.
  - unfold bind at 1, clear_failed_attempts, modify_session in H.
    unfold bind at 1 in H. rewrite update_last_login_run, get_user_run in H.
    match type of H with
    | context [attempts_until_ok ?a ?b ?c] =>
        destruct (attempts_until_ok a b c)
    end; injection H as <- <-;
      (split; [|intros e E; discriminate E]);
      eapply same_except_delete; by destruct (conn_ok rt _).
  - destruct (record_then_none_frame _ _ _ _ H) as [Hs He].
    split; [exact Hs|]. intros e E. destruct (He e E) as [->|[->| ->]]; auto.
Qed.

Lemma authenticate_same_except username password w r w' :
  authenticate rt self username password w = (r, w') →
  same_except (failed_attempts_key username) w w'.
Proof.
  intros H. unfold authenticate in H.
  apply bind_inv in H as [(locked & w0 & Hlock & H)|(e & Hlock & ->)];
    [|by eapply is_account_locked_same_except].
  pose proof (is_account_locked_same_except _ _ _ _ Hlock) as H0.
  destruct locked; [unfold raise in H; by simplify_eq|].
  apply try_except_inv in H as [(a & H & ->)|(e & w1 & H & Hh)].
  - eapply same_except_trans; [exact H0|].
    by destruct (authenticate_body_frame _ _ _ _ _ H).
  - assert (w1 = w') as -> by (destruct e; unfold raise in Hh; by simplify_eq).
    eapply same_except_trans; [exact H0|].
    by destruct (authenticate_body_frame _ _ _ _ _ H).
Qed.

Lemma same_except_others username w w' :
  same_except (failed_attempts_key username) w w' →
  session_state w' !! "user" = session_state w !! "user"
  ∧ session_state w' !! "authenticated" = session_state w !! "authenticated"
  ∧ session_state w' !! "login_time" = session_state w !! "login_time"
  ∧ (∀ other, other ≠ username →
              recorded_attempts w' other = recorded_attempts w other).
Proof.
  intros Hs. destruct (failed_attempts_key_not_session username) as (?&?&?).
  repeat split; try (by apply Hs).
  intros other Hne. unfold recorded_attempts. rewrite Hs; [done|].
  intros E. by apply failed_attempts_key_inj in E.
Qed.

(** Whatever its outcome, [authenticate] leaves every session entry but
    the attempt list of the username it was called with as it found it:
    the session keys [user], [authenticated] and [login_time], and the
    attempt lists of all other usernames. *)
Theorem authenticate_touches_own_attempts_only username password w :
  let w' := (authenticate rt self username password w).2 in
  (∀ k, k ≠ failed_attempts_key username →
        session_state w' !! k = session_state w !! k)
  ∧ session_state w' !! "user" = session_state w !! "user"
  ∧ session_state w' !! "authenticated" = session_state w !! "authenticated"
  ∧ session_state w' !! "login_time" = session_state w !! "login_time"
  ∧ (∀ other, other ≠ username →
              recorded_attempts w' other = recorded_attempts w other).
Proof.
  destruct (authenticate rt self username password w) as [r w'] eqn:H.
  simpl. pose proof (authenticate_same_except _ _ _ _ _ H) as Hs.
  split; [exact Hs|]. by apply same_except_others.
Qed.

(** Every exception that leaves [authenticate] once the lock check has
    answered is an [AuthenticationError] carrying one of the three
    messages of the authenticator. *)
Theorem authenticate_raises_authentication_errors
    username password w locked w0 e w' :
  is_account_locked rt self username w = (Ok locked, w0) →
  authenticate rt self username password w = (Raise e, w') →
  ∃ msg, e = AuthenticationError msg ∧ msg ∈ authenticator_messages.
Proof.
  intros Hlock H. unfold authenticate in H.
  rewrite (bind_ok _ _ _ _ _ Hlock) in H. unfold authenticator_messages.
  destruct locked.
  { unfold raise in H. simplify_eq. eexists. split; [done|]. set_solver. }
  apply try_except_inv in H as [(a & H & ?)|(e0 & w1 & H & Hh)]; [done|].
  destruct (authenticate_body_frame _ _ _ _ _ H) as [_ He].
  destruct (He e0 eq_refl) as [->|[->|[->|[->| ->]]]];
    unfold raise in Hh; simplify_eq; eexists; (split; [done|]); set_solver.
Qed.

Lemma login_false_same_except username password w w' :
  login rt self username password w = (Ok false, w') →
  same_except (failed_attempts_key username) w w'.
Proof.
  intros H. unfold login in H.
  apply try_except_inv in H as [(a & H & E)|(e & w1 & H & Hh)].
  - apply bind_inv in H as [(user & w1 & Ha & H)|(e & _ & ?)]; [|done].
    destruct user as [user|]; [|unfold ret in H; simplify_eq;
                                 by eapply authenticate_same_except].
    unfold bind, modify_session, datetime_now, ret in H. simplify_eq.
  - apply bind_inv in H as [(user & w2 & Ha & H)|(e0 & Ha & ?)].
    + destruct user; unfold bind, modify_session, datetime_now, ret in H;
        simplify_eq.
    + assert (session_state w' = session_state w1) as Es
        by (destruct e; unfold bind, show, ret in Hh; by simplify_eq).
      intros k Hk. rewrite Es.
      by apply (authenticate_same_except _ _ _ _ _ Ha).
Qed.

(** A login that returns [False] has not touched the session keys: a
    session that was established before is still there, and so are the
    attempt lists of the other usernames. *)
Theorem failed_login_keeps_session username password w w' :
  login rt self username password w = (Ok false, w') →
  session_state w' !! "user" = session_state w !! "user"
  ∧ session_state w' !! "authenticated" = session_state w !! "authenticated"
  ∧ session_state w' !! "login_time" = session_state w !! "login_time"
  ∧ (∀ other, other ≠ username →
              recorded_attempts w' other = recorded_attempts w other).
Proof.
  intros H. apply same_except_others.
  exact (login_false_same_except _ _ _ _ H).
Qed.

(** When the store cannot be reached on any of the three attempts,
    [login] returns [False] with the generic message; nothing has been
    sent, and no failed attempt has been recorded. *)
Theorem login_store_down username password w w0 :
  is_account_locked rt self username w = (Ok false, w0) →
  conn_ok rt (conn_attempts w) = false →
  conn_ok rt (S (conn_attempts w)) = false →
  conn_ok rt (S (S (conn_attempts w))) = false →
  ∃ w', login rt self username password w = (Ok false, w')
        ∧ ui w' = ui w ++ [ErrMessage AUTHENTICATION_FAILED]
        ∧ session_state w' = session_state w0
        ∧ recorded_attempts w' username = recorded_attempts w0 username
        ∧ store_log w' = store_log w
        ∧ users w' = users w
        ∧ conn_attempts w' = (3 + conn_attempts w)%nat.
Proof.
  intros Hlock H1 H2 H3.
  destruct (is_account_locked_frame rt self _ _ _ _ Hlock)
    as (Hu & Hlog & Hui & Hc & _).
  assert (attempts_until_ok rt connection_retries (conn_attempts w0) = None)
    as Hnone by (simpl; by rewrite Hc, H1, H2, H3).
  unfold login, try_except, bind at 1.
  rewrite (authenticate_store_down rt self _ password _ _ Hlock Hnone).
  unfold bind, show, ret. eexists. split; [done|]. simpl.
  unfold recorded_attempts. simpl. by rewrite Hu, Hlog, Hui, Hc.
Qed.

(** With [max_attempts] zero or negative the lock check of a username
    without recorded attempts indexes an empty list: every login ends in
    the generic error, without a query. *)
Theorem login_with_nonpositive_max_attempts username password w :
  max_attempts self ≤ 0 →
  session_state w !! failed_attempts_key username = None →
  login rt self username password w
  = (Ok false,
     mkWorld (session_state w) (users w) (store_log w)
             (ui w ++ [ErrMessage "An error occurred during login"])
             (clock_reads w) (conn_attempts w) (token_draws w)).
Proof.
  intros Hmax Hkey.
  assert (is_account_locked rt self username w = (Raise IndexError, w)) as E.
  { unfold is_account_locked, bind, get_session, lift. rewrite Hkey. simpl.
    change (Z.of_nat 0) with 0.
    destruct (Z.leb_spec (max_attempts self) 0); [done|lia]. }
  unfold login, try_except, bind at 1, authenticate.
  by rewrite (bind_raise _ _ _ _ _ E).
Qed.
End exceptions.

(** ** The store adapter and the retry loops *)

Section retries.
Context (rt : runtime).

(** One attempt of [execute_query]. *)
Lemma execute_query_attempt_raises q w e w' :
  (get_connection rt ;; send q ;; tbl <- get_users ;; ret (rows_of q tbl)) w
  = (Raise e, w') → e = OperationalError.
Proof.
  unfold bind, get_connection, send, get_users, ret.
  destruct (conn_ok rt (conn_attempts w)); intros; by simplify_eq.
Qed.

(** [execute_query] makes at most three attempts and stops at the first
    that connects: it returns the selected rows and has logged the
    statement once; when all three fail it raises the connection error,
    having sent nothing.  The users table is never changed. *)
Theorem execute_query_retries q w :
  let c := conn_attempts w in
  (conn_ok rt c = true →
   execute_query rt q w = (Ok (rows_of q (users w)), queried q (S c) w))
  ∧ (conn_ok rt c = false → conn_ok rt (S c) = true →
     execute_query rt q w
     = (Ok (rows_of q (users w)), queried q (S (S c)) w))
  ∧ (conn_ok rt c = false → conn_ok rt (S c) = false →
     conn_ok rt (S (S c)) = true →
     execute_query rt q w
     = (Ok (rows_of q (users w)), queried q (S (S (S c))) w))
  ∧ (conn_ok rt c = false → conn_ok rt (S c) = false →
     conn_ok rt (S (S c)) = false →
     execute_query rt q w = (Raise OperationalError, unreachable 3 w))
  ∧ users (execute_query rt q w).2 = users w.
Proof.
  unfold execute_query. rewrite execute_query_from_eq. simpl.
  repeat split.
  - by intros ->.
  - by intros -> ->.
  - by intros -> -> ->.
  - by intros -> -> ->.
  - by repeat destruct (conn_ok rt _).
Qed.

(** [execute_query] is its single attempt under [with_db_retry] with three
    retries: the hand-written loop and the decorator agree. *)
Theorem execute_query_is_with_db_retry q w :
  execute_query rt q w
  = with_db_retry 3
      (get_connection rt ;; send q ;; tbl <- get_users ;; ret (rows_of q tbl))
      w.
Proof.
  unfold execute_query, with_db_retry. simpl.
  unfold try_except.
  destruct ((get_connection rt ;; _) w) as [[a|e] w1] eqn:E1; [done|].
  apply execute_query_attempt_raises in E1 as ->.
  destruct ((get_connection rt ;; _) w1) as [[a|e] w2] eqn:E2; [done|].
  apply execute_query_attempt_raises in E2 as ->.
  destruct ((get_connection rt ;; _) w2) as [[a|e] w3] eqn:E3; [done|].
  by apply execute_query_attempt_raises in E3 as ->.
Qed.

(** The decorator: with no attempt allowed it raises the [TypeError] of
    [raise None] without calling the function; otherwise a first call
    that succeeds is the result, and a function that fails the same way
    every time makes it raise that error. *)
Theorem with_db_retry_edges {A} (retries : Z) (func : M A) w :
  (retries ≤ 0 → with_db_retry retries func w = (Raise TypeError, w))
  ∧ (0 < retries → ∀ a w', func w = (Ok a, w') →
     with_db_retry retries func w = (Ok a, w'))
  ∧ (0 < retries → ∀ e, (∀ w1, func w1 = (Raise e, w1)) →
     with_db_retry retries func w = (Raise e, w)).
Proof.
  unfold with_db_retry. repeat split.
  - intros H. replace (Z.to_nat retries) with 0%nat by lia. done.
  - intros H a w' E. destruct (Z.to_nat retries) as [|n] eqn:En; [lia|].
    simpl. unfold try_except. by rewrite E.
  - intros H e E. destruct (Z.to_nat retries) as [|n] eqn:En; [lia|].
    clear En H. simpl. unfold try_except at 1. rewrite E.
    induction n as [|n IH]; [done|].
    simpl. unfold try_except at 1. by rewrite E.
Qed.
End retries.

Lemma execute_query_in_an_outage :
  execute_query Scenario.rt (SelectProfile "alice") Scenario.fresh
  = (Ok [Scenario.alice],
     queried (SelectProfile "alice") 1 Scenario.fresh)
  ∧ execute_query outage_rt (SelectProfile "alice") Scenario.fresh
    = (Raise OperationalError, unreachable 3 Scenario.fresh).
Proof.
  destruct (execute_query_retries Scenario.rt (SelectProfile "alice")
              Scenario.fresh) as (H1 & _).
  destruct (execute_query_retries outage_rt (SelectProfile "alice")
              Scenario.fresh) as (_ & _ & _ & H4 & _).
  split; [by apply H1|]. by apply H4.
Defined.

Lemma with_db_retry_on_a_dead_store :
  with_db_retry 0 (get_connection outage_rt) Scenario.fresh
  = (Raise TypeError, Scenario.fresh)
  ∧ with_db_retry 2 (get_connection Scenario.rt) Scenario.fresh
    = (Ok tt, (get_connection Scenario.rt Scenario.fresh).2)
  ∧ with_db_retry 5 (raise ValueError : M unit) Scenario.fresh
    = (Raise ValueError, Scenario.fresh).
Proof.
  destruct (with_db_retry_edges 0 (get_connection outage_rt) Scenario.fresh)
    as (H0 & _ & _).
  destruct (with_db_retry_edges 2 (get_connection Scenario.rt) Scenario.fresh)
    as (_ & H2 & _).
  destruct (with_db_retry_edges 5 (raise ValueError : M unit) Scenario.fresh)
    as (_ & _ & H5).
  split; [|split].
  - apply H0. reflexivity.
  - apply H2; reflexivity.
  - apply H5; reflexivity.
Defined.

(** ** Profiles, timestamps and digests *)

Section profiles.
Context (rt : runtime) (self : AuthHandler).

Lemma user_of_row_well_typed row : well_typed (user_of_row row).
Proof.
  split; simpl.
  - by eexists.
  - by eexists.
  - by eexists.
  - by eexists.
  - destruct (row_employee_id row); [right; by eexists|by left].
  - by eexists.
  - destruct (row_last_login row); [right; by eexists|by left].
  - destruct (row_created_date row); [right; by eexists|by left].
Qed.

Lemma user_of_row_role row : role (user_of_row row) ≠ SStr "".
Proof.
  simpl. destruct (row_role row) as [r|]; [|done].
  destruct (String.eqb_spec r ""); [done|congruence].
Qed.

Lemma head_live_rows name tbl row :
  head (live_rows name tbl) = Some row →
  row ∈ tbl ∧ row_username row = name ∧ row_delete_flag row = 0.
Proof.
  intros H. assert (row ∈ live_rows name tbl) as Hin.
  { destruct (live_rows name tbl); simplify_eq/=. apply list_elem_of_here. }
  unfold live_rows in Hin. apply list_elem_of_filter in Hin.
  by destruct Hin as [[? ?] ?].
Qed.

(** [get_user] never raises and changes neither the session nor the
    table.  A [User] it returns is the projection of a row of that
    username that is not soft-deleted: it satisfies the annotations of the
    dataclass, carries the username asked for and has a non-empty role.
    And when every row of the username is soft-deleted it returns
    [None]. *)
Theorem get_user_gives_live_rows name w :
  ∃ found w',
    get_user rt name w = (Ok found, w')
    ∧ session_state w' = session_state w
    ∧ users w' = users w
    ∧ (∀ user, found = Some user →
         well_typed user
         ∧ username user = SStr name
         ∧ role user ≠ SStr ""
         ∧ ∃ row, row ∈ users w ∧ row_delete_flag row = 0
                  ∧ user = user_of_row row)
    ∧ ((∀ row, row ∈ users w → row_username row = name →
               row_delete_flag row ≠ 0) →
       found = None).
Proof.
  rewrite get_user_run.
  destruct (attempts_until_ok rt connection_retries (conn_attempts w));
    eexists _, _; (split; [done|]); (split; [done|]); (split; [done|]);
    (split; [|]); try done.
  - intros user E.
    destruct (head (live_rows name (users w))) as [row|] eqn:Hrow;
      [|done].
    apply head_live_rows in Hrow as (Hin & Hname & Hflag).
    simpl in E. injection E as <-.
    split; [apply user_of_row_well_typed|].
    split; [simpl; by rewrite Hname|].
    split; [apply user_of_row_role|]. by exists row.
  - intros Hdel.
    destruct (head (live_rows name (users w))) as [row|] eqn:Hrow;
      [|done].
    apply head_live_rows in Hrow as (Hin & Hname & Hflag).
    by destruct (Hdel row Hin Hname).
Qed.

(** [update_last_login] never raises, leaves the session alone and
    changes no row of another username; with the store reachable it
    stamps every row of the username, soft-deleted ones included, with
    the time read, and otherwise it changes nothing. *)
Theorem update_last_login_stamps_one_user name w :
  ∃ w',
    update_last_login rt name w = (Ok tt, w')
    ∧ session_state w' = session_state w
    ∧ length (users w') = length (users w)
    ∧ (∀ i row, users w !! i = Some row → row_username row ≠ name →
                users w' !! i = Some row)
    ∧ (conn_ok rt (conn_attempts w) = false → users w' = users w)
    ∧ (conn_ok rt (conn_attempts w) = true →
       ∀ i row, users w !! i = Some row → row_username row = name →
                ∃ row', users w' !! i = Some row'
                        ∧ row_last_login row'
                          = Some (clock rt (clock_reads w))
                        ∧ row_delete_flag row' = row_delete_flag row
                        ∧ row_password_hash row' = row_password_hash row).
Proof.
  rewrite update_last_login_run. eexists. split; [done|].
  destruct (conn_ok rt (conn_attempts w)); simpl.
  - split; [done|]. split; [by rewrite length_map|]. split; [|split].
    + intros i row Hi Hne. rewrite list_lookup_fmap, Hi. simpl.
      unfold touch_last_login. by rewrite decide_False.
    + done.
    + intros _ i row Hi Hname. eexists. rewrite list_lookup_fmap, Hi.
      split; [done|]. unfold touch_last_login. by rewrite decide_True.
  - repeat split; try done.
Qed.

(** [verify_password] never raises and touches nothing but the entropy
    counter; it answers [True] only when the digest of the password with
    the salt it used (the one given, or a fresh token when the salt is
    empty) is the stored hash, so a digest that cannot be computed is a
    rejection. *)
Theorem verify_password_fails_closed password password_hash salt w :
  ∃ b w',
    verify_password rt password password_hash salt w = (Ok b, w')
    ∧ session_state w' = session_state w
    ∧ users w' = users w
    ∧ ui w' = ui w
    ∧ (b = true →
       sha256_hexdigest rt
         (password +:+ (if String.eqb salt "" then token_hex rt (token_draws w)
                        else salt))
       = Some password_hash).
Proof.
  unfold verify_password, try_except, bind at 1.
  destruct (String.eqb_spec salt "") as [->|Hsalt].
  - rewrite hash_password_drawn_salt by auto.
    destruct (sha256_hexdigest rt _) as [h|]; unfold ret; simpl;
      eexists _, _; (split; [done|]); repeat split; try done.
    intros E. by apply String.eqb_eq in E as ->.
  - rewrite hash_password_given_salt by done.
    destruct (sha256_hexdigest rt _) as [h|]; unfold ret; simpl;
      eexists _, _; (split; [done|]); repeat split; try done.
    intros E. by apply String.eqb_eq in E as ->.
Qed.
End profiles.

(** ** From failures to the lock *)

Section lock_after_failures.
Context (rt : runtime) (self : AuthHandler).

Lemma kept_attempts_all cutoff l :
  Forall (younger_than rt cutoff) l → kept_attempts rt cutoff l = l.
Proof.
  induction 1 as [|a l (t & Ht & Hlt) _ IH]; [done|].
  simpl. rewrite Ht.
  destruct (Z.ltb_spec cutoff t); [|lia]. by rewrite IH.
Qed.

Lemma stamped_is_timestamp first next a :
  stamped rt first next a → is_timestamp rt a.
Proof.
  intros (j & _ & ->). exists (clock rt j). simpl.
  by rewrite fromisoformat_isoformat.
Qed.

Lemma stamped_mono first next next' a :
  (next ≤ next')%nat → stamped rt first next a → stamped rt first next' a.
Proof. intros H (j & Hj & ->). exists j. split; [lia|done]. Qed.

(** One failed login below the threshold. *)
Lemma login_no_match_step name password w l :
  recorded_attempts w name = VList l →
  Z.of_nat (length l) < max_attempts self →
  Forall (is_timestamp rt) l →
  store_up rt w →
  bad_credentials rt name password (users w) →
  ∃ d,
    login rt self name password w
    = (Ok false,
       after_failure self name
         (with_draws d
            (queried (SelectCredentials name) (S (conn_attempts w)) w))
         (kept_attempts rt
            (clock rt (S (clock_reads w))
             - timedelta_seconds (lockout_duration self))
            (l ++ [SStr (isoformat rt (clock rt (clock_reads w)))]))).
Proof.
  intros Hl Hlen Hts Hup Hbad.
  pose proof (is_account_locked_below rt self _ _ _ Hl Hlen) as Hlock.
  pose proof (attempts_until_ok_up rt _ Hup) as Hc.
  assert (∃ d, authenticate rt self name password w
               = no_match rt self name
                   (with_draws d
                      (queried (SelectCredentials name)
                         (S (conn_attempts w)) w))) as [d Ha].
  { destruct Hbad as [Hnone|(row & rest & Hrows & Hactive & Hwrong)].
    - exists (token_draws w).
      by rewrite (authenticate_unknown rt self _ password _ _ _
                    Hlock Hc Hnone).
    - by apply (authenticate_wrong_password rt self _ password _ _ _ row rest). }
  exists d. unfold login, try_except, bind at 1. rewrite Ha.
  unfold no_match. by rewrite (record_failed_attempt_ok rt self _ _ l).
Qed.

Lemma login_times_fill name password i :
  ∀ w l first,
    recorded_attempts w name = VList l →
    Forall (stamped rt first (clock_reads w)) l →
    (first ≤ clock_reads w)%nat →
    short_span rt self first (clock_reads w + 2 * i) →
    Z.of_nat (length l + i) ≤ max_attempts self →
    store_up rt w →
    bad_credentials rt name password (users w) →
    ∃ w' l',
      login_times rt self i name password w = (Ok tt, w')
      ∧ recorded_attempts w' name = VList l'
      ∧ length l' = (length l + i)%nat
      ∧ Forall (stamped rt first (clock_reads w')) l'
      ∧ clock_reads w' = (clock_reads w + 2 * i)%nat.
Proof.
  induction i as [|i IH]; intros w l first Hl Hst Hfirst Hspan Hlen Hup Hbad.
  { exists w, l. simpl. unfold ret. repeat split; try done; try lia. }
  destruct (login_no_match_step name password w l) as [d Hlogin];
    [done|lia|by eapply Forall_impl; [|apply stamped_is_timestamp]
    |done|done|].
  set (new := SStr (isoformat rt (clock rt (clock_reads w)))) in *.
  set (cutoff := clock rt (S (clock_reads w))
                 - timedelta_seconds (lockout_duration self)) in *.
  assert (Forall (younger_than rt cutoff) (l ++ [new])) as Hyoung.
  { apply Forall_app. split.
    - eapply Forall_impl; [exact Hst|]. intros a (j & Hj & ->).
      exists (clock rt j). split; [simpl; by rewrite fromisoformat_isoformat|].
      unfold cutoff. pose proof (Hspan j (S (clock_reads w))). lia.
    - apply Forall_singleton. exists (clock rt (clock_reads w)).
      split; [simpl; by rewrite fromisoformat_isoformat|].
      unfold cutoff.
      pose proof (Hspan (clock_reads w) (S (clock_reads w))). lia. }
  rewrite (kept_attempts_all _ _ Hyoung) in Hlogin.
  set (w1 := after_failure self name
               (with_draws d
                  (queried (SelectCredentials name) (S (conn_attempts w)) w))
               (l ++ [new])) in *.
  destruct (IH w1 (l ++ [new]) first) as (w' & l' & Hrun & Hl' & Hn & Hs & Hr).
  - unfold recorded_attempts, w1. simpl. by rewrite lookup_insert_eq.
  - simpl. apply Forall_app. split.
    + eapply Forall_impl; [exact Hst|]. intros a. apply stamped_mono. lia.
    + apply Forall_singleton. exists (clock_reads w). split; [lia|done].
  - simpl. lia.
  - simpl. intros j k Hj Hk. apply Hspan; lia.
  - rewrite length_app. simpl. lia.
  - intros n Hn. apply Hup. simpl in Hn. lia.
  - done.
  - exists w', l'. simpl. rewrite (bind_ok _ _ _ _ _ Hlogin).
    split; [done|]. split; [done|].
    split; [rewrite Hn, length_app; simpl; lia|].
    split; [done|]. rewrite Hr. simpl. lia.
Qed.

(** [max_attempts] failed logins in a row lock the username.  Starting
    with no attempt on record, with the store reachable and all clock
    readings of the run less than [lockout_duration] apart, [max_attempts]
    logins with credentials that do not match leave exactly that many
    attempts on record; the lock check then answers [True], and the next
    login, whatever the password, is refused with the lock message. *)
Theorem max_attempts_failures_lock name password w n :
  1 ≤ max_attempts self →
  n = Z.to_nat (max_attempts self) →
  recorded_attempts w name = VList [] →
  store_up rt w →
  bad_credentials rt name password (users w) →
  short_span rt self (clock_reads w) (clock_reads w + 2 * n) →
  ∃ w' l,
    login_times rt self n name password w = (Ok tt, w')
    ∧ recorded_attempts w' name = VList l
    ∧ length l = n
    ∧ is_account_locked rt self name w' = (Ok true, tick w')
    ∧ ∀ any_password,
        ∃ w'', login rt self name any_password w' = (Ok false, w'')
               ∧ ui w'' = ui w' ++ [ErrMessage ACCOUNT_LOCKED]
               ∧ session_state w'' = session_state w'.
Proof.
  intros Hmax -> Hl Hup Hbad Hspan.
  destruct (login_times_fill name password (Z.to_nat (max_attempts self))
              w [] (clock_reads w))
    as (w' & l & Hrun & Hl' & Hn & Hs & Hr);
    [done|constructor|lia|done|simpl; lia|done|done|].
  simpl in Hn.
  assert (is_account_locked rt self name w' = (Ok true, tick w')) as Hlock.
  { apply is_account_locked_open with (l := l); [done|lia|].
    destruct (last l) as [a|] eqn:Hlast.
    2:{ apply last_None in Hlast. subst l. simpl in Hn. lia. }
    assert (a ∈ l) as Hin.
    { apply last_Some in Hlast as [l0 ->]. set_solver. }
    rewrite Forall_forall in Hs. destruct (Hs a Hin) as (j & Hj & ->).
    exists (isoformat rt (clock rt j)), (clock rt j).
    split; [done|]. split; [apply fromisoformat_isoformat|].
    pose proof (Hspan j (clock_reads w')). lia. }
  exists w', l. repeat split; try done.
  intros any_password. unfold login, try_except, bind at 1, authenticate.
  rewrite (bind_ok _ _ _ _ _ Hlock). unfold raise, bind, show, ret.
  by eexists.
Qed.
End lock_after_failures.

(** Three wrong passwords for "alice" and three attempts for a name nobody
    has, with the default configuration. *)
Lemma three_failures_lock_alice_and_carol :
  (∃ w' l,
     login_times Scenario.rt (AuthHandler_init ∅) 3 "alice" "guess"
       Scenario.fresh = (Ok tt, w')
     ∧ recorded_attempts w' "alice" = VList l
     ∧ length l = 3%nat
     ∧ is_account_locked Scenario.rt (AuthHandler_init ∅) "alice" w'
       = (Ok true, tick w')
     ∧ ∀ any_password,
         ∃ w'', login Scenario.rt (AuthHandler_init ∅) "alice" any_password w'
                = (Ok false, w'')
                ∧ ui w'' = ui w' ++ [ErrMessage ACCOUNT_LOCKED]
                ∧ session_state w'' = session_state w')
  ∧ (∃ w' l,
       login_times Scenario.rt (AuthHandler_init ∅) 3 "carol" "guess"
         Scenario.fresh = (Ok tt, w')
       ∧ recorded_attempts w' "carol" = VList l
       ∧ length l = 3%nat
       ∧ is_account_locked Scenario.rt (AuthHandler_init ∅) "carol" w'
         = (Ok true, tick w')
       ∧ ∀ any_password,
           ∃ w'', login Scenario.rt (AuthHandler_init ∅) "carol" any_password w'
                  = (Ok false, w'')
                  ∧ ui w'' = ui w' ++ [ErrMessage ACCOUNT_LOCKED]
                  ∧ session_state w'' = session_state w').
Proof.
  assert (short_span Scenario.rt (AuthHandler_init ∅)
            (clock_reads Scenario.fresh)
            (clock_reads Scenario.fresh + 2 * 3)) as Hspan.
  { intros j k Hj Hk. simpl in *. unfold timedelta_seconds.
    change (default 900 (∅ !! "lockout_duration")) with 900. lia. }
  split.
  - apply (max_attempts_failures_lock Scenario.rt (AuthHandler_init ∅)
             "alice" "guess" Scenario.fresh 3).
    + vm_compute. discriminate.
    + reflexivity.
    + reflexivity.
    + apply scenario_store_up.
    + right. exists Scenario.alice, []. split; [vm_compute; reflexivity|].
      split; [reflexivity|]. intros w.
      rewrite verify_password_given_salt by discriminate.
      vm_compute. reflexivity.
    + exact Hspan.
  - apply (max_attempts_failures_lock Scenario.rt (AuthHandler_init ∅)
             "carol" "guess" Scenario.fresh 3).
    + vm_compute. discriminate.
    + reflexivity.
    + reflexivity.
    + apply scenario_store_up.
    + left. vm_compute. reflexivity.
    + exact Hspan.
Defined.

(** ** Logout, refresh and the current user *)

Section session_more.
Context (rt : runtime) (self : AuthHandler).

Lemma torn_down_idemp s : torn_down (torn_down s) = torn_down s.
Proof.
  destruct (torn_down_lookup s) as (Hu & Ha & Hl).
  unfold torn_down at 1.
  rewrite (delete_id (torn_down s) "user") by done.
  rewrite (delete_id (torn_down s) "authenticated") by done.
  by rewrite (delete_id (torn_down s) "login_time").
Qed.

Lemma set_session_id f w :
  f (session_state w) = session_state w → set_session f w = w.
Proof. intros E. destruct w. unfold set_session. simpl in *. by rewrite E. Qed.

(** [logout] ends the session and nothing else: afterwards the session is
    not authenticated and has no current user, the attempt lists are all
    as before (logging out does not lift a lock), and a second [logout]
    changes nothing. *)
Theorem logout_ends_the_session_only w :
  user_entry_ok w →
  ∃ w',
    logout w = (Ok tt, w')
    ∧ is_authenticated rt self w' = (Ok false, w')
    ∧ get_current_user rt self w' = (Ok None, w')
    ∧ (∀ name, recorded_attempts w' name = recorded_attempts w name)
    ∧ logout w' = (Ok tt, w').
Proof.
  intros Huser. exists (set_session torn_down w).
  destruct (torn_down_lookup (session_state w)) as (Hu & Ha & Hl).
  assert (is_authenticated rt self (set_session torn_down w)
          = (Ok false, set_session torn_down w)) as Hauth.
  { apply is_authenticated_anonymous. unfold flag_set. simpl. by rewrite Ha. }
  split; [by apply logout_ok|]. split; [done|].
  split; [by apply get_current_user_anonymous|]. split.
  - intros name. unfold recorded_attempts, torn_down. simpl.
    destruct (failed_attempts_key_not_session name) as (?&?&?).
    by rewrite !lookup_delete_ne.
  - rewrite logout_ok by (left; exact Hu).
    f_equal. apply set_session_id. simpl. apply torn_down_idemp.
Qed.

(** When the [user] entry is not a dictionary, [logout] raises
    [AttributeError] before it removes anything; so a session that has
    timed out and holds such an entry is not torn down by
    [is_authenticated], which raises the same error. *)
Theorem logout_needs_a_user_dict w v :
  session_state w !! "user" = Some v →
  (∀ d, v ≠ VDict d) →
  logout w = (Raise AttributeError, w)
  ∧ ∀ s t0,
      flag_set w = true →
      session_state w !! "login_time" = Some (VScalar (SStr s)) →
      fromisoformat rt s = Some t0 →
      timedelta_seconds (session_timeout self)
        < clock rt (clock_reads w) - t0 →
      is_authenticated rt self w = (Raise AttributeError, tick w).
Proof.
  intros Hv Hnd.
  assert (∀ w0, session_state w0 !! "user" = Some v →
                logout w0 = (Raise AttributeError, w0)) as Hlogout.
  { intros w0 H0. unfold logout, bind, get_session. rewrite H0.
    destruct v as [x|l|d]; [done|done|]. by destruct (Hnd d). }
  split; [by apply Hlogout|].
  intros s t0 Hflag Htime Hparse Hage. unfold flag_set in Hflag.
  unfold is_authenticated, bind at 1, get_session.
  rewrite Hflag, Htime. simpl.
  unfold bind at 1, lift. simpl. rewrite Hparse.
  unfold bind at 1, datetime_now.
  destruct (Z.ltb_spec (timedelta_seconds (session_timeout self))
              (clock rt (clock_reads w) - t0)); [|lia].
  unfold bind at 1. by rewrite (Hlogout (tick w)).
Qed.

Lemma refresh_session_alive w s t0 :
  flag_set w = true →
  session_state w !! "login_time" = Some (VScalar (SStr s)) →
  fromisoformat rt s = Some t0 →
  clock rt (clock_reads w) - t0 ≤ timedelta_seconds (session_timeout self) →
  refresh_session rt self w
  = (Ok tt,
     set_session
       (<["login_time" :=
            VScalar (SStr (isoformat rt (clock rt (S (clock_reads w)))))]>)
       (tick (tick w))).
Proof.
  intros Hflag Htime Hparse Hage. unfold refresh_session.
  rewrite (bind_ok _ _ _ _ _
             (is_authenticated_alive rt self _ _ _ Hflag Htime Hparse Hage)).
  done.
Qed.

Lemma refresh_times_alive n :
  ∀ w s t0,
    flag_set w = true →
    session_state w !! "login_time" = Some (VScalar (SStr s)) →
    fromisoformat rt s = Some t0 →
    clock rt (clock_reads w) - t0
      ≤ timedelta_seconds (session_timeout self) →
    steady rt self (clock_reads w) →
    ∃ w' s' t',
      refresh_times rt self n w = (Ok tt, w')
      ∧ flag_set w' = true
      ∧ session_state w' !! "login_time" = Some (VScalar (SStr s'))
      ∧ fromisoformat rt s' = Some t'
      ∧ clock rt (clock_reads w') - t'
        ≤ timedelta_seconds (session_timeout self)
      ∧ clock_reads w' = (clock_reads w + 2 * n)%nat
      ∧ session_state w' !! "user" = session_state w !! "user".
Proof.
  induction n as [|n IH]; intros w s t0 Hflag Htime Hparse Hage Hsteady.
  { exists w, s, t0. simpl. unfold ret. repeat split; try done; lia. }
  pose proof (refresh_session_alive w s t0 Hflag Htime Hparse Hage) as Hr.
  set (w1 := set_session
               (<["login_time" :=
                  VScalar (SStr (isoformat rt (clock rt (S (clock_reads w)))))]>)
               (tick (tick w))) in *.
  destruct (IH w1 (isoformat rt (clock rt (S (clock_reads w))))
              (clock rt (S (clock_reads w))))
    as (w' & s' & t' & Hrun & Hf & Ht & Hp & Ha & Hc & Hu).
  - unfold flag_set in *. simpl. by rewrite lookup_insert_ne.
  - simpl. by rewrite lookup_insert_eq.
  - apply fromisoformat_isoformat.
  - simpl. apply Hsteady. lia.
  - intros i Hi. apply Hsteady. simpl in Hi. lia.
  - exists w', s', t'. simpl. rewrite (bind_ok _ _ _ _ _ Hr).
    repeat split; try done.
    + rewrite Hc. simpl. lia.
    + rewrite Hu. simpl. by rewrite lookup_insert_ne.
Qed.

(** The timeout counts idle time: a session that is refreshed again and
    again, with never more than [session_timeout] between two consecutive
    clock readings, is still authenticated after any number of refreshes,
    however long ago the login was. *)
Theorem refreshed_session_stays_alive n w s t0 :
  flag_set w = true →
  session_state w !! "login_time" = Some (VScalar (SStr s)) →
  fromisoformat rt s = Some t0 →
  clock rt (clock_reads w) - t0 ≤ timedelta_seconds (session_timeout self) →
  steady rt self (clock_reads w) →
  ∃ w',
    refresh_times rt self n w = (Ok tt, w')
    ∧ clock_reads w' = (clock_reads w + 2 * n)%nat
    ∧ is_authenticated rt self w' = (Ok true, tick w')
    ∧ session_state w' !! "user" = session_state w !! "user".
Proof.
  intros Hflag Htime Hparse Hage Hsteady.
  destruct (refresh_times_alive n w s t0 Hflag Htime Hparse Hage Hsteady)
    as (w' & s' & t' & Hrun & Hf & Ht & Hp & Ha & Hc & Hu).
  exists w'. repeat split; try done.
  by apply (is_authenticated_alive rt self w' s' t').
Qed.

(** A refresh that comes too late does not revive the session: it tears
    the session down and writes no new login time. *)
Theorem late_refresh_does_not_revive w s t0 :
  flag_set w = true →
  session_state w !! "login_time" = Some (VScalar (SStr s)) →
  fromisoformat rt s = Some t0 →
  timedelta_seconds (session_timeout self) < clock rt (clock_reads w) - t0 →
  user_entry_ok w →
  ∃ w',
    refresh_session rt self w = (Ok tt, w')
    ∧ session_state w' = torn_down (session_state w)
    ∧ session_state w' !! "login_time" = None
    ∧ is_authenticated rt self w' = (Ok false, w').
Proof.
  intros Hflag Htime Hparse Hage Huser.
  destruct (is_authenticated_expired rt self w s t0
              Hflag Htime Hparse Hage Huser) as (w' & Hw' & Hs & _).
  exists w'. unfold refresh_session. rewrite (bind_ok _ _ _ _ _ Hw').
  destruct (torn_down_lookup (session_state w)) as (Hu & Ha & Hl).
  split; [done|]. split; [done|]. split; [by rewrite Hs|].
  apply is_authenticated_anonymous. unfold flag_set. by rewrite Hs, Ha.
Qed.
End session_more.

(** ** The session dictionary and the current user *)

Section current_user.
Context (rt : runtime) (self : AuthHandler).

Lemma convert_last_login_lookup_ne data k :
  k ≠ "last_login" → convert_last_login rt data !! k = data !! k.
Proof.
  intros Hk. unfold convert_last_login.
  destruct (data !! "last_login") as [x|]; [|done].
  destruct (scalar_truthy x); [|done].
  destruct x as [| | |s|]; try by rewrite lookup_insert_ne.
  - destruct (fromisoformat rt s); by rewrite lookup_insert_ne.
  - done.
Qed.

Lemma convert_last_login_last data x :
  convert_last_login rt data !! "last_login" = Some x →
  scalar_truthy x = true → ∃ d, x = SDatetime d.
Proof.
  unfold convert_last_login.
  destruct (data !! "last_login") as [y|] eqn:E; [|by rewrite E].
  destruct (scalar_truthy y) eqn:Hy;
    [|rewrite E; intros; simplify_eq; congruence].
  destruct y as [| | |s|d]; try (rewrite lookup_insert_eq; by intros; simplify_eq).
  - destruct (fromisoformat rt s) as [d|]; rewrite lookup_insert_eq;
      intros; simplify_eq; by eauto.
  - rewrite E. intros; simplify_eq. by exists d.
Qed.

Lemma convert_last_login_idemp data :
  convert_last_login rt (convert_last_login rt data)
  = convert_last_login rt data.
Proof.
  unfold convert_last_login at 2 3.
  destruct (data !! "last_login") as [y|] eqn:E.
  2:{ unfold convert_last_login. by rewrite E. }
  destruct (scalar_truthy y) eqn:Hy.
  2:{ unfold convert_last_login. by rewrite E, Hy. }
  destruct y as [| | |s|d];
    try (unfold convert_last_login; by rewrite lookup_insert_eq).
  - destruct (fromisoformat rt s) as [d|];
      unfold convert_last_login; by rewrite lookup_insert_eq.
  - unfold convert_last_login. by rewrite E.
Qed.

Lemma convert_last_login_insert data k v :
  k ≠ "last_login" →
  convert_last_login rt (<[k := v]> data)
  = <[k := v]> (convert_last_login rt data).
Proof.
  intros Hk. unfold convert_last_login.
  rewrite lookup_insert_ne by done.
  destruct (data !! "last_login") as [y|]; [|done].
  destruct (scalar_truthy y); [|done].
  destruct y as [| | |s|d]; try by apply insert_insert_ne.
  - destruct (fromisoformat rt s); by apply insert_insert_ne.
  - done.
Qed.

(** The constructor sees the converted dictionary at the eight fields. *)
Lemma from_dict_result data :
  (from_dict rt data).2 = User_init (convert_last_login rt data).
Proof.
  unfold from_dict, User_init. simpl.
  by rewrite !filter_valid_fields_lookup by (unfold valid_fields; set_solver).
Qed.

Lemma from_dict_idemp data :
  from_dict rt (from_dict rt data).1 = from_dict rt data.
Proof. unfold from_dict. simpl. by rewrite convert_last_login_idemp. Qed.

(** [from_dict] raises exactly when one of the four fields without a
    default is missing, and then it is a [TypeError]; a [last_login] text
    that does not parse is no error.  Otherwise the [User] has the
    dictionary's values, the defaults of the dataclass for the optional
    fields that are missing, and a [last_login] that is a datetime
    whenever it is truthy.  Keys that are not fields are ignored, and of
    the caller's dictionary only the [last_login] entry is rewritten. *)
Theorem from_dict_outcome data :
  (∀ k, k ≠ "last_login" → (from_dict rt data).1 !! k = data !! k)
  ∧ ((∃ k, k ∈ required_fields ∧ data !! k = None) →
     (from_dict rt data).2 = Raise TypeError)
  ∧ ((∀ k, k ∈ required_fields → is_Some (data !! k)) →
     ∃ u, (from_dict rt data).2 = Ok u
          ∧ data !! "id" = Some (id u)
          ∧ data !! "username" = Some (username u)
          ∧ data !! "email" = Some (email u)
          ∧ data !! "role" = Some (role u)
          ∧ employee_id u = default SNone (data !! "employee_id")
          ∧ is_active u = default (SBool true) (data !! "is_active")
          ∧ created_date u = default SNone (data !! "created_date")
          ∧ (scalar_truthy (last_login u) = true →
             ∃ d, last_login u = SDatetime d))
  ∧ (∀ k v, k ∉ valid_fields →
            (from_dict rt (<[k := v]> data)).2 = (from_dict rt data).2).
Proof.
  split; [intros k Hk; by apply convert_last_login_lookup_ne|].
  split; [|split].
  - intros (k & Hk & Hnone). rewrite from_dict_result. unfold User_init.
    unfold required_fields in Hk.
    rewrite !elem_of_cons, elem_of_nil in Hk.
    destruct Hk as [->|[->|[->|[->|[]]]]];
      rewrite !convert_last_login_lookup_ne by done; rewrite Hnone;
      by repeat case_match.
  - intros Hreq. rewrite from_dict_result. unfold User_init.
    rewrite (convert_last_login_lookup_ne data "created_date") by done.
    rewrite !convert_last_login_lookup_ne by done.
    destruct (Hreq "id") as [i Hi]; [unfold required_fields; set_solver|].
    destruct (Hreq "username") as [u Hu];
      [unfold required_fields; set_solver|].
    destruct (Hreq "email") as [e He]; [unfold required_fields; set_solver|].
    destruct (Hreq "role") as [r Hr]; [unfold required_fields; set_solver|].
    rewrite Hi, Hu, He, Hr. eexists. split; [done|]. simpl.
    repeat split; try done.
    destruct (convert_last_login rt data !! "last_login") as [x|] eqn:E;
      simpl; [|done].
    by apply (convert_last_login_last data).
  - intros k v Hk. rewrite !from_dict_result.
    assert (k ≠ "last_login") as Hne
      by (intros ->; apply Hk; unfold valid_fields; set_solver).
    rewrite convert_last_login_insert by done. unfold User_init.
    assert (∀ f, f ∈ valid_fields →
                 <[k := v]> (convert_last_login rt data) !! f
                 = convert_last_login rt data !! f) as Hf.
    { intros f Hin. apply lookup_insert_ne. by intros ->. }
    by rewrite !Hf by (unfold valid_fields; set_solver).
Qed.

(** An answer [True] of [is_authenticated] has read the clock at most
    once and changed nothing else. *)
Lemma is_authenticated_true_inv w w' :
  is_authenticated rt self w = (Ok true, w') →
  flag_set w = true ∧ (w' = w ∨ w' = tick w).
Proof.
  unfold is_authenticated, bind at 1, get_session, flag_set.
  destruct (truthy _); simpl; [|by intros; simplify_eq].
  destruct (session_state w !! "login_time") as [v|];
    [|unfold ret; intros; simplify_eq; by auto].
  unfold bind at 1, lift.
  destruct (value_fromisoformat rt v) as [t|]; [|by intros; simplify_eq].
  unfold bind at 1, datetime_now.
  destruct (_ <? _); [|unfold ret; intros; simplify_eq; by auto].
  intros H.
  apply bind_inv in H as [(? & w1 & _ & H)|(? & _ & ?)]; [|done].
  unfold bind, show, ret in H. by simplify_eq.
Qed.

Lemma is_authenticated_true_session w w' :
  is_authenticated rt self w = (Ok true, w') →
  session_state w' = session_state w.
Proof.
  intros H. by destruct (is_authenticated_true_inv _ _ H) as [_ [-> | ->]].
Qed.

(** [get_current_user] when the session is alive. *)
Lemma get_current_user_alive w w1 :
  is_authenticated rt self w = (Ok true, w1) →
  get_current_user rt self w
  = match session_state w !! "user" with
    | Some (VDict data) =>
        (match (from_dict rt data).2 with
         | Ok user => Ok (Some user)
         | Raise e => Raise e
         end,
         set_session (<["user" := VDict (from_dict rt data).1]>) w1)
    | Some _ => (Raise AttributeError, w1)
    | None => (Ok None, w1)
    end.
Proof.
  intros H. unfold get_current_user. rewrite (bind_ok _ _ _ _ _ H).
  unfold bind at 1, get_session.
  rewrite (is_authenticated_true_session _ _ H).
  destruct (session_state w !! "user") as [[x|l|data]|]; try done.
  unfold from_dict, bind, modify_session, lift, ret. simpl.
  by destruct (User_init _).
Qed.

(** Reading the current user twice gives the same user: the first read
    rewrites the stored dictionary, the second finds it converted and
    leaves the session as it is. *)
Theorem current_user_is_stable w user w1 w2 :
  get_current_user rt self w = (Ok (Some user), w1) →
  is_authenticated rt self w1 = (Ok true, w2) →
  get_current_user rt self w1 = (Ok (Some user), w2)
  ∧ session_state w2 = session_state w1.
Proof.
  intros Hfirst Halive.
  pose proof (is_authenticated_true_session _ _ Halive) as Hs.
  split; [|done].
  unfold get_current_user in Hfirst.
  apply bind_inv in Hfirst as [(b & wa & Ha & Hfirst)|(? & _ & ?)]; [|done].
  destruct b; [|unfold ret in Hfirst; by simplify_eq].
  pose proof (is_authenticated_true_session _ _ Ha) as Hsa.
  unfold bind at 1, get_session in Hfirst.
  destruct (session_state wa !! "user") as [[x|l|data]|] eqn:Hu;
    try (unfold raise, ret in Hfirst; by simplify_eq).
  destruct (from_dict rt data) as [data' out] eqn:Hfd.
  unfold bind, modify_session, lift, ret in Hfirst.
  destruct out as [u|e]; [|by simplify_eq].
  injection Hfirst as -> <-.
  assert (session_state (set_session (<["user" := VDict data']>) wa)
            !! "user" = Some (VDict data')) as Hlook
    by (simpl; apply lookup_insert_eq).
  rewrite (get_current_user_alive _ _ Halive), Hlook.
  assert (from_dict rt data' = (data', Ok user)) as Hagain.
  { pose proof (from_dict_idemp data) as Hi. by rewrite Hfd in Hi. }
  rewrite Hagain. simpl. f_equal.
  apply set_session_id. rewrite Hs. simpl. apply insert_insert_eq.
Qed.


End current_user.

(** ** The permission table and the role methods *)

Section permission_table.
Context (rt : runtime) (self : AuthHandler).

Lemma permissions_lookup :
  permissions !! "view_all_data" = Some ["admin"; "manager"]
  ∧ permissions !! "export_data"
    = Some ["admin"; "manager"; "sales"; "supply_chain"]
  ∧ permissions !! "manage_users" = Some ["admin"]
  ∧ permissions !! "view_costs" = Some ["admin"; "manager"; "supply_chain"]
  ∧ permissions !! "edit_settings" = Some ["admin"].
Proof. repeat split; reflexivity. Qed.

(** The table row by row, for one user. *)
Lemma has_any_role_table user :
  let allowed permission :=
    has_any_role user (default [] (permissions !! permission)) in
  allowed "view_all_data" = can_view_all_data user
  ∧ allowed "manage_users" = is_admin user
  ∧ allowed "edit_settings" = is_admin user
  ∧ (allowed "export_data" = true → can_export_data user = true)
  ∧ (scalar_in (role user) user_roles = true →
     allowed "export_data" = can_export_data user)
  ∧ (scalar_in (role user) user_roles = false →
     can_export_data user = true
     ∧ allowed "view_all_data" = false ∧ allowed "export_data" = false
     ∧ allowed "manage_users" = false ∧ allowed "view_costs" = false
     ∧ allowed "edit_settings" = false)
  ∧ (is_admin user = true →
     allowed "view_all_data" = true ∧ allowed "export_data" = true
     ∧ allowed "manage_users" = true ∧ allowed "view_costs" = true
     ∧ allowed "edit_settings" = true)
  ∧ (role user = SStr UserRole.VIEWER →
     allowed "view_all_data" = false ∧ allowed "export_data" = false
     ∧ allowed "manage_users" = false ∧ allowed "view_costs" = false
     ∧ allowed "edit_settings" = false).
Proof.
  destruct permissions_lookup as (Hp1 & Hp2 & Hp3 & Hp4 & Hp5).
  cbv beta zeta. rewrite Hp1, Hp2, Hp3, Hp4, Hp5.
  unfold has_any_role, can_view_all_data, is_admin, can_export_data,
    user_roles, scalar_in, UserRole.ADMIN, UserRole.MANAGER, UserRole.SALES,
    UserRole.SUPPLY_CHAIN, UserRole.VIEWER.
  destruct (role user) as [| | |r|]; simpl; try (repeat split; by intros).
  destruct (String.eqb_spec r "admin") as [->|];
    [simpl; repeat split; by intros|].
  destruct (String.eqb_spec r "manager") as [->|];
    [simpl; repeat split; by intros|].
  destruct (String.eqb_spec r "sales") as [->|];
    [simpl; repeat split; by intros|].
  destruct (String.eqb_spec r "supply_chain") as [->|];
    [simpl; repeat split; by intros|].
  destruct (String.eqb_spec r "viewer") as [->|];
    simpl; repeat split; intros; try done; congruence.
Qed.

(** The permission table of [check_permission] against the role methods
    of [User]: ["view_all_data"] is [can_view_all_data], and
    ["manage_users"] and ["edit_settings"] are [is_admin].  Whoever has
    ["export_data"] satisfies [can_export_data], and on the five roles
    of [UserRole] the two agree; for any other role the method says yes
    and the table no.  An administrator has every permission of the
    table, and a viewer none. *)
Theorem permission_table_and_role_methods w user w' :
  get_current_user rt self w = (Ok (Some user), w') →
  check_permission rt self "view_all_data" w
  = (Ok (can_view_all_data user), w')
  ∧ check_permission rt self "manage_users" w = (Ok (is_admin user), w')
  ∧ check_permission rt self "edit_settings" w = (Ok (is_admin user), w')
  ∧ (check_permission rt self "export_data" w = (Ok true, w') →
     can_export_data user = true)
  ∧ (scalar_in (role user) user_roles = true →
     check_permission rt self "export_data" w
     = (Ok (can_export_data user), w'))
  ∧ (scalar_in (role user) user_roles = false →
     can_export_data user = true
     ∧ ∀ permission,
         check_permission rt self permission w = (Ok false, w'))
  ∧ (is_admin user = true →
     ∀ permission, permission ∈ permission_names →
                   check_permission rt self permission w = (Ok true, w'))
  ∧ (role user = SStr UserRole.VIEWER →
     ∀ permission,
       check_permission rt self permission w = (Ok false, w')).
Proof.
  intros Hcur.
  assert (∀ permission,
            check_permission rt self permission w
            = (Ok (has_any_role user (default [] (permissions !! permission))),
               w')) as Hrun
    by (intros permission; by rewrite check_permission_run, Hcur).
  assert (∀ permission (b : bool),
            (permission ∈ permission_names →
             has_any_role user (default [] (permissions !! permission)) = b) →
            (permission ∉ permission_names → b = false) →
            check_permission rt self permission w = (Ok b, w')) as Hcases.
  { intros permission b Hin Hout. rewrite Hrun.
    destruct (decide (permission ∈ permission_names)) as [H|H].
    - by rewrite Hin.
    - by rewrite permissions_unknown, Hout. }
  assert (∀ permission (b : bool),
            permission ∈ permission_names →
            has_any_role user (default [] (permissions !! "view_all_data")) = b →
            has_any_role user (default [] (permissions !! "export_data")) = b →
            has_any_role user (default [] (permissions !! "manage_users")) = b →
            has_any_role user (default [] (permissions !! "view_costs")) = b →
            has_any_role user (default [] (permissions !! "edit_settings")) = b →
            has_any_role user (default [] (permissions !! permission)) = b)
    as Hall.
  { intros permission b Hin H1 H2 H3 H4 H5. unfold permission_names in Hin.
    rewrite !elem_of_cons, elem_of_nil in Hin.
    by destruct Hin as [->|[->|[->|[->|[->|[]]]]]]. }
  destruct (has_any_role_table user)
    as (T1 & T2 & T3 & T4 & T5 & T6 & T7 & T8).
  rewrite !Hrun, T1, T2, T3.
  split; [done|]. split; [done|]. split; [done|].
  split; [intros H; apply T4; by injection H|].
  split; [intros H; by rewrite (T5 H)|].
  split.
  { intros H. destruct (T6 H) as (? & ? & ? & ? & ? & ?). split; [done|].
    intros permission. apply Hcases; [|done]. intros Hin. by apply Hall. }
  split.
  { intros H permission Hin. destruct (T7 H) as (? & ? & ? & ? & ?).
    rewrite Hrun. do 2 f_equal. by apply Hall. }
  intros H permission. destruct (T8 H) as (? & ? & ? & ? & ?).
  apply Hcases; [|done]. intros Hin. by apply Hall.
Qed.
End permission_table.

(** ** The page layer *)

Lemma run_returned {A} (m : M A) p a w :
  m (app p) = (Ok a, w) → run m p = (Returned a, mkPage w (shown p)).
Proof. unfold run. by intros ->. Qed.

Lemma run_raised {A} (m : M A) p e w :
  m (app p) = (Raise e, w) → run m p = (Raised e, mkPage w (shown p)).
Proof. unfold run. by intros ->. Qed.

Lemma pbind_returned {A B} (m : P A) (k : A → P B) p a p' :
  m p = (Returned a, p') → pbind m k p = k a p'.
Proof. unfold pbind. by intros ->. Qed.

Section guards.
Context (rt : runtime) (self : AuthHandler).

(** The notices of a guard that turns a visitor without a session away. *)
Lemma turned_away {A} (k : P A) p :
  ((emit AuthenticationRequired ;;; emit PleaseLogin ;;; (st_stop : P unit))
   ;;; k) p
  = (Stopped, login_required_page (app p) (shown p)).
Proof.
  unfold pbind, emit, st_stop, login_required_page. simpl.
  by rewrite <- app_assoc.
Qed.

(** Without an authenticated session (none was established, or the check
    itself has just ended it) the guards stop the script before the
    guarded function: [requires_auth] and [requires_role], for any roles,
    end the same way, with the two notices, whatever the function is. *)
Theorem guards_stop_without_a_session {A} (func : P A) allowed_roles p w1 :
  is_authenticated rt self (app p) = (Ok false, w1) →
  requires_auth rt self func p
  = (Stopped, login_required_page w1 (shown p))
  ∧ requires_role rt self allowed_roles func p
    = (Stopped, login_required_page w1 (shown p))
  ∧ requires_admin rt self func p
    = (Stopped, login_required_page w1 (shown p))
  ∧ requires_manager_or_above rt self func p
    = (Stopped, login_required_page w1 (shown p)).
Proof.
  intros H.
  assert (∀ roles, requires_role rt self roles func p
                   = (Stopped, login_required_page w1 (shown p))) as Hrole.
  { intros roles. unfold requires_role.
    rewrite (pbind_returned _ _ _ _ _ (run_returned _ _ _ _ H)).
    apply (turned_away _ (mkPage w1 (shown p))). }
  split; [|split; [apply Hrole|split; apply Hrole]].
  unfold requires_auth.
  rewrite (pbind_returned _ _ _ _ _ (run_returned _ _ _ _ H)).
  apply (turned_away _ (mkPage w1 (shown p))).
Qed.

(** [requires_auth] checks the session twice, once itself and once inside
    [refresh_session], and each check reads the clock.  When the session
    is alive at both readings the function runs on a session stamped
    with a third reading.  When the session times out between the two
    readings, the refresh ends it, and the function still runs: on a
    session that is no longer authenticated. *)
Theorem requires_auth_checks_twice {A} (func : P A) p s t0 :
  let w := app p in
  let c := clock_reads w in
  flag_set w = true →
  session_state w !! "login_time" = Some (VScalar (SStr s)) →
  fromisoformat rt s = Some t0 →
  clock rt c - t0 ≤ timedelta_seconds (session_timeout self) →
  (clock rt (S c) - t0 ≤ timedelta_seconds (session_timeout self) →
   requires_auth rt self func p
   = func (mkPage
             (set_session
                (<["login_time" :=
                     VScalar (SStr (isoformat rt (clock rt (S (S c)))))]>)
                (tick (tick (tick w))))
             (shown p)))
  ∧ (timedelta_seconds (session_timeout self) < clock rt (S c) - t0 →
     user_entry_ok w →
     ∃ w', requires_auth rt self func p = func (mkPage w' (shown p))
           ∧ session_state w' = torn_down (session_state w)
           ∧ ui w' = ui w ++ [WarnSessionExpired]
           ∧ flag_set w' = false).
Proof.
  intros w c Hflag Htime Hparse Hage.
  pose proof (is_authenticated_alive rt self w s t0 Hflag Htime Hparse Hage)
    as Hfirst.
  assert (requires_auth rt self func p
          = (run (refresh_session rt self) ;;; func)
              (mkPage (tick w) (shown p))) as Hrun.
  { unfold requires_auth.
    by rewrite (pbind_returned _ _ _ _ _ (run_returned _ _ _ _ Hfirst)). }
  rewrite Hrun. split.
  - intros Hsecond.
    pose proof (refresh_session_alive rt self (tick w) s t0 Hflag Htime
                  Hparse Hsecond) as Hr.
    by rewrite (pbind_returned _ _ _ _ _
                  (run_returned _ (mkPage (tick w) (shown p)) _ _ Hr)).
  - intros Hsecond Huser.
    destruct (is_authenticated_expired rt self (tick w) s t0 Hflag Htime
                Hparse Hsecond Huser) as (w' & Hw' & Hs & Hui).
    assert (refresh_session rt self (tick w) = (Ok tt, w')) as Hr
      by (unfold refresh_session; by rewrite (bind_ok _ _ _ _ _ Hw')).
    exists w'.
    rewrite (pbind_returned _ _ _ _ _
               (run_returned _ (mkPage (tick w) (shown p)) _ _ Hr)).
    split; [done|]. split; [done|]. split; [done|].
    destruct (torn_down_lookup (session_state (tick w))) as (_ & Ha & _).
    unfold flag_set. by rewrite Hs, Ha.
Qed.

(** [requires_role] lets the function run exactly when [check_access]
    answers [True] for the same roles: then the session is refreshed and
    the function called; otherwise the script stops with the three
    notices, the last one naming the visitor's role.  With an empty list
    of roles nobody gets through, whatever the function is. *)
Theorem requires_role_agrees_with_check_access {A} (func : P A)
    allowed_roles p w1 :
  is_authenticated rt self (app p) = (Ok true, w1) →
  (∀ w2, check_access rt self allowed_roles w1 = (Ok true, w2) →
         requires_role rt self allowed_roles func p
         = (run (refresh_session rt self) ;;; func) (mkPage w2 (shown p)))
  ∧ (∀ w2, check_access rt self allowed_roles w1 = (Ok false, w2) →
           ∃ current,
             get_current_user rt self w1 = (Ok current, w2)
             ∧ requires_role rt self allowed_roles func p
               = (Stopped,
                  access_denied_page allowed_roles (role <$> current) w2
                    (shown p)))
  ∧ (∀ e w2, check_access rt self allowed_roles w1 = (Raise e, w2) →
             requires_role rt self allowed_roles func p
             = (Raised e, mkPage w2 (shown p)))
  ∧ ∃ o p', (∀ g : P A, requires_role rt self [] g p = (o, p'))
            ∧ (o = Stopped ∨ ∃ e, o = Raised e).
Proof.
  intros Hfirst.
  assert (∀ roles (g : P A),
            requires_role rt self roles g p
            = match get_current_user rt self w1 with
              | (Ok current, w2) =>
                  if match current with
                     | None => true
                     | Some u => negb (has_any_role u roles)
                     end
                  then (Stopped,
                        access_denied_page roles (role <$> current) w2
                          (shown p))
                  else (run (refresh_session rt self) ;;; g)
                         (mkPage w2 (shown p))
              | (Raise e, w2) => (Raised e, mkPage w2 (shown p))
              end) as Hrun.
  { intros roles g. unfold requires_role.
    rewrite (pbind_returned _ _ _ _ _ (run_returned _ _ _ _ Hfirst)).
    unfold pbind, run, emit, st_stop, pret, access_denied_page. simpl.
    destruct (get_current_user rt self w1) as [[[u|]|e] w2]; simpl.
    - destruct (has_any_role u roles); simpl; [done|].
      by rewrite <- !app_assoc.
    - by rewrite <- !app_assoc.
    - done. }
  assert (∀ roles,
            check_access rt self roles w1
            = match get_current_user rt self w1 with
              | (Ok current, w2) =>
                  (Ok (match current with
                       | None => false
                       | Some u => has_any_role u roles
                       end), w2)
              | (Raise e, w2) => (Raise e, w2)
              end) as Hcheck.
  { intros roles. unfold check_access, bind.
    by destruct (get_current_user rt self w1) as [[[u|]|e] w2]. }
  rewrite Hrun, Hcheck.
  split; [|split; [|split]].
  - intros w2.
    destruct (get_current_user rt self w1) as [[[u|]|e] w3];
      intros E; [|done|done].
    injection E as Hb <-. by rewrite Hb.
  - intros w2.
    destruct (get_current_user rt self w1) as [[[u|]|e] w3];
      intros E; [| |done].
    + injection E as Hb <-. exists (Some u). by rewrite Hb.
    + injection E as <-. by exists None.
  - intros e w2.
    destruct (get_current_user rt self w1) as [[[u|]|e'] w3];
      intros E; by simplify_eq.
  - destruct (get_current_user rt self w1) as [[[u|]|e] w2] eqn:Hcur.
    + eexists _, _. split; [|by left]. intros g. by rewrite Hrun, ?Hcur.
    + eexists _, _. split; [|by left]. intros g. by rewrite Hrun, ?Hcur.
    + eexists _, _. split; [|right; by eexists]. intros g.
      by rewrite Hrun, ?Hcur.
Qed.
End guards.

(** ** The login form, the user menu and [protect_page] *)

Section pages.
Context (rt : runtime) (self : AuthHandler).

Lemma render_login_form_cases i p :
  ∃ o p',
    render_login_form rt self i p = (o, p')
    ∧ (o = Returned tt
       ∧ session_state (app p') !! "user" = session_state (app p) !! "user"
       ∧ session_state (app p') !! "authenticated"
         = session_state (app p) !! "authenticated"
       ∧ session_state (app p') !! "login_time"
         = session_state (app p) !! "login_time"
       ∨ o = Rerun
         ∧ submit i = true
         ∧ typed_username i ≠ "" ∧ typed_password i ≠ ""
         ∧ login rt self (typed_username i) (typed_password i) (app p)
           = (Ok true, app p')
         ∧ flag_set (app p') = true).
Proof.
  unfold render_login_form.
  destruct (submit i); [|eexists _, _; split; [done|]; by auto].
  destruct (String.eqb_spec (typed_username i) "") as [Hu|Hu];
    [eexists _, _; split; [done|]; by auto|].
  destruct (String.eqb_spec (typed_password i) "") as [Hp|Hp];
    [eexists _, _; split; [done|]; by auto|].
  simpl.
  destruct (login_returns rt self (typed_username i) (typed_password i)
              (app p)) as (b & w' & Hlogin).
  rewrite (pbind_returned _ _ _ _ _ (run_returned _ _ _ _ Hlogin)).
  destruct b.
  - eexists _, _. split; [done|].
    right. simpl. repeat split; try done.
    apply login_true_inv in Hlogin as (user & w0 & _ & ->).
    by destruct (established_session rt user w0).
  - eexists _, _. split; [done|].
    left. split; [done|]. simpl.
    apply login_false_same_except in Hlogin.
    by destruct (same_except_others _ _ _ Hlogin) as (? & ? & ? & _).
Qed.

(** The form ends in one of two ways.  It returns, and then the session
    keys are as before: nothing was submitted, a field was left empty
    (and then the handlers were not called at all), or the login was
    refused.  Or it asks for a rerun, and then a login with both fields
    filled in has answered [True] and the session is authenticated.  It
    never raises. *)
Theorem render_login_form_outcomes i p :
  ∃ o p',
    render_login_form rt self i p = (o, p')
    ∧ ((submit i = false ∨ typed_username i = "" ∨ typed_password i = "") →
       o = Returned tt ∧ app p' = app p)
    ∧ (o = Returned tt
       ∧ session_state (app p') !! "user" = session_state (app p) !! "user"
       ∧ session_state (app p') !! "authenticated"
         = session_state (app p) !! "authenticated"
       ∧ session_state (app p') !! "login_time"
         = session_state (app p) !! "login_time"
       ∨ o = Rerun
         ∧ submit i = true
         ∧ typed_username i ≠ "" ∧ typed_password i ≠ ""
         ∧ login rt self (typed_username i) (typed_password i) (app p)
           = (Ok true, app p')
         ∧ flag_set (app p') = true).
Proof.
  destruct (render_login_form_cases i p) as (o & p' & Hrun & Hcases).
  exists o, p'. split; [done|]. split; [|done].
  intros Hskip. revert Hrun. unfold render_login_form.
  destruct (submit i) eqn:Hsubmit.
  2:{ unfold pret. intros; by simplify_eq. }
  destruct (String.eqb_spec (typed_username i) "") as [Hu|Hu].
  { simpl. unfold emit. intros; by simplify_eq. }
  destruct (String.eqb_spec (typed_password i) "") as [Hp|Hp].
  { simpl. unfold emit. intros; by simplify_eq. }
  by destruct Hskip as [|[|]].
Qed.

(** A visitor without an authenticated session does not get past
    [protect_page]: the script stops after the form, or it is rerun after
    a login that succeeded.  In either case the [authenticated] entry
    exists afterwards. *)
Theorem protect_page_turns_anonymous_away i p :
  flag_set (app p) = false →
  ∃ o p',
    protect_page rt self i p = (o, p')
    ∧ is_Some (session_state (app p') !! "authenticated")
    ∧ (o = Stopped ∧ flag_set (app p') = false
       ∨ o = Rerun ∧ flag_set (app p') = true
         ∧ ∃ w, login rt self (typed_username i) (typed_password i) w
                = (Ok true, app p')).
Proof.
  intros Hflag. unfold protect_page.
  set (w0 := match session_state (app p) !! "authenticated" with
             | None =>
                 set_session (<["authenticated" := VScalar (SBool false)]>)
                   (app p)
             | Some _ => app p
             end).
  assert (run (s <- get_session ;;
               match s !! "authenticated" with
               | None =>
                   modify_session
                     (<["authenticated" := VScalar (SBool false)]>)
               | Some _ => ret tt
               end) p = (Returned tt, mkPage w0 (shown p))) as Hinit.
  { apply run_returned. unfold bind, get_session, w0.
    by destruct (session_state (app p) !! "authenticated"). }
  assert (flag_set w0 = false
          ∧ is_Some (session_state w0 !! "authenticated")) as [Hflag0 Hkey0].
  { unfold w0, flag_set in *.
    destruct (session_state (app p) !! "authenticated") as [v|] eqn:E.
    - by rewrite E.
    - simpl. by rewrite lookup_insert_eq. }
  rewrite (pbind_returned _ _ _ _ _ Hinit).
  pose proof (is_authenticated_anonymous rt self w0 Hflag0) as Hanon.
  rewrite (pbind_returned _ _ _ _ _
             (run_returned _ (mkPage w0 (shown p)) _ _ Hanon)).
  simpl.
  destruct (render_login_form_cases i (mkPage w0 (shown p)))
    as (o & p' & Hform
        & [(-> & Hu & Ha & Hl)|(-> & _ & _ & _ & Hlogin & Hset)]).
  - exists Stopped, p'. unfold pbind. rewrite Hform.
    split; [done|]. simpl in Ha. split; [by rewrite Ha|].
    left. split; [done|]. unfold flag_set in *. by rewrite Ha.
  - exists Rerun, p'. unfold pbind. rewrite Hform.
    split; [done|]. split.
    + unfold flag_set in Hset.
      by destruct (session_state (app p') !! "authenticated").
    + right. split; [done|]. split; [done|]. by eexists.
Qed.

Lemma get_current_user_some_entry w user w1 :
  get_current_user rt self w = (Ok (Some user), w1) →
  ∃ d, session_state w1 !! "user" = Some (VDict d).
Proof.
  unfold get_current_user. intros H.
  apply bind_inv in H as [(b & wa & Ha & H)|(? & _ & ?)]; [|done].
  destruct b; [|unfold ret in H; by simplify_eq].
  unfold bind at 1, get_session in H.
  destruct (session_state wa !! "user") as [[x|l|data]|];
    try (unfold raise, ret in H; by simplify_eq).
  destruct (from_dict rt data) as [data' out].
  unfold bind, modify_session, lift, ret in H.
  destruct out as [u|e]; [|by simplify_eq].
  injection H as _ <-. exists data'. simpl. apply lookup_insert_eq.
Qed.

(** The menu shows nothing to a visitor without a current user.  For a
    current user whose role is a string it shows the five lines, and a
    click on the logout button ends the session and asks for a rerun;
    a role that is not a string makes the menu raise. *)
Theorem render_user_menu_outcomes i p current w1 :
  get_current_user rt self (app p) = (Ok current, w1) →
  (current = None →
   render_user_menu rt self i p = (Returned tt, mkPage w1 (shown p)))
  ∧ (∀ user r,
       current = Some user → role user = SStr r →
       ∃ p',
         render_user_menu rt self i p
         = (if logout_clicked i then Rerun else Returned tt, p')
         ∧ shown p' = shown p ++ menu_lines (length (ui w1)) user r
         ∧ (logout_clicked i = false → app p' = w1)
         ∧ (logout_clicked i = true →
            session_state (app p') = torn_down (session_state w1)
            ∧ flag_set (app p') = false))
  ∧ (∀ user,
       current = Some user → (∀ r, role user ≠ SStr r) →
       ∃ e p', render_user_menu rt self i p = (Raised e, p')
               ∧ app p' = w1).
Proof.
  intros Hcur. unfold render_user_menu.
  rewrite (pbind_returned _ _ _ _ _ (run_returned _ _ _ _ Hcur)).
  split; [by intros ->|]. split.
  - intros user r -> Hrole. rewrite Hrole.
    destruct (get_current_user_some_entry _ _ _ Hcur) as [d Hd].
    destruct (logout_clicked i) eqn:Hclick.
    + pose proof (logout_ok w1 (or_intror (ex_intro _ d Hd))) as Hout.
      eexists. unfold pbind, emit, run. simpl. rewrite Hout. simpl.
      split; [done|]. simpl. split; [by rewrite <- !app_assoc|].
      split; [done|]. intros _. split; [done|].
      unfold flag_set. simpl.
      by destruct (torn_down_lookup (session_state w1)) as (_ & -> & _).
    + eexists. unfold pbind, emit, pret. simpl.
      split; [done|]. simpl. split; [by rewrite <- !app_assoc|].
      split; [by intros _|done].
  - intros user -> Hrole.
    destruct (role user) as [| | |r|d] eqn:E;
      try (eexists _, _; split; [done|done]).
    by destruct (Hrole r).
Qed.
End pages.

(** ** A login that loses the store half way *)

Section store_loss.
Context (rt : runtime) (self : AuthHandler).

(** The password is right, but the store is lost after the credentials
    query: [update_last_login] swallows its error, [get_user] answers
    [None] after its three attempts, and so [login] answers [False]
    without showing any message.  The attempts recorded for the username
    have been cleared all the same, and no session is established. *)
Theorem login_after_store_loss name password w w0 row rest :
  is_account_locked rt self name w = (Ok false, w0) →
  live_rows name (users w) = row :: rest →
  row_is_active row = Some true →
  (∀ w1, (verify_password rt password (default "" (row_password_hash row))
            (default "" (row_password_salt row)) w1).1 = Ok true) →
  conn_ok rt (conn_attempts w) = true →
  conn_ok rt (S (conn_attempts w)) = false →
  conn_ok rt (S (S (conn_attempts w))) = false →
  conn_ok rt (S (S (S (conn_attempts w)))) = false →
  conn_ok rt (S (S (S (S (conn_attempts w))))) = false →
  ∃ w',
    login rt self name password w = (Ok false, w')
    ∧ ui w' = ui w
    ∧ session_state w' = delete (failed_attempts_key name) (session_state w0)
    ∧ store_log w' = store_log w ++ [SelectCredentials name]
    ∧ users w' = users w
    ∧ conn_attempts w' = (5 + conn_attempts w)%nat.
Proof.
  intros Hlock Hrows Hactive Hverify H0 H1 H2 H3 H4.
  destruct (is_account_locked_frame rt self _ _ _ _ Hlock)
    as (Hu & Hlog & Hui & Hc & _).
  assert (∃ w',
            authenticate rt self name password w = (Ok None, w')
            ∧ ui w' = ui w
            ∧ session_state w'
              = delete (failed_attempts_key name) (session_state w0)
            ∧ store_log w' = store_log w ++ [SelectCredentials name]
            ∧ users w' = users w
            ∧ conn_attempts w' = (5 + conn_attempts w)%nat)
    as (w' & Hauth & Hw').
  { rewrite (authenticate_not_locked _ _ _ _ _ _ Hlock).
    unfold try_except, bind at 1, execute_query.
    rewrite execute_query_from_eq.
    assert (attempts_until_ok rt connection_retries (conn_attempts w0)
            = Some (S (conn_attempts w))) as -> by (simpl; by rewrite Hc, H0).
    change (rows_of (SelectCredentials name) (users w0))
      with (live_rows name (users w0)).
    rewrite Hu, Hrows, Hactive.
    change (negb (default false (Some true))) with false. cbv iota.
    destruct (verify_password_frame rt password
                (default "" (row_password_hash row))
                (default "" (row_password_salt row))
                (queried (SelectCredentials name) (S (conn_attempts w)) w0))
      as (b & d & Hv).
    pose proof (Hverify (queried (SelectCredentials name)
                           (S (conn_attempts w)) w0)) as Hb.
    rewrite Hv in Hb. simpl in Hb. injection Hb as ->.
    rewrite (bind_ok _ _ _ _ _ Hv).
    unfold bind at 1, clear_failed_attempts, modify_session.
    unfold bind at 1. rewrite update_last_login_run. simpl.
    rewrite H1. rewrite get_user_run. simpl.
    rewrite H2, H3, H4. eexists. split; [done|]. simpl.
    by rewrite Hui, Hlog, Hu. }
  exists w'. split; [|done].
  unfold login, try_except, bind at 1. by rewrite Hauth.
Qed.
End store_loss.

(** ** The properties on the worked scenarios *)

Lemma scenario_steady first :
  steady Scenario.rt Scenario.handler first.
Proof.
  intros i _.
  change ((1000 + Z.of_nat (S i)) * 1000000 - (1000 + Z.of_nat i) * 1000000
          ≤ 3600 * 1000000).
  lia.
Qed.

Lemma alice_logged_in_login_time :
  flag_set alice_logged_in = true
  ∧ session_state alice_logged_in !! "login_time"
    = Some (VScalar (SStr "1001000000"))
  ∧ fromisoformat Scenario.rt "1001000000" = Some 1001000000.
Proof. repeat split; vm_compute; reflexivity. Qed.

Lemma alice_logged_in_user_entry w :
  session_state w = session_state alice_logged_in → user_entry_ok w.
Proof.
  intros E0. unfold user_entry_ok. rewrite E0.
  destruct (session_state alice_logged_in !! "user") as [[x|l|d]|] eqn:E;
    try (vm_compute in E; discriminate E).
  right. by exists d.
Qed.

(** The first failure recorded for "carol". *)
Lemma first_failure_of_carol :
  ∃ old kept,
    recorded_attempts Scenario.fresh "carol" = VList old
    ∧ session_state
        (record_failed_attempt Scenario.rt Scenario.handler "carol"
           Scenario.fresh).2 !! failed_attempts_key "carol"
      = Some (VList kept)
    ∧ sublist kept
        (old ++ [SStr (isoformat Scenario.rt
                         (clock Scenario.rt (clock_reads Scenario.fresh)))])
    ∧ Forall (younger_than Scenario.rt
                (clock Scenario.rt (S (clock_reads Scenario.fresh))
                 - timedelta_seconds (lockout_duration Scenario.handler)))
        kept
    ∧ ui (record_failed_attempt Scenario.rt Scenario.handler "carol"
            Scenario.fresh).2
      = ui Scenario.fresh ++ [failure_message Scenario.handler kept].
Proof.
  apply (record_failed_attempt_prunes Scenario.rt Scenario.handler "carol"
           Scenario.fresh).
  vm_compute. reflexivity.
Defined.

(** "bob", whose account is deactivated, is told so. *)
Lemma bob_is_told_why :
  ∃ msg,
    (authenticate Scenario.rt Scenario.handler "bob" "hunter2"
       Scenario.fresh).1 = Raise (AuthenticationError msg)
    ∧ msg ∈ authenticator_messages.
Proof.
  destruct (authenticate Scenario.rt Scenario.handler "bob" "hunter2"
              Scenario.fresh) as [[u|e] w'] eqn:E;
    [vm_compute in E; discriminate E|].
  destruct (authenticate_raises_authentication_errors Scenario.rt
              Scenario.handler "bob" "hunter2" Scenario.fresh false
              Scenario.fresh e w') as (msg & -> & Hin).
  - vm_compute. reflexivity.
  - exact E.
  - by exists msg.
Defined.

(** "alice" is logged in; a refused login for "bob" in the same browser
    session leaves her session as it is. *)
Lemma bob_fails_in_the_session_of_alice :
  session_state
    (login Scenario.rt Scenario.handler "bob" "hunter2" alice_logged_in).2
    !! "user" = session_state alice_logged_in !! "user"
  ∧ session_state
      (login Scenario.rt Scenario.handler "bob" "hunter2" alice_logged_in).2
      !! "authenticated" = session_state alice_logged_in !! "authenticated"
  ∧ session_state
      (login Scenario.rt Scenario.handler "bob" "hunter2" alice_logged_in).2
      !! "login_time" = session_state alice_logged_in !! "login_time"
  ∧ (∀ other, other ≠ "bob" →
       recorded_attempts
         (login Scenario.rt Scenario.handler "bob" "hunter2"
            alice_logged_in).2 other
       = recorded_attempts alice_logged_in other).
Proof.
  apply (failed_login_keeps_session Scenario.rt Scenario.handler "bob"
           "hunter2" alice_logged_in).
  vm_compute. reflexivity.
Defined.

(** "alice" tries to log in during an outage. *)
Lemma alice_during_an_outage :
  ∃ w',
    login outage_rt Scenario.handler "alice" "secret" Scenario.fresh
    = (Ok false, w')
    ∧ ui w' = ui Scenario.fresh ++ [ErrMessage AUTHENTICATION_FAILED]
    ∧ session_state w' = session_state Scenario.fresh
    ∧ recorded_attempts w' "alice" = recorded_attempts Scenario.fresh "alice"
    ∧ store_log w' = store_log Scenario.fresh
    ∧ users w' = users Scenario.fresh
    ∧ conn_attempts w' = (3 + conn_attempts Scenario.fresh)%nat.
Proof.
  apply (login_store_down outage_rt Scenario.handler "alice" "secret"
           Scenario.fresh Scenario.fresh); reflexivity.
Defined.

(** With no attempt allowed, "alice" cannot log in with the right
    password. *)
Lemma alice_with_no_attempts_allowed :
  login Scenario.rt no_attempts_handler "alice" "secret" Scenario.fresh
  = (Ok false,
     mkWorld (session_state Scenario.fresh) (users Scenario.fresh)
             (store_log Scenario.fresh)
             (ui Scenario.fresh
                ++ [ErrMessage "An error occurred during login"])
             (clock_reads Scenario.fresh) (conn_attempts Scenario.fresh)
             (token_draws Scenario.fresh)).
Proof.
  apply (login_with_nonpositive_max_attempts Scenario.rt no_attempts_handler
           "alice" "secret" Scenario.fresh).
  - by vm_compute.
  - reflexivity.
Defined.

(** "alice" logs out. *)
Lemma alice_logs_out :
  ∃ w',
    logout alice_logged_in = (Ok tt, w')
    ∧ is_authenticated Scenario.rt Scenario.handler w' = (Ok false, w')
    ∧ get_current_user Scenario.rt Scenario.handler w' = (Ok None, w')
    ∧ (∀ name,
         recorded_attempts w' name = recorded_attempts alice_logged_in name)
    ∧ logout w' = (Ok tt, w').
Proof.
  apply (logout_ends_the_session_only Scenario.rt Scenario.handler
           alice_logged_in).
  by apply alice_logged_in_user_entry.
Defined.

(** A timed-out session whose [user] entry is a string cannot be ended. *)
Lemma damaged_user_entry_blocks_logout :
  logout alice_with_a_damaged_user_entry
  = (Raise AttributeError, alice_with_a_damaged_user_entry)
  ∧ is_authenticated Scenario.rt Scenario.handler
      alice_with_a_damaged_user_entry
    = (Raise AttributeError, tick alice_with_a_damaged_user_entry).
Proof.
  destruct (logout_needs_a_user_dict Scenario.rt Scenario.handler
              alice_with_a_damaged_user_entry (VScalar (SStr "alice")))
    as [Hlogout Hcheck].
  - vm_compute. reflexivity.
  - intros d. discriminate.
  - split; [exact Hlogout|].
    apply (Hcheck "1001000000" 1001000000).
    + vm_compute. reflexivity.
    + vm_compute. reflexivity.
    + vm_compute. reflexivity.
    + by vm_compute.
Defined.

(** Four thousand refreshes, two clock readings each, take "alice" more
    than two hours past her login, and the session is still alive. *)
Lemma alice_keeps_clicking :
  ∃ w',
    refresh_times Scenario.rt Scenario.handler 4000 alice_logged_in
    = (Ok tt, w')
    ∧ clock_reads w' = (clock_reads alice_logged_in + 2 * 4000)%nat
    ∧ is_authenticated Scenario.rt Scenario.handler w' = (Ok true, tick w')
    ∧ session_state w' !! "user" = session_state alice_logged_in !! "user".
Proof.
  destruct alice_logged_in_login_time as (Hflag & Htime & Hparse).
  apply (refreshed_session_stays_alive Scenario.rt Scenario.handler 4000
           alice_logged_in "1001000000" 1001000000 Hflag Htime Hparse).
  - by vm_compute.
  - apply scenario_steady.
Defined.

(** Two hours after the login a refresh comes too late. *)
Lemma alice_comes_back_too_late :
  ∃ w',
    refresh_session Scenario.rt Scenario.handler alice_two_hours_later
    = (Ok tt, w')
    ∧ session_state w' = torn_down (session_state alice_two_hours_later)
    ∧ session_state w' !! "login_time" = None
    ∧ is_authenticated Scenario.rt Scenario.handler w' = (Ok false, w').
Proof.
  destruct alice_logged_in_login_time as (Hflag & Htime & Hparse).
  apply (late_refresh_does_not_revive Scenario.rt Scenario.handler
           alice_two_hours_later "1001000000" 1001000000 Hflag Htime Hparse).
  - by vm_compute.
  - by apply alice_logged_in_user_entry.
Defined.

(** The current user of "alice"'s session, read twice. *)
Lemma alice_is_read_twice :
  ∃ user w2,
    (get_current_user Scenario.rt Scenario.handler alice_logged_in).1
    = Ok (Some user)
    ∧ get_current_user Scenario.rt Scenario.handler
        (get_current_user Scenario.rt Scenario.handler alice_logged_in).2
      = (Ok (Some user), w2)
    ∧ session_state w2
      = session_state
          (get_current_user Scenario.rt Scenario.handler alice_logged_in).2.
Proof.
  destruct (get_current_user Scenario.rt Scenario.handler alice_logged_in)
    as [[[user|]|e] w1] eqn:H1; [|vm_compute in H1; discriminate H1..].
  assert (is_authenticated Scenario.rt Scenario.handler w1
          = (Ok true, tick w1)) as H2.
  { replace w1
      with (get_current_user Scenario.rt Scenario.handler alice_logged_in).2
      by (by rewrite H1).
    vm_compute. reflexivity. }
  exists user, (tick w1). split; [reflexivity|].
  exact (current_user_is_stable Scenario.rt Scenario.handler
           alice_logged_in user w1 (tick w1) H1 H2).
Defined.


(** "alice" is an administrator: what the table and the methods say. *)
Lemma alice_has_every_permission :
  ∃ user w',
    get_current_user Scenario.rt Scenario.handler alice_logged_in
    = (Ok (Some user), w')
    ∧ is_admin user = true
    ∧ ∀ permission,
        permission ∈ permission_names →
        check_permission Scenario.rt Scenario.handler permission
          alice_logged_in = (Ok true, w').
Proof.
  destruct (get_current_user Scenario.rt Scenario.handler alice_logged_in)
    as [[[user|]|e] w'] eqn:E; [|vm_compute in E; discriminate E..].
  assert (is_admin user = true) as Hadmin.
  { pose proof E as E'. vm_compute in E'. by injection E' as <- _. }
  exists user, w'. split; [reflexivity|]. split; [exact Hadmin|].
  destruct (permission_table_and_role_methods Scenario.rt Scenario.handler
              alice_logged_in user w' E)
    as (_ & _ & _ & _ & _ & _ & Hall & _).
  exact (Hall Hadmin).
Defined.

(** A visitor without a session meets the guards. *)
Lemma stranger_meets_the_guards :
  requires_auth Scenario.rt Scenario.handler (pret tt)
    (mkPage Scenario.fresh [])
  = (Stopped, login_required_page Scenario.fresh [])
  ∧ requires_role Scenario.rt Scenario.handler [UserRole.SALES] (pret tt)
      (mkPage Scenario.fresh [])
    = (Stopped, login_required_page Scenario.fresh [])
  ∧ requires_admin Scenario.rt Scenario.handler (pret tt)
      (mkPage Scenario.fresh [])
    = (Stopped, login_required_page Scenario.fresh [])
  ∧ requires_manager_or_above Scenario.rt Scenario.handler (pret tt)
      (mkPage Scenario.fresh [])
    = (Stopped, login_required_page Scenario.fresh []).
Proof.
  apply (guards_stop_without_a_session Scenario.rt Scenario.handler
           (pret tt) [UserRole.SALES] (mkPage Scenario.fresh [])
           Scenario.fresh).
  reflexivity.
Defined.

(** "alice" opens a guarded page in the last second of her session: the
    first check passes, the second one ends the session, and the page
    body runs all the same. *)
Lemma alice_in_the_last_second :
  ∃ w',
    requires_auth Scenario.rt Scenario.handler (pret tt)
      (mkPage alice_at_the_last_second [])
    = (Returned tt, mkPage w' [])
    ∧ session_state w' = torn_down (session_state alice_at_the_last_second)
    ∧ ui w' = ui alice_at_the_last_second ++ [WarnSessionExpired]
    ∧ flag_set w' = false.
Proof.
  destruct alice_logged_in_login_time as (Hflag & Htime & Hparse).
  destruct (requires_auth_checks_twice Scenario.rt Scenario.handler
              (pret tt) (mkPage alice_at_the_last_second [])
              "1001000000" 1001000000 Hflag Htime Hparse)
    as [_ Hlate].
  - by vm_compute.
  - apply Hlate.
    + by vm_compute.
    + by apply alice_logged_in_user_entry.
Defined.

(** "alice" is an administrator, and a page for managers only turns her
    away. *)
Lemma alice_on_a_page_for_managers :
  ∃ current,
    get_current_user Scenario.rt Scenario.handler (tick alice_logged_in)
    = (Ok current,
       (check_access Scenario.rt Scenario.handler [UserRole.MANAGER]
          (tick alice_logged_in)).2)
    ∧ requires_role Scenario.rt Scenario.handler [UserRole.MANAGER]
        (pret tt) (mkPage alice_logged_in [])
      = (Stopped,
         access_denied_page [UserRole.MANAGER] (role <$> current)
           (check_access Scenario.rt Scenario.handler [UserRole.MANAGER]
              (tick alice_logged_in)).2 []).
Proof.
  destruct (requires_role_agrees_with_check_access Scenario.rt
              Scenario.handler (pret tt) [UserRole.MANAGER]
              (mkPage alice_logged_in []) (tick alice_logged_in))
    as (_ & Hdenied & _).
  - vm_compute. reflexivity.
  - apply Hdenied. vm_compute. reflexivity.
Defined.

(** "alice" fills in the form on a protected page. *)
Lemma alice_fills_in_the_form :
  ∃ o p',
    protect_page Scenario.rt Scenario.handler alice_submits
      (mkPage Scenario.fresh []) = (o, p')
    ∧ is_Some (session_state (app p') !! "authenticated")
    ∧ (o = Stopped ∧ flag_set (app p') = false
       ∨ o = Rerun ∧ flag_set (app p') = true
         ∧ ∃ w, login Scenario.rt Scenario.handler
                  (typed_username alice_submits)
                  (typed_password alice_submits) w
                = (Ok true, app p')).
Proof.
  apply (protect_page_turns_anonymous_away Scenario.rt Scenario.handler
           alice_submits (mkPage Scenario.fresh [])).
  reflexivity.
Defined.

(** "alice" clicks the logout button of the menu. *)
Lemma alice_clicks_logout :
  ∃ user w1 p',
    get_current_user Scenario.rt Scenario.handler alice_logged_in
    = (Ok (Some user), w1)
    ∧ render_user_menu Scenario.rt Scenario.handler logout_click
        (mkPage alice_logged_in []) = (Rerun, p')
    ∧ shown p' = menu_lines (length (ui w1)) user "admin"
    ∧ session_state (app p') = torn_down (session_state w1)
    ∧ flag_set (app p') = false.
Proof.
  destruct (get_current_user Scenario.rt Scenario.handler alice_logged_in)
    as [[[user|]|e] w1] eqn:E; [|vm_compute in E; discriminate E..].
  assert (role user = SStr "admin") as Hrole.
  { pose proof E as E'. vm_compute in E'. by injection E' as <- _. }
  destruct (render_user_menu_outcomes Scenario.rt Scenario.handler
              logout_click (mkPage alice_logged_in []) (Some user) w1 E)
    as (_ & Hmenu & _).
  destruct (Hmenu user "admin" eq_refl Hrole)
    as (p' & Hrun & Hshown & _ & Hout).
  destruct (Hout eq_refl) as [Hsession Hflag].
  exists user, w1, p'.
  split; [reflexivity|]. split; [exact Hrun|]. split; [exact Hshown|].
  split; [exact Hsession|exact Hflag].
Defined.

(** "alice" gives the right password, and the store is lost right after
    the credentials query. *)
Lemma alice_loses_the_store :
  ∃ w',
    login first_attempt_only_rt Scenario.handler "alice" "secret"
      Scenario.fresh = (Ok false, w')
    ∧ ui w' = ui Scenario.fresh
    ∧ session_state w'
      = delete (failed_attempts_key "alice") (session_state Scenario.fresh)
    ∧ store_log w' = store_log Scenario.fresh ++ [SelectCredentials "alice"]
    ∧ users w' = users Scenario.fresh
    ∧ conn_attempts w' = (5 + conn_attempts Scenario.fresh)%nat.
Proof.
  apply (login_after_store_loss first_attempt_only_rt Scenario.handler
           "alice" "secret" Scenario.fresh Scenario.fresh Scenario.alice []).
  - reflexivity.
  - reflexivity.
  - reflexivity.
  - intros w1. reflexivity.
  - reflexivity.
  - reflexivity.
  - reflexivity.
  - reflexivity.
  - reflexivity.
Defined.
